(** * OpenAI chat application: sessions, conversations and the message list

    A shallow embedding of [openai_chat_app.py]: the token-count wrapper
    ([_ModelsWrapper]), the chat session ([OpenAIChatSession]), the
    conversation ([Conversation]) and the part of the window controller
    ([AIChatApp]) that fills the message list.

    The remote chat service, the tokenizer library and the console are
    outside the program; they are parameters of the development (section
    variables) or components of an explicit world state.  Python exceptions
    are modelled by an outcome type, objects by records that are threaded
    through a state-and-exception monad. *)

From Stdlib Require Import ZArith String Ascii DecimalString Sorted.
From stdpp Require Import gmap strings list.

Local Open Scope string_scope.
Local Open Scope list_scope.
Local Open Scope Z_scope.

(** ** Python strings

    A Python [str] is modelled by a Rocq [string]; an [ascii] stands for one
    character (code points 0..255), so [String.length] is Python's [len] and
    [substring 0 n] is the slice [[:n]]. *)

Module PyStr.

(** [s.startswith(p)] *)
Definition startswith (s p : string) : bool := String.prefix p s.

(** [sub in s] on strings: some suffix of [s] starts with [sub]. *)
Fixpoint contains (sub s : string) : bool :=
  String.prefix sub s ||
  match s with
  | EmptyString => false
  | String _ rest => contains sub rest
  end.

(** The characters [str.isspace] accepts among the code points below 256:
    tab, line feed, vertical tab, form feed, carriage return, the four
    separators 0x1c..0x1f, space, next-line 0x85 and no-break space 0xa0. *)
Definition isspace (c : ascii) : bool :=
  let n := nat_of_ascii c in
  ((9 <=? n) && (n <=? 13) || (28 <=? n) && (n <=? 32)
   || (n =? 133) || (n =? 160))%nat.

Fixpoint lstrip (s : string) : string :=
  match s with
  | EmptyString => EmptyString
  | String c rest => if isspace c then lstrip rest else s
  end.

(** [rstrip] drops the trailing white space: a character is kept when it
    is not white space or something is kept after it. *)
Fixpoint rstrip (s : string) : string :=
  match s with
  | EmptyString => EmptyString
  | String c rest =>
      match rstrip rest with
      | EmptyString => if isspace c then EmptyString else String c EmptyString
      | kept => String c kept
      end
  end.

(** [s.strip()] *)
Definition strip (s : string) : string := rstrip (lstrip s).

(** The line feed character as a string. *)
Definition newline : string := String (ascii_of_nat 10) EmptyString.

(** [sep.join(parts)] *)
Fixpoint join (sep : string) (parts : list string) : string :=
  match parts with
  | [] => EmptyString
  | [p] => p
  | p :: rest => p +:+ sep +:+ join sep rest
  end.

Definition is_lower (c : ascii) : bool :=
  let n := nat_of_ascii c in ((97 <=? n) && (n <=? 122))%nat.
Definition is_upper (c : ascii) : bool :=
  let n := nat_of_ascii c in ((65 <=? n) && (n <=? 90))%nat.
Definition upper_char (c : ascii) : ascii :=
  if is_lower c then ascii_of_nat (nat_of_ascii c - 32) else c.
Definition lower_char (c : ascii) : ascii :=
  if is_upper c then ascii_of_nat (nat_of_ascii c + 32) else c.

Fixpoint lower (s : string) : string :=
  match s with
  | EmptyString => EmptyString
  | String c rest => String (lower_char c) (lower rest)
  end.


(** [s.capitalize()] on a string of ASCII characters: the first character
    upper-cased, the others lower-cased.  The letters a..z and A..Z are mapped
    and every other character is kept; Python maps the letters outside ASCII
    as well, so what is stated of a capitalised text is stated for ASCII
    strings ([is_ascii]). *)
Definition capitalize (s : string) : string :=
  match s with
  | EmptyString => EmptyString
  | String c rest => String (upper_char c) (lower rest)
  end.

(** [str(n)] for an integer. *)
Definition of_int (n : Z) : string := NilZero.string_of_int (Z.to_int n).

(** A non-empty string is true. *)
Definition truthy (s : string) : bool :=
  match s with EmptyString => false | _ => true end.

(** The quotes and the backslash as strings. *)
Definition squote : string := "'".
Definition dquote : string := String (ascii_of_nat 34) EmptyString.
Definition backslash : string := String (ascii_of_nat 92) EmptyString.

Definition hex_digit (n : nat) : string := substring n 1 "0123456789abcdef".

(** The characters [repr] writes as they are; the control characters, the
    no-break space and the soft hyphen are written as escapes. *)
Definition is_printable (c : ascii) : bool :=
  let n := nat_of_ascii c in
  negb ((n <? 32) || ((127 <=? n) && (n <=? 160)) || (n =? 173))%nat.

Definition repr_char (quote : string) (c : ascii) : string :=
  let n := nat_of_ascii c in
  let s := String c EmptyString in
  if String.eqb s backslash then backslash +:+ backslash
  else if String.eqb s quote then backslash +:+ quote
  else if (n =? 9)%nat then backslash +:+ "t"
  else if (n =? 10)%nat then backslash +:+ "n"
  else if (n =? 13)%nat then backslash +:+ "r"
  else if is_printable c then s
  else backslash +:+ "x" +:+ hex_digit (n / 16) +:+ hex_digit (n mod 16).

(** [repr(s)]: single quotes, or double quotes when the string holds a
    single quote and no double quote. *)
Definition repr (s : string) : string :=
  let quote := if contains squote s && negb (contains dquote s) then dquote else squote in
  quote +:+ String.concat EmptyString (map (repr_char quote) (list_ascii_of_string s))
  +:+ quote.

End PyStr.

(** ** Python values

    The values that can sit in a history list or be handed to the token
    counter: [None], booleans, integers, strings, lists and dictionaries with
    string keys.  A dictionary keeps its insertion order, so it is an
    association list; [dict_get] returns the first binding of a key. *)

#[warnings="-register-all"] Inductive pyval : Type :=
| VNone
| VBool (b : bool)
| VInt (n : Z)
| VStr (s : string)
| VList (l : list pyval)
| VDict (d : list (string * pyval)).

Fixpoint dict_lookup (d : list (string * pyval)) (k : string) : option pyval :=
  match d with
  | [] => None
  | (k', v) :: rest => if String.eqb k' k then Some v else dict_lookup rest k
  end.

(** [d.get(k, default)] *)
Definition dict_get (d : list (string * pyval)) (k : string) (default : pyval) : pyval :=
  match dict_lookup d k with
  | Some v => v
  | None => default
  end.

(** Truth value of a Python value, as [if v:], [not v] and [v or w] test it. *)
Definition truthy (v : pyval) : bool :=
  match v with
  | VNone => false
  | VBool b => b
  | VInt n => negb (n =? 0)
  | VStr s => PyStr.truthy s
  | VList l => match l with [] => false | _ => true end
  | VDict d => match d with [] => false | _ => true end
  end.

(** [v == "text"] for a string literal. *)
Definition eq_str (v : pyval) (text : string) : bool :=
  match v with
  | VStr s => String.eqb s text
  | _ => false
  end.

(** The record the conversation stores for one message:
    [{"role": role, "message_text": text}]. *)
Definition message (role text : string) : pyval :=
  VDict [("role", VStr role); ("message_text", VStr text)].

(** ** Exceptions

    A Python exception is represented by the text [str(e)] gives.  A
    computation either returns a value or raises. *)

Inductive exn : Type := Exception (text : string).

Definition exn_text (e : exn) : string := let 'Exception t := e in t.

Inductive outcome (A : Type) : Type :=
| Returns (a : A)
| Raises (e : exn).
Arguments Returns {A} a.
Arguments Raises {A} e.

Definition returned {A} (o : outcome A) : Prop := ∃ a, o = Returns a.

(** Pure code that may raise. *)
Definition obind {A B} (o : outcome A) (k : A → outcome B) : outcome B :=
  match o with
  | Returns a => k a
  | Raises e => Raises e
  end.

(** [try: body  except Exception: handler] for pure code. *)
Definition otry {A} (body : outcome A) (handler : exn → outcome A) : outcome A :=
  match body with
  | Returns a => Returns a
  | Raises e => handler e
  end.

(** Code that reads and writes a state [S] and may raise.  The state reached
    when an exception is raised is kept: Python does not roll back. *)
Definition M (S A : Type) : Type := S → outcome A * S.

Definition ret {S A} (a : A) : M S A := λ s, (Returns a, s).
Definition raise {S A} (e : exn) : M S A := λ s, (Raises e, s).
Definition bind {S A B} (m : M S A) (k : A → M S B) : M S B :=
  λ s, match m s with
       | (Returns a, s') => k a s'
       | (Raises e, s') => (Raises e, s')
       end.
Definition put {S} (s : S) : M S unit := λ _, (Returns tt, s).
Definition modify {S} (f : S → S) : M S unit := λ s, (Returns tt, f s).
Definition lift {S A} (o : outcome A) : M S A := λ s, (o, s).

(** [try: body  except Exception as e: handler e] *)
Definition try_except {S A} (body : M S A) (handler : exn → M S A) : M S A :=
  λ s, match body s with
       | (Returns a, s') => (Returns a, s')
       | (Raises e, s') => handler e s'
       end.

(** Run a computation on a component of the state. *)
Definition zoom {S T A} (proj : S → T) (inj : T → S → S) (m : M T A) : M S A :=
  λ s, let '(r, t') := m (proj s) in (r, inj t' s).

Declare Scope py_scope.
Delimit Scope py_scope with py.
Notation "x <~ m ;; k" := (bind m (λ x, k))
  (at level 100, m at next level, right associativity) : py_scope.
Notation "m ;;; k" := (bind m (λ _, k))
  (at level 100, right associativity) : py_scope.

(** [for x in xs: acc = body acc x], stopping at the first exception. *)
Fixpoint ofold {A B} (body : B → A → outcome B) (xs : list A) (acc : B) : outcome B :=
  match xs with
  | [] => Returns acc
  | x :: rest => obind (body acc x) (ofold body rest)
  end.

(** ** The tokenizer library (tiktoken)

    An encoding turns a text into a list of tokens, or raises (text that
    spells a special token, an argument that is not a string).  The library
    offers two lookups, by model name and by encoding name; both may raise. *)

Definition token : Type := nat.

Record encoding : Type := {
  enc_name : string;
  encode : pyval → outcome (list token)
}.

Record tiktoken_lib : Type := {
  encoding_for_model : string → outcome encoding;
  get_encoding : string → outcome encoding
}.

(** [len(tokens)] as a Python integer. *)
Definition len {A} (l : list A) : Z := Z.of_nat (length l).

(** ** [_ModelsWrapper] and [_TokenCountResult] *)

Record _TokenCountResult : Type := { total_tokens : Z }.

Record _ModelsWrapper : Type := {
  _get_encoding : string → outcome encoding
}.

Section TokenCounting.

(** [str(v)] of the interpreter for a value that is not a string: it gives
    the text or raises (an integer of more digits than the interpreter
    converts, a nesting deeper than its recursion limit). *)
Variable py_str : pyval → outcome string.

(** [contents if isinstance(contents, str) else str(contents or "")]; a
    false value is replaced by the empty string before [str] sees it. *)
Definition contents_text (contents : pyval) : outcome string :=
  match contents with
  | VStr s => Returns s
  | _ => if truthy contents then py_str contents else Returns EmptyString
  end.

(** [_ModelsWrapper.count_tokens(model, contents)]: the text is computed
    before the [try], so an exception of [str] leaves the method; the lookup
    of the encoding and the encoding itself are inside the [try]. *)
Definition count_tokens (self : _ModelsWrapper) (model : string) (contents : pyval)
  : outcome _TokenCountResult :=
  obind (contents_text contents) (λ text,
  otry
    (obind (_get_encoding self model) (λ encoding,
     obind (encode encoding (VStr text)) (λ tokens,
     Returns {| total_tokens := len tokens |})))
    (λ _, Returns {| total_tokens := 0 |})).

End TokenCounting.

(** ** [OpenAIChatSession] *)

(** [OpenAIChatSession._is_reasoning_compatible_model(model_name)] *)
Definition _is_reasoning_compatible_model (model_name : string) : bool :=
  PyStr.truthy model_name && PyStr.startswith model_name "gpt-5".

Section Tokenizer.

Variable tiktoken : tiktoken_lib.

(** [OpenAIChatSession._get_encoding_for_model(model_name)] *)
Definition _get_encoding_for_model (model_name : string) : outcome encoding :=
  otry
    (encoding_for_model tiktoken model_name)
    (λ _,
       obind
         (otry
            (if PyStr.truthy model_name &&
                (PyStr.contains "gpt-4o" model_name
                 || PyStr.startswith model_name "o"
                 || PyStr.contains "omni" model_name)
             then obind (get_encoding tiktoken "o200k_base") (λ e, Returns (Some e))
             else Returns None)
            (λ _, Returns None))
         (λ early,
            match early with
            | Some e => Returns e
            | None => get_encoding tiktoken "cl100k_base"
            end)).

End Tokenizer.

(** *** Requests and responses of the remote service *)

(** One entry of the [input] list: [{"role": ..., "content": ...}]. *)
Record api_message : Type := { role : pyval; content : pyval }.

(** The keyword arguments of [responses.create]; the two optional keys are
    [None] when the dictionary does not hold them.  [req_reasoning] is the
    effort inside [{"effort": ...}]. *)
Record request : Type := {
  req_model : string;
  req_input : list api_message;
  req_store : bool;
  req_previous_response_id : option string;
  req_reasoning : option string
}.

Record content_part : Type := { part_type : option string; part_text : string }.
Record output_item : Type := { item_type : option string; item_content : list content_part }.

(** A response object: reading [output_text] may raise; [output] and [id]
    are read with [getattr] and a default. *)
Record response : Type := {
  output_text : outcome (option string);
  output : list output_item;
  resp_id : option string
}.

(** The world outside the program: the state of the remote service, the
    requests it has received so far, and the lines printed on the console. *)
Record world (W : Type) : Type := {
  remote : W;
  sent : list request;
  console : list string
}.
Arguments remote {W} _.
Arguments sent {W} _.
Arguments console {W} _.

Record OpenAIChatSession : Type := {
  api_key : string;
  model : string;
  reasoning_effort : option string;
  previous_response_id : option string;
  token_count : Z
}.

(** [OpenAIChatSession.__init__(api_key, model)] *)
Definition new_OpenAIChatSession (api_key model : string) : OpenAIChatSession :=
  {| api_key := api_key; model := model; reasoning_effort := None;
     previous_response_id := None; token_count := 0 |}.

Definition set_previous_response_id (v : option string) (s : OpenAIChatSession)
  : OpenAIChatSession :=
  {| api_key := api_key s; model := model s; reasoning_effort := reasoning_effort s;
     previous_response_id := v; token_count := token_count s |}.

Definition set_token_count (n : Z) (s : OpenAIChatSession) : OpenAIChatSession :=
  {| api_key := api_key s; model := model s; reasoning_effort := reasoning_effort s;
     previous_response_id := previous_response_id s; token_count := n |}.

Definition set_reasoning_effort (v : option string) (s : OpenAIChatSession)
  : OpenAIChatSession :=
  {| api_key := api_key s; model := model s; reasoning_effort := v;
     previous_response_id := previous_response_id s; token_count := token_count s |}.

(** Truth value of an optional string: [None] and the empty string are false. *)
Definition opt_truthy (v : option string) : bool :=
  match v with
  | Some s => PyStr.truthy s
  | None => false
  end.

(** [self.reasoning_effort in {"low", "medium", "high"}] *)
Definition effort_allowed (v : option string) : bool :=
  match v with
  | Some s => String.eqb s "low" || String.eqb s "medium" || String.eqb s "high"
  | None => false
  end.

(** Truth value of the [history] argument, and [history or []]. *)
Definition history_truthy (history : option (list pyval)) : bool :=
  match history with
  | Some (_ :: _) => true
  | _ => false
  end.
Definition history_or_empty (history : option (list pyval)) : list pyval :=
  match history with
  | Some l => l
  | None => []
  end.

(** One turn of the loop that builds [msgs]: the role and text of a history
    record ([m.get] with its defaults, or the defaults when [m] is not a
    dictionary), with the role "model" renamed to "assistant". *)
Definition history_message (m : pyval) : api_message :=
  let role := match m with VDict d => dict_get d "role" (VStr "user") | _ => VStr "user" end in
  let content :=
    match m with VDict d => dict_get d "message_text" (VStr EmptyString) | _ => VStr EmptyString end in
  let role_api := if eq_str role "model" then VStr "assistant" else role in
  {| role := role_api; content := content |}.

Definition user_message (prompt : string) : api_message :=
  {| role := VStr "user"; content := VStr prompt |}.

(** [msgs] after the loop and the final append of the prompt. *)
Definition history_payload (history : option (list pyval)) (prompt : string)
  : list api_message :=
  map history_message (history_or_empty history) ++ [user_message prompt].

(** The texts the fallback collects from [response.output]. *)
Definition fallback_texts (r : response) : list string :=
  flat_map (λ item,
    if bool_decide (item_type item = Some "message")
    then flat_map (λ c,
           if bool_decide (part_type c = Some "output_text")
           then (if PyStr.truthy (part_text c) then [part_text c] else [])
           else []) (item_content item)
    else []) (output r).

(** "Extract text output robustly": [response.output_text], or the joined
    fallback texts when reading it raises. *)
Definition reply_text_of (r : response) : option string :=
  match output_text r with
  | Returns v => v
  | Raises _ =>
      match fallback_texts r with
      | [] => None
      | texts => Some (PyStr.strip (PyStr.join PyStr.newline texts))
      end
  end.

(** ** [Conversation] *)

Record Conversation : Type := {
  name : string;
  chat_history : list pyval;
  OpenAI_chat_session : OpenAIChatSession
}.

(** [Conversation.__init__(api_key, name, model)] *)
Definition new_Conversation (api_key name model : string) : Conversation :=
  {| name := name; chat_history := [];
     OpenAI_chat_session := new_OpenAIChatSession api_key model |}.

Definition set_chat_history (h : list pyval) (c : Conversation) : Conversation :=
  {| name := name c; chat_history := h; OpenAI_chat_session := OpenAI_chat_session c |}.
Definition set_session (s : OpenAIChatSession) (c : Conversation) : Conversation :=
  {| name := name c; chat_history := chat_history c; OpenAI_chat_session := s |}.

(** [Conversation.get_api_key()], [get_model_name()], [get_history()] *)
Definition get_api_key (c : Conversation) : string := api_key (OpenAI_chat_session c).
Definition get_model_name (c : Conversation) : string := model (OpenAI_chat_session c).
Definition get_history (c : Conversation) : list pyval := chat_history c.

(** ** Methods of the session and of the conversation *)

Section Session.

(** The remote service: [client.responses.create] answers with a
    response or raises, and moves to a new state. *)
Context {W : Type}.
Variable responses_create : request → W → outcome response * W.
Variable tiktoken : tiktoken_lib.

Local Open Scope py_scope.

(** [print(line)] *)
Definition print {X} (line : string) : M (X * world W) unit :=
  modify (λ '(x, w),
    (x, {| remote := remote w; sent := sent w; console := console w ++ [line] |})).

(** [self._client.responses.create]: the request reaches the
    service, which answers or raises. *)
Definition create {X} (kwargs : request) : M (X * world W) response :=
  λ '(x, w),
    let '(r, remote') := responses_create kwargs (remote w) in
    (r, (x, {| remote := remote'; sent := sent w ++ [kwargs]; console := console w |})).

Definition get_self {X} : M (X * world W) X := λ '(x, w), (Returns x, (x, w)).
Definition update_self {X} (f : X → X) : M (X * world W) unit :=
  modify (λ '(x, w), (f x, w)).

(** The keyword arguments of the first request. *)
Definition first_request (self : OpenAIChatSession) (prompt : string)
  (history : option (list pyval)) : request :=
  let input_payload :=
    if negb (opt_truthy (previous_response_id self)) && history_truthy history
    then history_payload history prompt
    else [user_message prompt] in
  {| req_model := model self;
     req_input := input_payload;
     req_store := true;
     req_previous_response_id :=
       if opt_truthy (previous_response_id self) then previous_response_id self else None;
     req_reasoning :=
       if _is_reasoning_compatible_model (model self) && effort_allowed (reasoning_effort self)
       then reasoning_effort self else None |}.

(** The keyword arguments of the retry ([kwargs_retry]). *)
Definition retry_request (self : OpenAIChatSession) (prompt : string)
  (history : option (list pyval)) : request :=
  let input_payload :=
    if history_truthy history
    then history_payload history prompt
    else [user_message prompt] in
  {| req_model := model self;
     req_input := input_payload;
     req_store := true;
     req_previous_response_id := None;
     req_reasoning :=
       if _is_reasoning_compatible_model (model self) && effort_allowed (reasoning_effort self)
       then reasoning_effort self else None |}.

(** The error texts that mean the thread was lost on the remote side. *)
Definition lost_thread (err_text : string) : bool :=
  PyStr.contains "previous_response_not_found" err_text
  || PyStr.contains "Previous response" err_text.

(** [OpenAIChatSession.send_message_to_OpenAI_API(prompt, history)] *)
Definition send_message_to_OpenAI_API (prompt : string) (history : option (list pyval))
  : M (OpenAIChatSession * world W) (option string) :=
  try_except
    (self <~ get_self ;;
     response <~ create (first_request self prompt history) ;;
     let reply_text := reply_text_of response in
     update_self (set_previous_response_id (resp_id response)) ;;;
     ret reply_text)
    (λ e,
       let err_text := exn_text e in
       if lost_thread err_text
       then
         try_except
           (update_self (set_previous_response_id None) ;;;
            self <~ get_self ;;
            response <~ create (retry_request self prompt history) ;;
            let reply_text := reply_text_of response in
            update_self (set_previous_response_id (resp_id response)) ;;;
            ret reply_text)
           (λ e2,
              print ("Error during OpenAI API request after retry: " +:+ exn_text e2) ;;;
              ret None)
       else
         print ("Error during OpenAI API request: " +:+ exn_text e) ;;;
         ret None).

(** The text one turn of the counting loop encodes. *)
Definition message_text_of (m : pyval) : pyval :=
  match m with
  | VDict d => dict_get d "message_text" (VStr EmptyString)
  | _ => VStr EmptyString
  end.

(** The counting loop: [total += len(enc.encode(text))] for each record. *)
Definition count_history (enc : encoding) (history : list pyval) : outcome Z :=
  ofold (λ total m,
           obind (encode enc (message_text_of m)) (λ tokens, Returns (total + len tokens)))
        history 0.

(** [OpenAIChatSession.update_token_count(history)] *)
Definition update_token_count (history : option (list pyval))
  : M (OpenAIChatSession * world W) unit :=
  try_except
    (self <~ get_self ;;
     enc <~ lift (_get_encoding_for_model tiktoken (model self)) ;;
     total <~ lift (count_history enc (history_or_empty history)) ;;
     update_self (set_token_count total))
    (λ e, print ("Error updating token count: " +:+ exn_text e)).

(** The [client.models] wrapper the session builds for the window. *)
Definition session_models : _ModelsWrapper :=
  {| _get_encoding := _get_encoding_for_model tiktoken |}.

(** *** Methods of [Conversation] *)

(** Run a method of the session object held by the conversation. *)
Definition on_session {A} (m : M (OpenAIChatSession * world W) A)
  : M (Conversation * world W) A :=
  zoom (λ '(c, w), (OpenAI_chat_session c, w))
       (λ '(s, w) '(c, _), (set_session s c, w)) m.

(** [self.chat_history.append(record)] *)
Definition append_history (record : pyval) : M (Conversation * world W) unit :=
  update_self (λ c, set_chat_history (chat_history c ++ [record]) c).

(** [Conversation.send_message(prompt)]; [if ai_reply_text:] holds for a
    reply that is a non-empty string. *)
Definition send_message (prompt : string) : M (Conversation * world W) (option string) :=
  try_except
    (self <~ get_self ;;
     ai_reply_text <~ on_session
       (send_message_to_OpenAI_API prompt (Some (chat_history self))) ;;
     match ai_reply_text with
     | Some reply =>
         if PyStr.truthy reply
         then
           append_history (message "user" prompt) ;;;
           append_history (message "model" reply) ;;;
           try_except
             (self <~ get_self ;;
              on_session (update_token_count (Some (chat_history self))))
             (λ _, ret tt) ;;;
           ret ai_reply_text
         else ret None
     | None => ret None
     end)
    (λ e,
       print ("Error sending message in Conversation: " +:+ exn_text e) ;;;
       ret None).

End Session.

(** ** Concrete surroundings for examples

    A scripted remote service answers the requests with the outcomes of a
    list, in order, and refuses the connection when the list is used up.  The
    sample tokenizer knows one encoding for every name; it gives one token
    per character, and raises on a value that is not a string and on text
    that spells the end-of-text special token. *)

Definition scripted (req : request) (script : list (outcome response))
  : outcome response * list (outcome response) :=
  match script with
  | [] => (Raises (Exception "Connection error."), [])
  | r :: rest => (r, rest)
  end.

Definition text_response (text id : string) : response :=
  {| output_text := Returns (Some text); output := []; resp_id := Some id |}.

Definition char_tokens (s : string) : list token :=
  map nat_of_ascii (list_ascii_of_string s).

Definition sample_encoding : encoding :=
  {| enc_name := "cl100k_base";
     encode := λ v,
       match v with
       | VStr s =>
           if PyStr.contains "<|endoftext|>" s
           then Raises (Exception "Encountered text corresponding to disallowed special token")
           else Returns (char_tokens s)
       | _ => Raises (Exception "expected string or buffer")
       end |}.

Definition sample_tiktoken : tiktoken_lib :=
  {| encoding_for_model := λ _, Returns sample_encoding;
     get_encoding := λ _, Returns sample_encoding |}.

(** A tokenizer library whose files cannot be loaded. *)
Definition broken_tiktoken : tiktoken_lib :=
  {| encoding_for_model := λ _, Raises (Exception "Could not load encoding");
     get_encoding := λ _, Raises (Exception "Could not load encoding") |}.

Definition start_world (script : list (outcome response)) : world (list (outcome response)) :=
  {| remote := script; sent := []; console := [] |}.

Definition lost_error : exn :=
  Exception "Error code: 400 - previous_response_not_found".

(** ** The message list of the window ([AIChatApp])

    The Treeview widget hands out a fresh item identifier at every insert
    (I001, I002, ...); an identifier is represented by its number.  Of the
    window's state, the record keeps what [send_prompt] and
    [_display_conversation_in_treeview] read and write.  [active_conversation]
    holds the conversation object the window refers to. *)

Definition node_id : Type := nat.

Record tree_item : Type := {
  iid : node_id;
  item_text : string;
  item_tags : list string
}.

Record Treeview : Type := {
  children : list tree_item;
  next_iid : nat
}.

(** [tree.insert("", tk.END, text=text, tags=tags)] *)
Definition tree_insert (text : string) (tags : list string) (t : Treeview)
  : node_id * Treeview :=
  (next_iid t,
   {| children := children t ++ [ {| iid := next_iid t; item_text := text; item_tags := tags |} ];
      next_iid := S (next_iid t) |}).

(** [tree.delete] of all the children [tree.get_children()] *)
Definition tree_clear (t : Treeview) : Treeview :=
  {| children := []; next_iid := next_iid t |}.

Record AIChatApp : Type := {
  active_conversation : option Conversation;
  conversation_combobox : string;
  prompt_text_editor : string;
  messages_tree : Treeview;
  conversation_ids : gmap string (list node_id);
  message_node_to_content : gmap node_id pyval;
  message_text : string;
  selected_message_token_count_var : string;
  total_tokens_used_display : string;
  prompt_token_count_var : string;
  waiting_popup : bool;
  error_boxes : list (string * string)
}.

(** The window state after [AIChatApp.__init__]. *)
Definition new_AIChatApp : AIChatApp :=
  {| active_conversation := None;
     conversation_combobox := EmptyString;
     prompt_text_editor := EmptyString;
     messages_tree := {| children := []; next_iid := 1 |};
     conversation_ids := ∅;
     message_node_to_content := ∅;
     message_text := EmptyString;
     selected_message_token_count_var := EmptyString;
     total_tokens_used_display := "Tokens: N/A";
     prompt_token_count_var := "Tokens: 0";
     waiting_popup := false;
     error_boxes := [] |}.

Definition set_active_conversation (v : option Conversation) (a : AIChatApp) : AIChatApp :=
  {| active_conversation := v;
     conversation_combobox := conversation_combobox a;
     prompt_text_editor := prompt_text_editor a;
     messages_tree := messages_tree a;
     conversation_ids := conversation_ids a;
     message_node_to_content := message_node_to_content a;
     message_text := message_text a;
     selected_message_token_count_var := selected_message_token_count_var a;
     total_tokens_used_display := total_tokens_used_display a;
     prompt_token_count_var := prompt_token_count_var a;
     waiting_popup := waiting_popup a;
     error_boxes := error_boxes a |}.

Definition set_prompt_text_editor (v : string) (a : AIChatApp) : AIChatApp :=
  {| active_conversation := active_conversation a;
     conversation_combobox := conversation_combobox a;
     prompt_text_editor := v;
     messages_tree := messages_tree a;
     conversation_ids := conversation_ids a;
     message_node_to_content := message_node_to_content a;
     message_text := message_text a;
     selected_message_token_count_var := selected_message_token_count_var a;
     total_tokens_used_display := total_tokens_used_display a;
     prompt_token_count_var := prompt_token_count_var a;
     waiting_popup := waiting_popup a;
     error_boxes := error_boxes a |}.

Definition set_messages_tree (v : Treeview) (a : AIChatApp) : AIChatApp :=
  {| active_conversation := active_conversation a;
     conversation_combobox := conversation_combobox a;
     prompt_text_editor := prompt_text_editor a;
     messages_tree := v;
     conversation_ids := conversation_ids a;
     message_node_to_content := message_node_to_content a;
     message_text := message_text a;
     selected_message_token_count_var := selected_message_token_count_var a;
     total_tokens_used_display := total_tokens_used_display a;
     prompt_token_count_var := prompt_token_count_var a;
     waiting_popup := waiting_popup a;
     error_boxes := error_boxes a |}.

Definition set_conversation_ids (v : gmap string (list node_id)) (a : AIChatApp) : AIChatApp :=
  {| active_conversation := active_conversation a;
     conversation_combobox := conversation_combobox a;
     prompt_text_editor := prompt_text_editor a;
     messages_tree := messages_tree a;
     conversation_ids := v;
     message_node_to_content := message_node_to_content a;
     message_text := message_text a;
     selected_message_token_count_var := selected_message_token_count_var a;
     total_tokens_used_display := total_tokens_used_display a;
     prompt_token_count_var := prompt_token_count_var a;
     waiting_popup := waiting_popup a;
     error_boxes := error_boxes a |}.

Definition set_message_node_to_content (v : gmap node_id pyval) (a : AIChatApp) : AIChatApp :=
  {| active_conversation := active_conversation a;
     conversation_combobox := conversation_combobox a;
     prompt_text_editor := prompt_text_editor a;
     messages_tree := messages_tree a;
     conversation_ids := conversation_ids a;
     message_node_to_content := v;
     message_text := message_text a;
     selected_message_token_count_var := selected_message_token_count_var a;
     total_tokens_used_display := total_tokens_used_display a;
     prompt_token_count_var := prompt_token_count_var a;
     waiting_popup := waiting_popup a;
     error_boxes := error_boxes a |}.

(** The four string variables and the pop-up flag change only labels. *)
Definition set_labels (shown selected total prompt_count : string) (popup : bool)
  (boxes : list (string * string)) (a : AIChatApp) : AIChatApp :=
  {| active_conversation := active_conversation a;
     conversation_combobox := conversation_combobox a;
     prompt_text_editor := prompt_text_editor a;
     messages_tree := messages_tree a;
     conversation_ids := conversation_ids a;
     message_node_to_content := message_node_to_content a;
     message_text := shown;
     selected_message_token_count_var := selected;
     total_tokens_used_display := total;
     prompt_token_count_var := prompt_count;
     waiting_popup := popup;
     error_boxes := boxes |}.

Definition set_message_display (shown selected : string) (a : AIChatApp) : AIChatApp :=
  set_labels shown selected (total_tokens_used_display a) (prompt_token_count_var a)
    (waiting_popup a) (error_boxes a) a.
Definition set_total_tokens_used_display (v : string) (a : AIChatApp) : AIChatApp :=
  set_labels (message_text a) (selected_message_token_count_var a) v
    (prompt_token_count_var a) (waiting_popup a) (error_boxes a) a.
Definition set_prompt_token_count_var (v : string) (a : AIChatApp) : AIChatApp :=
  set_labels (message_text a) (selected_message_token_count_var a)
    (total_tokens_used_display a) v (waiting_popup a) (error_boxes a) a.
Definition set_waiting_popup (v : bool) (a : AIChatApp) : AIChatApp :=
  set_labels (message_text a) (selected_message_token_count_var a)
    (total_tokens_used_display a) (prompt_token_count_var a) v (error_boxes a) a.
(** [messagebox.showerror(title, text)] *)
Definition showerror (title text : string) (a : AIChatApp) : AIChatApp :=
  set_labels (message_text a) (selected_message_token_count_var a)
    (total_tokens_used_display a) (prompt_token_count_var a) (waiting_popup a)
    (error_boxes a ++ [(title, text)]) a.

(** The truncation of [_insert_message_to_treeview]. *)
Definition display_text (message_content : string) : string :=
  if (20 <? String.length message_content)%nat
  then substring 0 20 message_content +:+ "..."
  else message_content.

(** The line shown for a message: [f"{role.capitalize()}: {display_text}"]. *)
Definition tree_line (role message_content : string) : string :=
  PyStr.capitalize role +:+ ": " +:+ display_text message_content.

(** The name of the type of a value, as error messages give it. *)
Definition type_name (v : pyval) : string :=
  match v with
  | VNone => "NoneType"
  | VBool _ => "bool"
  | VInt _ => "int"
  | VStr _ => "str"
  | VList _ => "list"
  | VDict _ => "dict"
  end.

(** [m[key]] for a string key: a dictionary gives the value or raises
    KeyError, whose text is the [repr] of the key; a string and a list do not
    take a string as index; the other values have no subscript. *)
Definition subscript (m : pyval) (key : string) : outcome pyval :=
  match m with
  | VDict d =>
      match dict_lookup d key with
      | Some v => Returns v
      | None => Raises (Exception (PyStr.repr key))
      end
  | VStr _ => Raises (Exception "string indices must be integers, not 'str'")
  | VList _ => Raises (Exception "list indices must be integers or slices, not str")
  | _ => Raises (Exception ("'" +:+ type_name m +:+ "' object is not subscriptable"))
  end.

(** [_display_message] is given the stored text as a string; the model of
    the text widget holds strings, and a stored text of another type raises
    where the selection handler hands it over. *)
Definition as_str (v : pyval) : outcome string :=
  match v with
  | VStr s => Returns s
  | _ => Raises (Exception "TypeError: expected str")
  end.

(** [self.message_node_to_content[n]['message_text']], the lookup that
    [_on_treeview_message_select] does for the selected node; the handler
    makes it only for a node that is in the mapping. *)
Definition stored_message_text (a : AIChatApp) (n : node_id) : outcome pyval :=
  match message_node_to_content a !! n with
  | Some m => subscript m "message_text"
  | None => Raises (Exception "KeyError: node")
  end.

(** [len(v)]: strings, lists and dictionaries have a length (a dictionary
    counts each key once); the other values raise. *)
Definition py_len (v : pyval) : outcome nat :=
  match v with
  | VStr s => Returns (String.length s)
  | VList l => Returns (length l)
  | VDict d => Returns (length (remove_dups (map fst d)))
  | _ => Raises (Exception ("object of type '" +:+ type_name v +:+ "' has no len()"))
  end.

(** [v[:20] + "..."]: a string gives the shortened string; the slice of a
    list cannot be joined with a string; a dictionary does not take a slice as
    a key (the text is the one of CPython 3.11). *)
Definition slice_and_dots (v : pyval) : outcome pyval :=
  match v with
  | VStr s => Returns (VStr (substring 0 20 s +:+ "..."))
  | VList _ =>
      Raises (Exception ("can only concatenate list (not " +:+ PyStr.dquote +:+ "str"
                         +:+ PyStr.dquote +:+ ") to list"))
  | VDict _ => Raises (Exception "unhashable type: 'slice'")
  | _ => Raises (Exception ("'" +:+ type_name v +:+ "' object is not subscriptable"))
  end.

(** [role.capitalize()]: only a string has the method. *)
Definition capitalize_value (role : pyval) : outcome string :=
  match role with
  | VStr r => Returns (PyStr.capitalize r)
  | _ => Raises (Exception ("'" +:+ type_name role +:+ "' object has no attribute 'capitalize'"))
  end.

Definition openai_error_text : string :=
  "Failed to get response from OpenAI." +:+ PyStr.newline +:+
  "Please check API key and network connection (see console for details).".

Section Window.

Context {W : Type}.
Variable responses_create : request → W → outcome response * W.
Variable tiktoken : tiktoken_lib.
Variable py_str : pyval → outcome string.

Local Open Scope py_scope.

(** [AIChatApp._insert_message_to_treeview(role, message_content)] on two
    strings, the types the method declares and [send_prompt] passes. *)
Definition _insert_message_to_treeview (role message_content : string)
  : M (AIChatApp * world W) node_id :=
  let tags := if String.eqb role "model" then ["ai_message"] else [] in
  self <~ get_self ;;
  let '(node, tree) :=
    tree_insert (tree_line role message_content) tags (messages_tree self) in
  update_self (set_messages_tree tree) ;;;
  ret node.

(** The text an f-string puts for a value: a string as it is, another value
    by its [str]. *)
Definition format_value (v : pyval) : outcome string :=
  match v with
  | VStr s => Returns s
  | _ => py_str v
  end.

(** [_insert_message_to_treeview(role, message_content)] on the values the
    redraw reads from a history record, whatever their types, step by step as
    the method runs: the tag, [len(message_content)], the slice and the dots
    for more than 20 entries, [role.capitalize()], the formatted text, the
    insertion.  A value without length, a long list or dictionary and a role
    that is not a string raise; a list or dictionary of at most 20 entries is
    shown by its [str].  On two strings this is the method above. *)
Definition insert_message_values (role message_content : pyval)
  : M (AIChatApp * world W) node_id :=
  let tags := if eq_str role "model" then ["ai_message"] else [] in
  n <~ lift (py_len message_content) ;;
  shown_value <~ lift (if (20 <? n)%nat
                       then slice_and_dots message_content
                       else Returns message_content) ;;
  capitalized_role <~ lift (capitalize_value role) ;;
  shown <~ lift (format_value shown_value) ;;
  self <~ get_self ;;
  let '(node, tree) :=
    tree_insert (capitalized_role +:+ ": " +:+ shown) tags (messages_tree self) in
  update_self (set_messages_tree tree) ;;;
  ret node.

(** [self.conversation_ids[name].append(node)] *)
Definition ids_append (name : string) (node : node_id) : M (AIChatApp * world W) unit :=
  self <~ get_self ;;
  match conversation_ids self !! name with
  | Some l => update_self (set_conversation_ids (<[name := l ++ [node]]> (conversation_ids self)))
  | None => raise (Exception (PyStr.repr name))
  end.

(** [self.message_node_to_content[node] = record] *)
Definition store_content (node : node_id) (record : pyval) : M (AIChatApp * world W) unit :=
  update_self (λ a, set_message_node_to_content (<[node := record]> (message_node_to_content a)) a).

(** [AIChatApp._clear_message_display()] *)
Definition _clear_message_display : M (AIChatApp * world W) unit :=
  update_self (set_message_display EmptyString EmptyString).

(** [AIChatApp._update_token_count_display()] *)
Definition _update_token_count_display : M (AIChatApp * world W) unit :=
  self <~ get_self ;;
  match active_conversation self with
  | Some conv =>
      let tokens_used := token_count (OpenAI_chat_session conv) in
      update_self (set_total_tokens_used_display
                     ("Tokens in context: " +:+ PyStr.of_int tokens_used))
  | None => raise (Exception "'NoneType' object has no attribute 'OpenAI_chat_session'")
  end.

(** Run a method of the active conversation. *)
Definition on_active_conversation {A} (m : M (Conversation * world W) A)
  : M (AIChatApp * world W) A :=
  λ '(a, w),
    match active_conversation a with
    | Some conv =>
        let '(r, (conv', w')) := m (conv, w) in
        (r, (set_active_conversation (Some conv') a, w'))
    | None =>
        (Raises (Exception "'NoneType' object has no attribute 'send_message'"), (a, w))
    end.

(** The body of the loop of [_display_conversation_in_treeview]. *)
Definition display_message (conversation_name : string) (m : pyval)
  : M (AIChatApp * world W) unit :=
  role <~ lift (subscript m "role") ;;
  message_text <~ lift (subscript m "message_text") ;;
  message_node_id <~ insert_message_values role message_text ;;
  ids_append conversation_name message_node_id ;;;
  store_content message_node_id m.

Fixpoint display_messages (conversation_name : string) (history : list pyval)
  : M (AIChatApp * world W) unit :=
  match history with
  | [] => ret tt
  | m :: rest =>
      display_message conversation_name m ;;;
      display_messages conversation_name rest
  end.

(** [AIChatApp._display_conversation_in_treeview(conversation)] *)
Definition _display_conversation_in_treeview (conversation : Conversation)
  : M (AIChatApp * world W) unit :=
  update_self (λ a, set_messages_tree (tree_clear (messages_tree a)) a) ;;;
  update_self (set_message_node_to_content ∅) ;;;
  _clear_message_display ;;;
  let conversation_name := name conversation in
  update_self (λ a, set_conversation_ids (<[conversation_name := []]> (conversation_ids a)) a) ;;;
  display_messages conversation_name (get_history conversation).

(** The branch of [send_prompt] taken when a reply came back. *)
Definition show_exchange (prompt_text ai_reply_text : string) : M (AIChatApp * world W) unit :=
  self <~ get_self ;;
  let current_conversation_name := conversation_combobox self in
  if negb (PyStr.truthy current_conversation_name)
  then
    print "Error: No active conversation name found in combobox." ;;;
    update_self (set_total_tokens_used_display "Tokens: Error")
  else
    user_message_node_id <~ _insert_message_to_treeview "user" prompt_text ;;
    ai_message_node_id <~ _insert_message_to_treeview "model" ai_reply_text ;;
    self <~ get_self ;;
    (match conversation_ids self !! current_conversation_name with
     | Some _ => ret tt
     | None =>
         update_self (set_conversation_ids
                        (<[current_conversation_name := []]> (conversation_ids self)))
     end) ;;;
    ids_append current_conversation_name user_message_node_id ;;;
    ids_append current_conversation_name ai_message_node_id ;;;
    store_content user_message_node_id (message "user" prompt_text) ;;;
    store_content ai_message_node_id (message "model" ai_reply_text) ;;;
    update_self (set_prompt_text_editor EmptyString) ;;;
    update_self (set_prompt_token_count_var "Tokens: 0") ;;;
    _update_token_count_display.

(** [AIChatApp.send_prompt()].  [prompt_text_editor.get("1.0", tk.END)] is
    the text of the editor and the line feed the widget adds.  The final
    [_flash_window()] only asks the window system to flash the task bar and
    changes none of the state kept here. *)
Definition send_prompt : M (AIChatApp * world W) unit :=
  self <~ get_self ;;
  let prompt_text := PyStr.strip (prompt_text_editor self +:+ PyStr.newline) in
  if negb (PyStr.truthy prompt_text)
  then update_self (showerror "Prompt Required" "Please enter a prompt.")
  else
    match active_conversation self with
    | None =>
        update_self (showerror "Conversation Required" "Please select an active conversation.")
    | Some _ =>
        update_self (set_waiting_popup true) ;;;
        ai_reply_text <~ on_active_conversation
                           (send_message responses_create tiktoken prompt_text) ;;
        update_self (set_waiting_popup false) ;;;
        match ai_reply_text with
        | Some reply =>
            if PyStr.truthy reply
            then show_exchange prompt_text reply
            else
              update_self (showerror "OpenAI Error" openai_error_text) ;;;
              update_self (set_total_tokens_used_display "Tokens: Error")
        | None =>
            update_self (showerror "OpenAI Error" openai_error_text) ;;;
            update_self (set_total_tokens_used_display "Tokens: Error")
        end
    end.

End Window.

(** ** Selecting a message and counting the prompt *)

Definition set_message_text (v : string) (a : AIChatApp) : AIChatApp :=
  set_message_display v (selected_message_token_count_var a) a.
Definition set_selected_message_token_count_var (v : string) (a : AIChatApp) : AIChatApp :=
  set_message_display (message_text a) v a.

Section WindowTokens.

Context {W : Type}.
Variable tiktoken : tiktoken_lib.
Variable py_str : pyval → outcome string.

Local Open Scope py_scope.

(** [AIChatApp._display_message(message)] *)
Definition _display_message (message : string) : M (AIChatApp * world W) unit :=
  update_self (set_message_text message).

(** [AIChatApp._on_treeview_message_select(event)]; [selection] is what
    [messages_tree.selection()] gives.  The session always has its [client]
    wrapper, so the test of it is true whenever a conversation is active. *)
Definition _on_treeview_message_select (selection : list node_id)
  : M (AIChatApp * world W) unit :=
  match selection with
  | [] => _clear_message_display
  | selected_node_id :: _ =>
      self <~ get_self ;;
      token_info_text <~
        match message_node_to_content self !! selected_node_id with
        | Some record =>
            message_content <~ lift (subscript record "message_text") ;;
            shown <~ lift (as_str message_content) ;;
            _display_message shown ;;;
            match active_conversation self with
            | Some conv =>
                try_except
                  (counted <~ lift (count_tokens py_str (session_models tiktoken)
                                      (get_model_name conv) message_content) ;;
                   ret ("Tokens: " +:+ PyStr.of_int (total_tokens counted)))
                  (λ e,
                     print ("Error counting tokens for selected message: " +:+ exn_text e) ;;;
                     ret "Tokens: Error")
            | None => ret "Tokens: N/A"
            end
        | None =>
            _display_message "Error: Message content not found." ;;;
            ret "Tokens: Error"
        end ;;
      update_self (set_selected_message_token_count_var token_info_text)
  end.

(** [AIChatApp._update_prompt_token_count()] *)
Definition _update_prompt_token_count : M (AIChatApp * world W) unit :=
  try_except
    (self <~ get_self ;;
     let prompt_text := PyStr.strip (prompt_text_editor self +:+ PyStr.newline) in
     if negb (PyStr.truthy prompt_text)
     then update_self (set_prompt_token_count_var "Tokens: 0")
     else
       match active_conversation self with
       | Some conv =>
           try_except
             (token_response <~ lift (count_tokens py_str (session_models tiktoken)
                                        (get_model_name conv) (VStr prompt_text)) ;;
              update_self (set_prompt_token_count_var
                             ("Tokens: " +:+ PyStr.of_int (total_tokens token_response))))
             (λ e,
                print ("Error counting prompt tokens: " +:+ exn_text e) ;;;
                update_self (set_prompt_token_count_var "Tokens: Error"))
       | None => update_self (set_prompt_token_count_var "Tokens: N/A")
       end)
    (λ e,
       print ("Unexpected error updating prompt token count: " +:+ exn_text e) ;;;
       update_self (set_prompt_token_count_var "Tokens: Error")).

End WindowTokens.

(** ** The key file

    The file OpenAI_API_key.txt beside the program: absent, unreadable, or
    holding a text.  It is opened in text mode, where a carriage return ends a
    line like a line feed does. *)

Inductive key_file : Type :=
| FileMissing
| FileUnreadable (e : exn)
| FileContent (text : string).

Definition is_line_break (c : ascii) : bool :=
  let n := nat_of_ascii c in ((n =? 10) || (n =? 13))%nat.

(** [f.readline()]: the text up to and with the first line break. *)
Fixpoint readline (text : string) : string :=
  match text with
  | EmptyString => EmptyString
  | String c rest =>
      if is_line_break c then String c EmptyString else String c (readline rest)
  end.

Section KeyFile.

Context {W X : Type}.

Local Open Scope py_scope.

(** [_read_api_key_from_file()] *)
Definition _read_api_key_from_file (file : key_file) : M (X * world W) (option string) :=
  match file with
  | FileContent text =>
      let key := PyStr.strip (readline text) in
      if PyStr.truthy key
      then ret (Some key)
      else
        print "Warning: API key file 'OpenAI_API_key.txt' is empty." ;;;
        ret None
  | FileMissing =>
      print ("Warning: API key file 'OpenAI_API_key.txt' not found. " +:+
             "User will be prompted to enter it.") ;;;
      ret None
  | FileUnreadable e =>
      print ("Error reading API key from file 'OpenAI_API_key.txt': " +:+ exn_text e) ;;;
      ret None
  end.

End KeyFile.

(** ** The dialog for a new conversation *)

(** [sorted(names)]: strings are ordered by their characters' codes. *)
Fixpoint insert_sorted (x : string) (l : list string) : list string :=
  match l with
  | [] => [x]
  | y :: rest => if String.leb x y then x :: l else y :: insert_sorted x rest
  end.
Definition sorted (l : list string) : list string := foldr insert_sorted [] l.

(** [effort in ("low", "medium", "high")] *)
Definition is_known_effort (effort : string) : bool :=
  String.eqb effort "low" || String.eqb effort "medium" || String.eqb effort "high".

Module NewConversationDialog.

(** The variables and widget states of the dialog; [result] is the tuple
    [(api_key, model_name, conversation_name, effort)] or None. *)
Record t : Type := {
  api_key_var : string;
  model_var : string;
  name_var : string;
  status_var : string;
  reasoning_effort_var : string;
  reasoning_combobox_state : string;
  model_combobox_values : list string;
  model_combobox_state : string;
  load_models_button_enabled : bool;
  ok_button_enabled : bool;
  result : option (string * string * string * option string);
  destroyed : bool;
  error_boxes : list (string * string)
}.

(** The dialog as [__init__] builds it, before models are loaded. *)
Definition new (initial_api_key : option string) (default_name : string) : t :=
  {| api_key_var := default EmptyString initial_api_key;
     model_var := EmptyString;
     name_var := default_name;
     status_var := EmptyString;
     reasoning_effort_var := "(unavailable)";
     reasoning_combobox_state := "disabled";
     model_combobox_values := [];
     model_combobox_state := "readonly";
     load_models_button_enabled := true;
     ok_button_enabled := false;
     result := None;
     destroyed := false;
     error_boxes := [] |}.

Definition set_reasoning (effort state : string) (d : t) : t :=
  {| api_key_var := api_key_var d; model_var := model_var d; name_var := name_var d;
     status_var := status_var d;
     reasoning_effort_var := effort; reasoning_combobox_state := state;
     model_combobox_values := model_combobox_values d;
     model_combobox_state := model_combobox_state d;
     load_models_button_enabled := load_models_button_enabled d;
     ok_button_enabled := ok_button_enabled d;
     result := result d; destroyed := destroyed d; error_boxes := error_boxes d |}.

Definition set_models (model : string) (values : list string) (state : string) (d : t) : t :=
  {| api_key_var := api_key_var d; model_var := model; name_var := name_var d;
     status_var := status_var d;
     reasoning_effort_var := reasoning_effort_var d;
     reasoning_combobox_state := reasoning_combobox_state d;
     model_combobox_values := values; model_combobox_state := state;
     load_models_button_enabled := load_models_button_enabled d;
     ok_button_enabled := ok_button_enabled d;
     result := result d; destroyed := destroyed d; error_boxes := error_boxes d |}.

Definition set_status (status : string) (d : t) : t :=
  {| api_key_var := api_key_var d; model_var := model_var d; name_var := name_var d;
     status_var := status;
     reasoning_effort_var := reasoning_effort_var d;
     reasoning_combobox_state := reasoning_combobox_state d;
     model_combobox_values := model_combobox_values d;
     model_combobox_state := model_combobox_state d;
     load_models_button_enabled := load_models_button_enabled d;
     ok_button_enabled := ok_button_enabled d;
     result := result d; destroyed := destroyed d; error_boxes := error_boxes d |}.

Definition set_buttons (load ok : bool) (d : t) : t :=
  {| api_key_var := api_key_var d; model_var := model_var d; name_var := name_var d;
     status_var := status_var d;
     reasoning_effort_var := reasoning_effort_var d;
     reasoning_combobox_state := reasoning_combobox_state d;
     model_combobox_values := model_combobox_values d;
     model_combobox_state := model_combobox_state d;
     load_models_button_enabled := load; ok_button_enabled := ok;
     result := result d; destroyed := destroyed d; error_boxes := error_boxes d |}.

(** [self.result = v; self.destroy()] *)
Definition close (v : option (string * string * string * option string)) (d : t) : t :=
  {| api_key_var := api_key_var d; model_var := model_var d; name_var := name_var d;
     status_var := status_var d;
     reasoning_effort_var := reasoning_effort_var d;
     reasoning_combobox_state := reasoning_combobox_state d;
     model_combobox_values := model_combobox_values d;
     model_combobox_state := model_combobox_state d;
     load_models_button_enabled := load_models_button_enabled d;
     ok_button_enabled := ok_button_enabled d;
     result := v; destroyed := true; error_boxes := error_boxes d |}.

(** [messagebox.showerror(title, text, parent=self)] *)
Definition showerror (title text : string) (d : t) : t :=
  {| api_key_var := api_key_var d; model_var := model_var d; name_var := name_var d;
     status_var := status_var d;
     reasoning_effort_var := reasoning_effort_var d;
     reasoning_combobox_state := reasoning_combobox_state d;
     model_combobox_values := model_combobox_values d;
     model_combobox_state := model_combobox_state d;
     load_models_button_enabled := load_models_button_enabled d;
     ok_button_enabled := ok_button_enabled d;
     result := result d; destroyed := destroyed d;
     error_boxes := error_boxes d ++ [(title, text)] |}.

(** [NewConversationDialog._on_model_change()] *)
Definition _on_model_change (d : t) : t :=
  let model_name := model_var d in
  if _is_reasoning_compatible_model model_name
  then
    if negb (is_known_effort (reasoning_effort_var d))
    then set_reasoning "medium" "readonly" d
    else set_reasoning (reasoning_effort_var d) "readonly" d
  else set_reasoning "(unavailable)" "disabled" d.

(** [NewConversationDialog._on_ok()] *)
Definition _on_ok (d : t) : t :=
  let api_key := PyStr.strip (api_key_var d) in
  let model_name := model_var d in
  let conversation_name := PyStr.strip (name_var d) in
  if negb (PyStr.truthy api_key)
  then showerror "Input Error" "API Key cannot be empty." d
  else if negb (PyStr.truthy model_name)
  then showerror "Input Error" "Please select a model." d
  else if negb (PyStr.truthy conversation_name)
  then showerror "Input Error" "Conversation Name cannot be empty." d
  else
    let effort :=
      if _is_reasoning_compatible_model model_name
      then Some (reasoning_effort_var d) else None in
    close (Some (api_key, model_name, conversation_name, effort)) d.

(** [NewConversationDialog._on_cancel()] *)
Definition _on_cancel (d : t) : t := close None d.

Section LoadModels.

Context {W : Type}.

(** [OpenAI(api_key=api_key).models.list()]: the identifiers of the models
    the service lists for a key (None for an entry without [id]), or an
    error. *)
Variable models_list : string → outcome (list (option string)).

Local Open Scope py_scope.

(** The part of [_load_models] inside [try]. *)
Definition load_models_body (api_key : string) : M (t * world W) unit :=
  models <~ lift (models_list api_key) ;;
  let available_models := sorted (omap id models) in
  match available_models with
  | [] => raise (Exception "No models found.")
  | first :: _ =>
      update_self (set_models first available_models "readonly") ;;;
      update_self _on_model_change ;;;
      update_self (λ d, set_buttons (load_models_button_enabled d) true d) ;;;
      update_self (set_status "Models loaded successfully.")
  end.

(** [NewConversationDialog._load_models()] *)
Definition _load_models : M (t * world W) unit :=
  self <~ get_self ;;
  let api_key := PyStr.strip (api_key_var self) in
  if negb (PyStr.truthy api_key)
  then
    update_self (set_status "Please enter an API Key.") ;;;
    update_self (showerror "API Key Missing" "Please enter your OpenAI API key.")
  else
    update_self (set_status "Loading models...") ;;;
    update_self (set_buttons false false) ;;;
    update_self (set_models EmptyString [] "disabled") ;;;
    try_except
      (load_models_body api_key)
      (λ e,
         let error_msg := "Error loading models: " +:+ exn_text e in
         print error_msg ;;;
         update_self (set_status "Failed to load models. Check API key and connection.") ;;;
         update_self (showerror "Model Loading Error" error_msg)) ;;;
    update_self (λ d, set_buttons true (ok_button_enabled d) d).

End LoadModels.

End NewConversationDialog.

(** ** The window and its conversations

    The window keeps the conversation objects in a list and refers to one of
    them as the active conversation.  [conversations] is that list,
    [active_slot] the position of the object the reference points to; the
    record [app] holds the object by value while a method works on it, and the
    object is written back to its position afterwards, so that a change made
    through the reference is a change of the object in the list. *)

Definition set_conversation_combobox (v : string) (a : AIChatApp) : AIChatApp :=
  {| active_conversation := active_conversation a;
     conversation_combobox := v;
     prompt_text_editor := prompt_text_editor a;
     messages_tree := messages_tree a;
     conversation_ids := conversation_ids a;
     message_node_to_content := message_node_to_content a;
     message_text := message_text a;
     selected_message_token_count_var := selected_message_token_count_var a;
     total_tokens_used_display := total_tokens_used_display a;
     prompt_token_count_var := prompt_token_count_var a;
     waiting_popup := waiting_popup a;
     error_boxes := error_boxes a |}.

Record MainWindow : Type := {
  app : AIChatApp;
  conversations : list Conversation;
  active_slot : option nat;
  conversation_name_list : list string;
  conversation_counter : Z;
  current_conversation_api_key_display : string;
  model_name_display : string;
  reasoning_effort_ui_var : string;
  reasoning_effort_combobox_state : string
}.

(** The window after [AIChatApp.__init__]. *)
Definition new_MainWindow : MainWindow :=
  {| app := new_AIChatApp;
     conversations := [];
     active_slot := None;
     conversation_name_list := [];
     conversation_counter := 1;
     current_conversation_api_key_display := "API Key: N/A";
     model_name_display := "Model: N/A";
     reasoning_effort_ui_var := "(unavailable)";
     reasoning_effort_combobox_state := "disabled" |}.

Definition set_app (v : AIChatApp) (m : MainWindow) : MainWindow :=
  {| app := v; conversations := conversations m; active_slot := active_slot m;
     conversation_name_list := conversation_name_list m;
     conversation_counter := conversation_counter m;
     current_conversation_api_key_display := current_conversation_api_key_display m;
     model_name_display := model_name_display m;
     reasoning_effort_ui_var := reasoning_effort_ui_var m;
     reasoning_effort_combobox_state := reasoning_effort_combobox_state m |}.

Definition set_store (objects : list Conversation) (slot : option nat) (m : MainWindow)
  : MainWindow :=
  {| app := app m; conversations := objects; active_slot := slot;
     conversation_name_list := conversation_name_list m;
     conversation_counter := conversation_counter m;
     current_conversation_api_key_display := current_conversation_api_key_display m;
     model_name_display := model_name_display m;
     reasoning_effort_ui_var := reasoning_effort_ui_var m;
     reasoning_effort_combobox_state := reasoning_effort_combobox_state m |}.

Definition set_names (names : list string) (counter : Z) (m : MainWindow) : MainWindow :=
  {| app := app m; conversations := conversations m; active_slot := active_slot m;
     conversation_name_list := names;
     conversation_counter := counter;
     current_conversation_api_key_display := current_conversation_api_key_display m;
     model_name_display := model_name_display m;
     reasoning_effort_ui_var := reasoning_effort_ui_var m;
     reasoning_effort_combobox_state := reasoning_effort_combobox_state m |}.

Definition set_displays (key_display model_display : string) (m : MainWindow) : MainWindow :=
  {| app := app m; conversations := conversations m; active_slot := active_slot m;
     conversation_name_list := conversation_name_list m;
     conversation_counter := conversation_counter m;
     current_conversation_api_key_display := key_display;
     model_name_display := model_display;
     reasoning_effort_ui_var := reasoning_effort_ui_var m;
     reasoning_effort_combobox_state := reasoning_effort_combobox_state m |}.

Definition set_reasoning_controls (effort state : string) (m : MainWindow) : MainWindow :=
  {| app := app m; conversations := conversations m; active_slot := active_slot m;
     conversation_name_list := conversation_name_list m;
     conversation_counter := conversation_counter m;
     current_conversation_api_key_display := current_conversation_api_key_display m;
     model_name_display := model_name_display m;
     reasoning_effort_ui_var := effort;
     reasoning_effort_combobox_state := state |}.

(** The state after a method worked on [app]: the active object goes back to
    its position in the list. *)
Definition write_back (m : MainWindow) (a' : AIChatApp) : MainWindow :=
  set_store
    (match active_slot m, active_conversation a' with
     | Some i, Some c => <[i := c]> (conversations m)
     | _, _ => conversations m
     end)
    (active_slot m) (set_app a' m).

(** [self.active_conversation = conv], for the object at position [i]. *)
Definition activate (i : nat) (conv : Conversation) (m : MainWindow) : MainWindow :=
  set_store (conversations m) (Some i) (set_app (set_active_conversation (Some conv) (app m)) m).

Section MainWindowMethods.

Context {W : Type}.
Variable responses_create : request → W → outcome response * W.
Variable tiktoken : tiktoken_lib.
Variable py_str : pyval → outcome string.

(** The modal dialog, from the key read from the file and the proposed name
    to what the user leaves in [dialog.result]; the dialog may use the remote
    service and the console meanwhile. *)
Variable open_dialog :
  option string → string → world W →
  option (string * string * string * option string) * world W.

(** [OpenAI(api_key=api_key)], the constructor of the client library: it
    gives a client or raises. *)
Variable new_client : string → outcome unit.

Local Open Scope py_scope.

(** Run a method of the part of the window held in [app]. *)
Definition on_app {A} (m : M (AIChatApp * world W) A) : M (MainWindow * world W) A :=
  λ '(mw, w), let '(r, (a', w')) := m (app mw, w) in (r, (write_back mw a', w')).

(** [AIChatApp._update_api_key_display(conversation)] *)
Definition _update_api_key_display (conversation : option Conversation)
  : M (MainWindow * world W) unit :=
  update_self (λ m,
    set_displays
      (match conversation with
       | Some conv =>
           if PyStr.truthy (get_api_key conv)
           then "API Key: " +:+ get_api_key conv
           else "API Key: N/A"
       | None => "API Key: N/A"
       end)
      (model_name_display m) m).

(** [AIChatApp._update_reasoning_controls()] *)
Definition _update_reasoning_controls : M (MainWindow * world W) unit :=
  self <~ get_self ;;
  match active_conversation (app self) with
  | None => update_self (set_reasoning_controls "(unavailable)" "disabled")
  | Some conv =>
      let model_name := get_model_name conv in
      if _is_reasoning_compatible_model model_name
      then
        let current_effort :=
          if opt_truthy (reasoning_effort (OpenAI_chat_session conv))
          then default "medium" (reasoning_effort (OpenAI_chat_session conv))
          else "medium" in
        let current_effort :=
          if negb (is_known_effort current_effort) then "medium" else current_effort in
        update_self (set_reasoning_controls current_effort "readonly")
      else update_self (set_reasoning_controls "(unavailable)" "disabled")
  end.

(** [AIChatApp._on_reasoning_effort_change(event)] *)
Definition _on_reasoning_effort_change : M (MainWindow * world W) unit :=
  self <~ get_self ;;
  match active_conversation (app self) with
  | None => ret tt
  | Some conv =>
      let model_name := get_model_name conv in
      if _is_reasoning_compatible_model model_name
      then
        let effort := reasoning_effort_ui_var self in
        if is_known_effort effort
        then
          on_app (update_self (set_active_conversation
            (Some (set_session
                     (set_reasoning_effort (Some effort) (OpenAI_chat_session conv)) conv))))
        else ret tt
      else ret tt
  end.

(** [AIChatApp._on_active_conversation_change()] *)
Definition _on_active_conversation_change : M (MainWindow * world W) unit :=
  self <~ get_self ;;
  match active_conversation (app self) with
  | None => ret tt
  | Some conv =>
      on_app (_display_conversation_in_treeview py_str conv) ;;;
      _update_api_key_display (Some conv) ;;;
      on_app _update_token_count_display ;;;
      update_self (λ m,
        set_displays (current_conversation_api_key_display m)
          ("Model: " +:+ get_model_name conv) m) ;;;
      _update_reasoning_controls ;;;
      on_app (_update_prompt_token_count tiktoken py_str)
  end.


(** [AIChatApp._update_conversation_combobox()] *)
Definition _update_conversation_combobox : M (MainWindow * world W) unit :=
  update_self (λ m, set_names (map name (conversations m)) (conversation_counter m) m) ;;;
  self <~ get_self ;;
  match active_conversation (app self) with
  | Some conv => update_self (λ m, set_app (set_conversation_combobox (name conv) (app m)) m)
  | None => ret tt
  end.

Definition duplicate_name_text (conversation_name : string) : string :=
  "A conversation named '" +:+ conversation_name +:+ "' already exists." +:+
  PyStr.newline +:+ PyStr.newline +:+
  "Please try creating a new conversation with a unique name.".

(** The call [Conversation(api_key, name, model)]: the session it builds
    creates the client of the library first, and when that raises no object is
    made; otherwise the object is [new_Conversation]. *)
Definition create_conversation (api_key name model : string) : outcome Conversation :=
  obind (new_client api_key) (λ _, Returns (new_Conversation api_key name model)).

(** The effort of the dialog is applied to the new session when it is one of
    the three and the model takes it. *)
Definition apply_effort (effort : option string) (model_name : string)
  (new_conversation : Conversation) : Conversation :=
  if effort_allowed effort && _is_reasoning_compatible_model model_name
  then set_session (set_reasoning_effort effort (OpenAI_chat_session new_conversation))
         new_conversation
  else new_conversation.

(** The conversation [_add_new_conversation] adds for a result of the
    dialog, when the constructor returned. *)
Definition conversation_of_result (api_key model_name conversation_name : string)
  (effort : option string) : Conversation :=
  apply_effort effort model_name (new_Conversation api_key conversation_name model_name).

Definition conversation_error_text (e : exn) : string :=
  "Could not create conversation:" +:+ PyStr.newline +:+ exn_text e.

(** [AIChatApp._add_new_conversation()].  The test of the new session
    inside the [try] never fails: the session object has neither [__bool__]
    nor [__len__], so it is true. *)
Definition _add_new_conversation (file : key_file) : M (MainWindow * world W) unit :=
  initial_api_key <~ _read_api_key_from_file file ;;
  self <~ get_self ;;
  dialog_result <~
    (λ '(m, w),
       let '(r, w') :=
         open_dialog initial_api_key
           ("Conversation " +:+ PyStr.of_int (conversation_counter self)) w in
       (Returns r, (m, w'))) ;;
  match dialog_result with
  | None => ret tt
  | Some (api_key, model_name, conversation_name, effort) =>
      let existing_names := map name (conversations self) in
      if bool_decide (conversation_name ∈ existing_names)
      then
        on_app (update_self (showerror "Duplicate Name"
                               (duplicate_name_text conversation_name)))
      else
        created <~
          try_except
            (new_conversation <~
               lift (create_conversation api_key conversation_name model_name) ;;
             ret (Some new_conversation))
            (λ e,
               on_app (update_self (showerror "Conversation Error"
                                      (conversation_error_text e))) ;;;
               ret None) ;;
        match created with
        | None => ret tt
        | Some new_conversation =>
            let new_conversation := apply_effort effort model_name new_conversation in
            update_self (λ m,
              set_store (conversations m ++ [new_conversation]) (active_slot m)
                (set_names (conversation_name_list m) (conversation_counter m + 1) m)) ;;;
            _update_conversation_combobox ;;;
            update_self (λ m,
              set_app (set_conversation_combobox (name new_conversation) (app m)) m) ;;;
            update_self (activate (length (conversations self)) new_conversation) ;;;
            _on_active_conversation_change
        end
  end.

(** [AIChatApp.send_prompt()] on the whole window. *)
Definition window_send_prompt : M (MainWindow * world W) unit :=
  on_app (send_prompt responses_create tiktoken).

End MainWindowMethods.

(** ** The interpreter's [str] for examples

    [str] and [repr] of CPython 3.11 on the values of the model, for a
    nesting within the recursion limit.  The conversion of an integer of more
    than 4300 digits raises (the default limit of the interpreter); the sign
    does not count as a digit. *)

Definition int_max_str_digits : Z := 4300.

(** The least positive integer with more digits than the limit. *)
Definition int_str_limit : Z := 10 ^ int_max_str_digits.

Definition digits_error : exn :=
  Exception ("Exceeds the limit (4300 digits) for integer string conversion; " +:+
             "use sys.set_int_max_str_digits() to increase the limit").

(** [str(n)] and [repr(n)] for an integer. *)
Definition int_str (n : Z) : outcome string :=
  if int_str_limit <=? Z.abs n then Raises digits_error else Returns (PyStr.of_int n).

(** [repr(v)] *)
Fixpoint py_repr (v : pyval) : outcome string :=
  match v with
  | VNone => Returns "None"
  | VBool true => Returns "True"
  | VBool false => Returns "False"
  | VInt n => int_str n
  | VStr s => Returns (PyStr.repr s)
  | VList l =>
      obind
        ((fix parts (l : list pyval) : outcome (list string) :=
            match l with
            | [] => Returns []
            | x :: rest =>
                obind (py_repr x) (λ s, obind (parts rest) (λ ss, Returns (s :: ss)))
            end) l)
        (λ ss, Returns ("[" +:+ PyStr.join ", " ss +:+ "]"))
  | VDict d =>
      obind
        ((fix parts (d : list (string * pyval)) : outcome (list string) :=
            match d with
            | [] => Returns []
            | (k, x) :: rest =>
                obind (py_repr x) (λ s,
                obind (parts rest) (λ ss, Returns ((PyStr.repr k +:+ ": " +:+ s) :: ss)))
            end) d)
        (λ ss, Returns ("{" +:+ PyStr.join ", " ss +:+ "}"))
  end.

(** [str(v)]: a string is its own text, every other value is shown by
    [repr]. *)
Definition cpython_str (v : pyval) : outcome string :=
  match v with
  | VStr s => Returns s
  | _ => py_repr v
  end.

(** A client library that accepts every key, and one that cannot be set
    up. *)
Definition sample_client (api_key : string) : outcome unit := Returns tt.
Definition failing_client (api_key : string) : outcome unit :=
  Raises (Exception "Connection setup failed").

(** A session of an earlier exchange whose thread identifier is set. *)
Definition chained_session : OpenAIChatSession :=
  {| api_key := "sk-1"; model := "gpt-5"; reasoning_effort := Some "high";
     previous_response_id := Some "resp_1"; token_count := 7 |}.

Definition earlier_history : list pyval :=
  [message "user" "hi"; message "model" "hello"].

Definition long_reply : string := "The quick brown fox jumps over the lazy dog".

Definition sample_conversation : Conversation :=
  {| name := "Conversation 1";
     chat_history := [message "user" "hi"; message "model" long_reply];
     OpenAI_chat_session := chained_session |}.

(** The window after the sample conversation was drawn. *)
Definition drawn_window : AIChatApp :=
  (_display_conversation_in_treeview cpython_str sample_conversation
     (new_AIChatApp, start_world [])).2.1.

(** ** Vocabulary of the statements *)

(** The world after more requests reached the service and more lines were
    printed. *)
Definition logged {W} (w : world W) (requests : list request) (remote' : W)
  (lines : list string) : world W :=
  {| remote := remote'; sent := sent w ++ requests; console := console w ++ lines |}.

(** The history as the requests carry it: every record converted, then the
    new prompt. *)
Definition full_history_payload (history : option (list pyval)) (prompt : string)
  : list api_message :=
  map history_message (history_or_empty history) ++ [user_message prompt].

(** The three efforts the service knows. *)
Definition known_effort (e : string) : Prop := e = "low" ∨ e = "medium" ∨ e = "high".

Section Vocabulary.

Context {W : Type}.
Variable responses_create : request → W → outcome response * W.

(** The response a call of [send_message_to_OpenAI_API] receives, if any:
    the answer to the first request, or the answer to the retry after a
    lost-thread error. *)
Definition response_received (s : OpenAIChatSession) (w : world W) (prompt : string)
  (history : option (list pyval)) : option response :=
  match responses_create (first_request s prompt history) (remote w) with
  | (Returns r, _) => Some r
  | (Raises e, rm1) =>
      if lost_thread (exn_text e)
      then match responses_create (retry_request s prompt history) rm1 with
           | (Returns r, _) => Some r
           | (Raises _, _) => None
           end
      else None
  end.

Variable tiktoken : tiktoken_lib.

(** The states a conversation object goes through: it is sent prompts,
    whatever the remote service answers, and the window may assign the
    reasoning effort of its session. *)
Inductive reachable_from (c0 : Conversation) : Conversation → Prop :=
| reach_start : reachable_from c0 c0
| reach_send (c : Conversation) (prompt : string) (w : world W)
    (r : outcome (option string)) (c' : Conversation) (w' : world W) :
    reachable_from c0 c →
    send_message responses_create tiktoken prompt (c, w) = (r, (c', w')) →
    reachable_from c0 c'
| reach_effort (c : Conversation) (effort : option string) :
    reachable_from c0 c →
    reachable_from c0 (set_session (set_reasoning_effort effort (OpenAI_chat_session c)) c).

End Vocabulary.

(** The number of tokens of one history record under an encoding. *)
Definition encoded_length (enc : encoding) (m : pyval) (n : Z) : Prop :=
  ∃ tokens, encode enc (message_text_of m) = Returns tokens ∧ n = len tokens.

(** [sum] of a list of integers. *)
Definition sumZ (l : list Z) : Z := foldr Z.add 0 l.

(** The history after some exchanges: a user record and a model record for
    each. *)
Definition exchanges (pairs : list (string * string)) : list pyval :=
  flat_map (λ '(prompt, reply), [message "user" prompt; message "model" reply]) pairs.

(** A line of the message list agrees with the stored record: the node maps
    to a record whose role and text are strings, and the line is the one
    [_insert_message_to_treeview] builds from them. *)
Definition shows (content : gmap node_id pyval) (item : tree_item) : Prop :=
  ∃ m role text,
    content !! iid item = Some m
    ∧ subscript m "role" = Returns (VStr role)
    ∧ subscript m "message_text" = Returns (VStr text)
    ∧ item_text item = tree_line role text.

(** Every line of the tree agrees with the node mapping, and the identifiers
    in use are below the next one the widget hands out. *)
Definition in_sync (t : Treeview) (content : gmap node_id pyval) : Prop :=
  Forall (shows content) (children t)
  ∧ Forall (λ item, (iid item < next_iid t)%nat) (children t).

Definition tree_in_sync (a : AIChatApp) : Prop :=
  in_sync (messages_tree a) (message_node_to_content a).

(** A line of the message list is the line of a stored record: the node
    maps to the record, the text is the line built from its role and text, and
    the tag marks a reply of the model. *)
Definition line_of (content : gmap node_id pyval) (item : tree_item) (m : pyval) : Prop :=
  content !! iid item = Some m
  ∧ ∃ role text,
      m = message role text
      ∧ item_text item = tree_line role text
      ∧ item_tags item = (if String.eqb role "model" then ["ai_message"] else []).

(** The message list mirrors a history: one line per record, in order. *)
Definition mirrors (a : AIChatApp) (history : list pyval) : Prop :=
  Forall2 (line_of (message_node_to_content a)) (children (messages_tree a)) history.

(** The records [Conversation.send_message] stores. *)
Definition is_record (m : pyval) : Prop := ∃ role text, m = message role text.



(** A line: no line break, except perhaps as the last character. *)
Fixpoint line_like (s : string) : Prop :=
  match s with
  | EmptyString => True
  | String c rest => (is_line_break c = true → rest = EmptyString) ∧ line_like rest
  end.

Definition no_line_break (s : string) : Prop :=
  Forall (λ c, is_line_break c = false) (list_ascii_of_string s).

Definition first_char (s : string) : option ascii :=
  match s with
  | EmptyString => None
  | String c _ => Some c
  end.

Fixpoint last_char (s : string) : option ascii :=
  match s with
  | EmptyString => None
  | String c EmptyString => Some c
  | String _ rest => last_char rest
  end.

(** The order [sorted] sorts by. *)
Definition str_le (x y : string) : Prop := String.leb x y = true.

(** The effort of a session fits its model: none, or one of the three for
    a model of the gpt-5 family. *)
Definition effort_fits (s : OpenAIChatSession) : Prop :=
  match reasoning_effort s with
  | None => True
  | Some e => known_effort e ∧ PyStr.startswith (model s) "gpt-5" = true
  end.

Definition conversation_ok (c : Conversation) : Prop :=
  name c ≠ EmptyString
  ∧ Forall is_record (chat_history c)
  ∧ effort_fits (OpenAI_chat_session c).

(** The window is consistent: the names of the conversations are distinct
    and offered by the combobox, the active conversation is one of the list,
    it is the one the combobox names, and the message list mirrors its
    history. *)
Definition window_ok (m : MainWindow) : Prop :=
  NoDup (map name (conversations m))
  ∧ Forall conversation_ok (conversations m)
  ∧ conversation_name_list m = map name (conversations m)
  ∧ active_conversation (app m) = (active_slot m ≫= λ i, conversations m !! i)
  ∧ tree_in_sync (app m)
  ∧ (∀ c, active_conversation (app m) = Some c →
          mirrors (app m) (chat_history c) ∧ conversation_combobox (app m) = name c).

(** A dialog in which the user keeps the key read from the file and asks
    for a gpt-5 conversation named "Conversation 1" with a high effort. *)
Definition sample_dialog {W : Type} (key : option string) (proposed : string) (w : world W)
  : option (string * string * string * option string) * world W :=
  (Some (default "sk-typed" key, "gpt-5", "Conversation 1", Some "high"), w).

(** The window after a first conversation was added. *)
Definition window_one : MainWindow :=
  (_add_new_conversation sample_tiktoken cpython_str sample_dialog sample_client
     (FileContent "sk-file") (new_MainWindow, start_world [])).2.1.

(** The same window with a prompt typed in the editor. *)
Definition window_typed : MainWindow :=
  set_app (set_prompt_text_editor "hi" (app window_one)) window_one.

(** A models service that lists three models, one of them without [id]. *)
Definition sample_models (key : string) : outcome (list (option string)) :=
  if String.eqb key "sk-1"
  then Returns [Some "gpt-5"; None; Some "gpt-4o"]
  else Raises (Exception "Incorrect API key provided").

(** The run of [send_prompt] from the window with the typed prompt,
    against a service that answers once. *)
Definition typed_run : outcome unit * (MainWindow * world (list (outcome response))) :=
  window_send_prompt scripted sample_tiktoken
    (window_typed, start_world [Returns (text_response "hello" "resp_1")]).

(** * Properties *)

(** ** String primitives on examples *)

Example startswith_gpt5 : PyStr.startswith "gpt-5-mini" "gpt-5" = true.
Proof. reflexivity. Qed.
Example contains_lost :
  PyStr.contains "Previous response" "Error: Previous response with id x not found" = true.
Proof. reflexivity. Qed.
Example strip_both :
  PyStr.strip ("  hello world" +:+ PyStr.newline +:+ " ") = "hello world".
Proof. reflexivity. Qed.
Example join_lines : PyStr.join "," ["a"; "b"; "c"] = "a,b,c".
Proof. reflexivity. Qed.
Example capitalize_user : PyStr.capitalize "user" = "User".
Proof. reflexivity. Qed.
Example capitalize_mixed : PyStr.capitalize "mODEL" = "Model".
Proof. reflexivity. Qed.
Example of_int_neg : PyStr.of_int (-42) = "-42".
Proof. reflexivity. Qed.

(** ** A complete exchange *)

Example demo_run :
  send_message scripted sample_tiktoken "hi"
    (new_Conversation "sk-1" "Conversation 1" "gpt-5", start_world [Returns (text_response "hello" "resp_1")])
  = (Returns (Some "hello"),
     ({| name := "Conversation 1";
         chat_history := [message "user" "hi"; message "model" "hello"];
         OpenAI_chat_session :=
           {| api_key := "sk-1"; model := "gpt-5"; reasoning_effort := None;
              previous_response_id := Some "resp_1"; token_count := 7 |} |},
      {| remote := [];
         sent := [ {| req_model := "gpt-5"; req_input := [user_message "hi"];
                      req_store := true; req_previous_response_id := None;
                      req_reasoning := None |} ];
         console := [] |})).
Proof. reflexivity. Qed.

(** ** The session *)

Section SessionFacts.

Context {W : Type}.
Variable responses_create : request → W → outcome response * W.
Variable tiktoken : tiktoken_lib.

Lemma logged_nil (w : world W) : logged w [] (remote w) [] = w.
Proof. destruct w; unfold logged; simpl. by rewrite !app_nil_r. Qed.

(** The retry reads only the model and the effort of the session. *)
Lemma retry_request_reset (s : OpenAIChatSession) v prompt history :
  retry_request (set_previous_response_id v s) prompt history
  = retry_request s prompt history.
Proof. reflexivity. Qed.

(** What one call does, by the answers of the remote service: a first
    request; on a lost-thread error a second one; the identifier of the
    response that arrived is stored. *)
Lemma send_message_to_OpenAI_API_unfold (s : OpenAIChatSession) (w : world W)
  (prompt : string) (history : option (list pyval)) :
  send_message_to_OpenAI_API responses_create prompt history (s, w) =
  let req1 := first_request s prompt history in
  match responses_create req1 (remote w) with
  | (Returns r, rm1) =>
      (Returns (reply_text_of r),
       (set_previous_response_id (resp_id r) s, logged w [req1] rm1 []))
  | (Raises e, rm1) =>
      if lost_thread (exn_text e)
      then
        let req2 := retry_request s prompt history in
        match responses_create req2 rm1 with
        | (Returns r, rm2) =>
            (Returns (reply_text_of r),
             (set_previous_response_id (resp_id r) s, logged w [req1; req2] rm2 []))
        | (Raises e2, rm2) =>
            (Returns None,
             (set_previous_response_id None s,
              logged w [req1; req2] rm2
                ["Error during OpenAI API request after retry: " +:+ exn_text e2]))
        end
      else
        (Returns None,
         (s, logged w [req1] rm1 ["Error during OpenAI API request: " +:+ exn_text e]))
  end.
Proof.
  unfold send_message_to_OpenAI_API, try_except, bind, get_self, create,
    update_self, modify, ret, print, logged.
  cbn zeta.
  destruct (responses_create (first_request s prompt history) (remote w))
    as [[r|e] rm1]; cbn.
  - by rewrite app_nil_r.
  - destruct (lost_thread (exn_text e)); cbn.
    + rewrite retry_request_reset.
      destruct (responses_create (retry_request s prompt history) rm1)
        as [[r|e2] rm2]; cbn; rewrite <- ?app_assoc; cbn.
      * by rewrite app_nil_r.
      * done.
    + done.
Qed.

(** The retry always carries the supplied history followed by the prompt;
    an absent or empty history leaves the prompt alone. *)
Lemma retry_request_input (s : OpenAIChatSession) prompt history :
  req_input (retry_request s prompt history) = full_history_payload history prompt.
Proof.
  unfold retry_request, full_history_payload, history_payload; simpl.
  by destruct history as [[|m l]|].
Qed.

Lemma history_message_model (text : string) :
  history_message (message "model" text) = {| role := VStr "assistant"; content := VStr text |}.
Proof. reflexivity. Qed.

Lemma history_message_user (text : string) :
  history_message (message "user" text) = user_message text.
Proof. reflexivity. Qed.

Lemma effort_allowed_spec (v : option string) :
  effort_allowed v = true ↔ ∃ e, v = Some e ∧ known_effort e.
Proof.
  unfold effort_allowed, known_effort. destruct v as [e|].
  - rewrite !orb_true_iff, !String.eqb_eq. split.
    + intros H. exists e. tauto.
    + intros (e' & [= <-] & H). tauto.
  - split; [done | intros (e & [=] & _)].
Qed.

Lemma reasoning_compatible_spec (model_name : string) :
  _is_reasoning_compatible_model model_name = PyStr.startswith model_name "gpt-5".
Proof. by destruct model_name. Qed.

(** The reasoning parameter of a request built from the session [s]. *)
Lemma reasoning_gate (s : OpenAIChatSession) (v : option string) (e : string) :
  v = (if _is_reasoning_compatible_model (model s) && effort_allowed (reasoning_effort s)
       then reasoning_effort s else None) →
  v = Some e ↔
  PyStr.startswith (model s) "gpt-5" = true ∧ reasoning_effort s = Some e ∧ known_effort e.
Proof.
  intros ->. rewrite reasoning_compatible_spec.
  destruct (PyStr.startswith (model s) "gpt-5"); simpl.
  - destruct (effort_allowed (reasoning_effort s)) eqn:Ha.
    + apply effort_allowed_spec in Ha as (e' & He' & Hk). rewrite He'. split.
      * intros [= <-]. done.
      * intros (_ & [= <-] & _). done.
    + split; [done|]. intros (_ & He & Hk).
      assert (effort_allowed (reasoning_effort s) = true) as Ht
        by (apply effort_allowed_spec; eauto).
      congruence.
  - split; [done | intros (? & _); done].
Qed.

(** C8: lost-thread recovery.  When the first request raises an error whose
    text contains "previous_response_not_found" or "Previous response", the
    call returns (it does not raise), exactly one more request is sent, that
    request has no previous_response_id and its input is the supplied history
    (each record converted, the role "model" renamed "assistant") followed by
    the new prompt; when the retry raises too the result is None and
    previous_response_id is left None, otherwise the reply and the identifier
    of the retry's response are kept. *)
Theorem lost_thread_recovery (s : OpenAIChatSession) (w : world W) (prompt : string)
  (history : option (list pyval)) (e : exn) (rm1 : W) :
  responses_create (first_request s prompt history) (remote w) = (Raises e, rm1) →
  PyStr.contains "previous_response_not_found" (exn_text e) = true
  ∨ PyStr.contains "Previous response" (exn_text e) = true →
  ∃ (retry : request) (result : option string) (s' : OpenAIChatSession) (w' : world W),
    send_message_to_OpenAI_API responses_create prompt history (s, w)
      = (Returns result, (s', w'))
    ∧ sent w' = sent w ++ [first_request s prompt history; retry]
    ∧ retry = retry_request (set_previous_response_id None s) prompt history
    ∧ req_previous_response_id retry = None
    ∧ req_input retry = map history_message (history_or_empty history) ++ [user_message prompt]
    ∧ (∀ text, history_message (message "model" text)
               = {| role := VStr "assistant"; content := VStr text |})
    ∧ match responses_create retry rm1 with
      | (Raises _, _) => result = None ∧ previous_response_id s' = None
      | (Returns r, _) => result = reply_text_of r ∧ previous_response_id s' = resp_id r
      end.
Proof.
  intros Hfirst Hlost.
  assert (lost_thread (exn_text e) = true) as Hl.
  { unfold lost_thread. apply orb_true_iff. done. }
  rewrite send_message_to_OpenAI_API_unfold. cbn zeta. rewrite Hfirst, Hl.
  exists (retry_request s prompt history).
  destruct (responses_create (retry_request s prompt history) rm1) as [[r|e2] rm2] eqn:Hretry.
  - eexists _, _, _. split; [reflexivity|].
    repeat split; try done. apply retry_request_input.
  - eexists _, _, _. split; [reflexivity|].
    repeat split; try done. apply retry_request_input.
Qed.

(** A call always returns, and its first request is always sent. *)
Lemma send_message_to_OpenAI_API_returns (s : OpenAIChatSession) (w : world W)
  (prompt : string) (history : option (list pyval)) :
  ∃ (result : option string) (s' : OpenAIChatSession) (w' : world W) (rest : list request),
    send_message_to_OpenAI_API responses_create prompt history (s, w)
      = (Returns result, (s', w'))
    ∧ sent w' = sent w ++ first_request s prompt history :: rest
    ∧ (rest = [] ∨ rest = [retry_request s prompt history])
    ∧ api_key s' = api_key s ∧ model s' = model s
    ∧ reasoning_effort s' = reasoning_effort s
    ∧ token_count s' = token_count s
    ∧ (∀ r, response_received responses_create s w prompt history = Some r →
            result = reply_text_of r ∧ previous_response_id s' = resp_id r)
    ∧ (response_received responses_create s w prompt history = None → result = None).
Proof.
  rewrite send_message_to_OpenAI_API_unfold. unfold response_received. cbn zeta.
  destruct (responses_create (first_request s prompt history) (remote w))
    as [[r|e] rm1].
  - eexists _, _, _, []. split; [reflexivity|]. simpl.
    repeat split; auto; try congruence; try (intros r' [= <-]; done).
  - destruct (lost_thread (exn_text e)).
    + destruct (responses_create (retry_request s prompt history) rm1) as [[r|e2] rm2].
      * eexists _, _, _, [_]. split; [reflexivity|]. simpl.
        repeat split; auto; try congruence; try (intros r' [= <-]; done).
      * eexists _, _, _, [_]. split; [reflexivity|]. simpl.
        repeat split; auto; congruence.
    + eexists _, _, _, []. split; [reflexivity|]. simpl.
      repeat split; auto; congruence.
Qed.

(** C2, as the code has it: the first request of every call carries only
    the new prompt when previous_response_id is set (a non-empty identifier)
    or when no history is supplied, and a set previous_response_id is passed
    in that request; when previous_response_id is unset and the history is
    not empty, the input is the supplied history followed by the prompt. *)
Theorem context_threading (s : OpenAIChatSession) (w : world W) (prompt : string)
  (history : option (list pyval)) :
  ∃ (result : option string) (s' : OpenAIChatSession) (w' : world W) (rest : list request),
    send_message_to_OpenAI_API responses_create prompt history (s, w)
      = (Returns result, (s', w'))
    ∧ sent w' = sent w ++ first_request s prompt history :: rest
    ∧ (∀ id, previous_response_id s = Some id → id ≠ EmptyString →
         req_input (first_request s prompt history) = [user_message prompt]
         ∧ req_previous_response_id (first_request s prompt history) = Some id)
    ∧ (history = None ∨ history = Some [] →
         req_input (first_request s prompt history) = [user_message prompt])
    ∧ (previous_response_id s = None ∨ previous_response_id s = Some EmptyString →
         req_input (first_request s prompt history) = full_history_payload history prompt
         ∧ req_previous_response_id (first_request s prompt history) = None).
Proof.
  destruct (send_message_to_OpenAI_API_returns s w prompt history)
    as (result & s' & w' & rest & Hrun & Hsent & _).
  exists result, s', w', rest. split; [done|]. split; [done|].
  unfold first_request, full_history_payload, history_payload; simpl.
  split; [|split].
  - intros id -> Hid. destruct id; done.
  - intros [-> | ->]; by rewrite andb_false_r.
  - intros [-> | ->]; simpl; by destruct history as [[|m l]|].
Qed.

(** Against a service whose responses carry no empty identifier, a call
    leaves previous_response_id None or a non-empty identifier when it was
    so. *)
Lemma identifier_stays_nonempty (s : OpenAIChatSession) (w : world W) (prompt : string)
  (history : option (list pyval)) r (s' : OpenAIChatSession) (w' : world W) :
  (∀ req rm resp rm', responses_create req rm = (Returns resp, rm') →
                      resp_id resp ≠ Some EmptyString) →
  previous_response_id s ≠ Some EmptyString →
  send_message_to_OpenAI_API responses_create prompt history (s, w) = (r, (s', w')) →
  previous_response_id s' ≠ Some EmptyString.
Proof.
  intros Hservice Hid. rewrite send_message_to_OpenAI_API_unfold. cbn zeta.
  destruct (responses_create (first_request s prompt history) (remote w))
    as [[resp|e] rm1] eqn:H1.
  - intros [= _ <- _]. simpl. by eapply Hservice.
  - destruct (lost_thread (exn_text e)).
    + destruct (responses_create (retry_request s prompt history) rm1)
        as [[resp|e2] rm2] eqn:H2.
      * intros [= _ <- _]. simpl. by eapply Hservice.
      * by intros [= _ <- _].
    + by intros [= _ <- _].
Qed.

(** C4: in a session whose previous_response_id is None or a non-empty
    identifier, a call that receives a response (to its first request or to
    the retry) leaves the identifier of that response in previous_response_id,
    and the first request, the one made while previous_response_id has the
    value [id], carries [id] as its previous_response_id parameter.  The retry
    is made after previous_response_id was set to None and carries none.  The
    session stays such a session as long as the identifiers of the responses
    are not empty, so every session the program builds is one. *)
Theorem response_chaining (s : OpenAIChatSession) (w : world W) (prompt : string)
  (history : option (list pyval)) :
  previous_response_id s ≠ Some EmptyString →
  ∃ (result : option string) (s' : OpenAIChatSession) (w' : world W) (rest : list request),
    send_message_to_OpenAI_API responses_create prompt history (s, w)
      = (Returns result, (s', w'))
    ∧ sent w' = sent w ++ first_request s prompt history :: rest
    ∧ (∀ r, response_received responses_create s w prompt history = Some r →
            previous_response_id s' = resp_id r)
    ∧ (∀ id, previous_response_id s = Some id →
            req_previous_response_id (first_request s prompt history) = Some id)
    ∧ (previous_response_id s = None →
            req_previous_response_id (first_request s prompt history) = None)
    ∧ (rest = [] ∨ rest = [retry_request (set_previous_response_id None s) prompt history])
    ∧ Forall (λ r, req_previous_response_id r = None) rest
    ∧ ((∀ r, response_received responses_create s w prompt history = Some r →
             resp_id r ≠ Some EmptyString) →
       previous_response_id s' ≠ Some EmptyString).
Proof.
  intros Hid.
  assert (∀ id, previous_response_id s = Some id →
            req_previous_response_id (first_request s prompt history) = Some id) as Hfirst.
  { intros id Hs. unfold first_request; simpl. rewrite Hs in *. simpl. by destruct id. }
  assert (previous_response_id s = None →
            req_previous_response_id (first_request s prompt history) = None) as Hnone.
  { intros Hs. unfold first_request; simpl. by rewrite Hs. }
  rewrite send_message_to_OpenAI_API_unfold. unfold response_received. cbn zeta.
  destruct (responses_create (first_request s prompt history) (remote w))
    as [[r|e] rm1].
  - eexists _, _, _, []. split; [reflexivity|]. simpl.
    split_and!; try done; auto; by intros r' [= <-].
  - destruct (lost_thread (exn_text e)).
    + destruct (responses_create (retry_request s prompt history) rm1) as [[r|e2] rm2].
      * eexists _, _, _, [_]. split; [reflexivity|]. simpl.
        split_and!; try done; auto;
          try (by intros r' [= <-]); by repeat constructor.
      * eexists _, _, _, [_]. split; [reflexivity|]. simpl.
        split_and!; try done; auto; by repeat constructor.
    + eexists _, _, _, []. split; [reflexivity|]. simpl.
      split_and!; try done; auto.
Qed.

(** C5: every request of a call carries a reasoning effort exactly when the
    model name starts with "gpt-5" and the session's reasoning_effort is one of
    "low", "medium", "high"; the effort carried is the session's. *)
Theorem reasoning_effort_gate (s : OpenAIChatSession) (w : world W) (prompt : string)
  (history : option (list pyval)) :
  ∃ (result : option string) (s' : OpenAIChatSession) (w' : world W) (new : list request),
    send_message_to_OpenAI_API responses_create prompt history (s, w)
      = (Returns result, (s', w'))
    ∧ sent w' = sent w ++ new
    ∧ new ≠ []
    ∧ Forall (λ r, ∀ e, req_reasoning r = Some e ↔
                PyStr.startswith (model s) "gpt-5" = true
                ∧ reasoning_effort s = Some e
                ∧ (e = "low" ∨ e = "medium" ∨ e = "high")) new.
Proof.
  destruct (send_message_to_OpenAI_API_returns s w prompt history)
    as (result & s' & w' & rest & Hrun & Hsent & Hrest & _).
  exists result, s', w', (first_request s prompt history :: rest).
  split; [done|]. split; [done|]. split; [done|].
  constructor.
  - intros e0. by apply reasoning_gate.
  - destruct Hrest as [-> | ->]; [constructor|].
    apply Forall_cons; split; [|constructor].
    intros e0. by apply reasoning_gate.
Qed.

(** *** Token accounting *)

Lemma count_history_from (enc : encoding) (history : list pyval) (lens : list Z) (acc : Z) :
  Forall2 (encoded_length enc) history lens →
  ofold (λ total m,
           obind (encode enc (message_text_of m)) (λ tokens, Returns (total + len tokens)))
        history acc = Returns (acc + sumZ lens).
Proof.
  intros H. revert acc. induction H as [|m n history lens (tokens & Henc & ->) _ IH];
    intros acc; simpl.
  - f_equal. lia.
  - rewrite Henc. simpl. rewrite IH. f_equal. lia.
Qed.

Lemma count_history_sum (enc : encoding) (history : list pyval) (lens : list Z) :
  Forall2 (encoded_length enc) history lens →
  count_history enc history = Returns (sumZ lens).
Proof. intros H. unfold count_history. by rewrite (count_history_from _ _ _ _ H). Qed.

(** The loop returns only when every record was encoded. *)
Lemma count_history_from_returns (enc : encoding) (history : list pyval) (acc total : Z) :
  ofold (λ total m,
           obind (encode enc (message_text_of m)) (λ tokens, Returns (total + len tokens)))
        history acc = Returns total →
  ∃ lens, Forall2 (encoded_length enc) history lens ∧ total = acc + sumZ lens.
Proof.
  revert acc total. induction history as [|m history IH]; intros acc total; simpl.
  - intros [= <-]. exists []. split; [constructor | simpl; lia].
  - destruct (encode enc (message_text_of m)) as [tokens|e] eqn:Henc; simpl; [|done].
    intros H. destruct (IH _ _ H) as (lens & Hall & ->).
    exists (len tokens :: lens). split.
    + constructor; [by exists tokens | done].
    + simpl. lia.
Qed.

Lemma count_history_returns (enc : encoding) (history : list pyval) (total : Z) :
  count_history enc history = Returns total →
  ∃ lens, Forall2 (encoded_length enc) history lens ∧ total = sumZ lens.
Proof.
  intros H. destruct (count_history_from_returns _ _ _ _ H) as (lens & Hall & ->).
  by exists lens.
Qed.

(** The lengths of the encodings are determined by the history. *)
Lemma encoded_lengths_unique (enc : encoding) (history : list pyval) (l1 l2 : list Z) :
  Forall2 (encoded_length enc) history l1 →
  Forall2 (encoded_length enc) history l2 → l1 = l2.
Proof.
  intros H1. revert l2. induction H1 as [|m n history l1 (t1 & Ht1 & ->) _ IH];
    intros l2 H2; inversion H2 as [|? n2 ? l2' (t2 & Ht2 & ->) Hrest]; subst; [done|].
  rewrite Ht1 in Ht2. injection Ht2 as <-. f_equal. by apply IH.
Qed.

(** The loop raises the error of the first record whose text the encoder
    refuses. *)
Lemma count_history_from_raises (enc : encoding) (history : list pyval) (acc : Z) (e : exn) :
  ofold (λ total m,
           obind (encode enc (message_text_of m)) (λ tokens, Returns (total + len tokens)))
        history acc = Raises e ↔
  ∃ before m after,
    history = before ++ m :: after
    ∧ Forall (λ x, returned (encode enc (message_text_of x))) before
    ∧ encode enc (message_text_of m) = Raises e.
Proof.
  revert acc. induction history as [|x history IH]; intros acc; simpl.
  - split; [done|]. intros (before & m & after & H & _). by destruct before.
  - destruct (encode enc (message_text_of x)) as [tokens|e'] eqn:Hx; simpl.
    + rewrite IH. split.
      * intros (before & m & after & -> & Hb & Hm).
        exists (x :: before), m, after. split; [done|]. split; [|done].
        constructor; [by exists tokens | done].
      * intros (before & m & after & Heq & Hb & Hm).
        destruct before as [|y before]; simpl in Heq; injection Heq as <- ->.
        -- congruence.
        -- apply Forall_cons in Hb as [_ Hb]. by exists before, m, after.
    + split.
      * intros [= <-]. exists [], x, history. by split_and!.
      * intros (before & m & after & Heq & Hb & Hm).
        destruct before as [|y before]; simpl in Heq; injection Heq as <- ->.
        -- congruence.
        -- apply Forall_cons in Hb as [[tokens Hy] _]. congruence.
Qed.

Lemma count_history_raises (enc : encoding) (history : list pyval) (e : exn) :
  count_history enc history = Raises e ↔
  ∃ before m after,
    history = before ++ m :: after
    ∧ Forall (λ x, returned (encode enc (message_text_of x))) before
    ∧ encode enc (message_text_of m) = Raises e.
Proof. apply count_history_from_raises. Qed.

Lemma error_line_prefix (text : string) :
  String.prefix "Error updating token count: " ("Error updating token count: " +:+ text) = true.
Proof. by destruct text. Qed.

Lemma message_text_of_other (m : pyval) :
  (∀ d, m ≠ VDict d) → message_text_of m = VStr EmptyString.
Proof. intros Hm. destruct m; try done. by destruct (Hm d). Qed.

(** What [update_token_count] does, by the outcome of the tokenizer. *)
Lemma update_token_count_unfold (s : OpenAIChatSession) (w : world W)
  (history : option (list pyval)) :
  update_token_count tiktoken history (s, w) =
  match obind (_get_encoding_for_model tiktoken (model s))
              (λ enc, count_history enc (history_or_empty history)) with
  | Returns total => (Returns tt, (set_token_count total s, w))
  | Raises e =>
      (Returns tt,
       (s, logged w [] (remote w) ["Error updating token count: " +:+ exn_text e]))
  end.
Proof.
  unfold update_token_count, try_except, bind, get_self, lift, update_self, modify,
    print, logged.
  destruct (_get_encoding_for_model tiktoken (model s)) as [enc|e]; simpl.
  - destruct (count_history enc (history_or_empty history)) as [total|e]; simpl; [done|].
    by rewrite app_nil_r.
  - by rewrite app_nil_r.
Qed.

(** A recount returns and touches only token_count and the console. *)
Lemma update_token_count_returns (s : OpenAIChatSession) (w : world W)
  (history : option (list pyval)) :
  ∃ (s' : OpenAIChatSession) (w' : world W),
    update_token_count tiktoken history (s, w) = (Returns tt, (s', w'))
    ∧ api_key s' = api_key s ∧ model s' = model s
    ∧ reasoning_effort s' = reasoning_effort s
    ∧ previous_response_id s' = previous_response_id s
    ∧ sent w' = sent w ∧ remote w' = remote w.
Proof.
  rewrite update_token_count_unfold.
  destruct (obind _ _) as [total|e].
  - eexists _, _. split; [reflexivity|]. by split_and!.
  - eexists _, _. split; [reflexivity|]. simpl. rewrite app_nil_r. by split_and!.
Qed.

(** C3, as the code has it: when the encoding for the session's model is
    obtained and every text is encoded, token_count becomes the sum of the
    lengths of the encodings of the records' message texts (the empty string
    for a record that is not a dictionary) and nothing is printed; when the
    lookup raises, or the encoding of a record does, token_count keeps its
    value and one line is printed, "Error updating token count: " followed by
    the text of the error (the error of the lookup, or of the first record that
    is refused).  Nothing else of the session changes, no request is sent, and
    the call returns in every case. *)
Theorem token_count_pass_through (s : OpenAIChatSession) (w : world W)
  (history : option (list pyval)) :
  ∃ (s' : OpenAIChatSession) (w' : world W),
    update_token_count tiktoken history (s, w) = (Returns tt, (s', w'))
    ∧ api_key s' = api_key s ∧ model s' = model s
    ∧ reasoning_effort s' = reasoning_effort s
    ∧ previous_response_id s' = previous_response_id s
    ∧ sent w' = sent w ∧ remote w' = remote w
    ∧ (∀ enc lens,
         _get_encoding_for_model tiktoken (model s) = Returns enc →
         Forall2 (encoded_length enc) (history_or_empty history) lens →
         token_count s' = sumZ lens ∧ console w' = console w)
    ∧ (∀ e, _get_encoding_for_model tiktoken (model s) = Raises e →
         token_count s' = token_count s
         ∧ console w' = console w ++ ["Error updating token count: " +:+ exn_text e])
    ∧ (∀ enc before m after e,
         _get_encoding_for_model tiktoken (model s) = Returns enc →
         history_or_empty history = before ++ m :: after →
         Forall (λ x, returned (encode enc (message_text_of x))) before →
         encode enc (message_text_of m) = Raises e →
         token_count s' = token_count s
         ∧ console w' = console w ++ ["Error updating token count: " +:+ exn_text e])
    ∧ ((∃ e, _get_encoding_for_model tiktoken (model s) = Raises e)
       ∨ (∃ enc m e, _get_encoding_for_model tiktoken (model s) = Returns enc
                     ∧ m ∈ history_or_empty history
                     ∧ encode enc (message_text_of m) = Raises e) →
       token_count s' = token_count s
       ∧ ∃ line, console w' = console w ++ [line]
                 ∧ String.prefix "Error updating token count: " line = true)
    ∧ (∀ m, (∀ d, m ≠ VDict d) → message_text_of m = VStr EmptyString)
    ∧ (∀ role text, message_text_of (message role text) = VStr text).
Proof.
  rewrite update_token_count_unfold.
  destruct (_get_encoding_for_model tiktoken (model s)) as [enc|e] eqn:Hget; simpl.
  - destruct (count_history enc (history_or_empty history)) as [total|e] eqn:Hcount.
    + eexists _, _. split; [reflexivity|]. simpl. rewrite ?app_nil_r.
      split_and!; try done; auto using message_text_of_other.
      * intros enc' lens [= <-] Hall.
        rewrite (count_history_sum _ _ _ Hall) in Hcount. by injection Hcount as <-.
      * intros enc' before m after e [= <-] Hh Hb Hm.
        assert (count_history enc (history_or_empty history) = Raises e) as Hr
          by (apply count_history_raises; by exists before, m, after).
        congruence.
      * intros [(e & [=]) | (enc' & m & e & [= <-] & Hin & Hraise)].
        apply count_history_returns in Hcount as (lens & Hall & _).
        destruct (proj1 (list_elem_of_lookup _ _) Hin) as (i & Hi).
        destruct (Forall2_lookup_l _ _ _ _ _ Hall Hi) as (n & _ & tokens & Henc & _).
        congruence.
    + eexists _, _. split; [reflexivity|]. simpl. rewrite ?app_nil_r.
      split_and!; try done; auto using message_text_of_other.
      * intros enc' lens [= <-] Hall.
        rewrite (count_history_sum _ _ _ Hall) in Hcount. done.
      * intros enc' before m after e' [= <-] Hh Hb Hm.
        assert (count_history enc (history_or_empty history) = Raises e') as Hr
          by (apply count_history_raises; by exists before, m, after).
        rewrite Hcount in Hr. by injection Hr as ->.
      * intros _. split; [done|]. eexists. split; [reflexivity|]. apply error_line_prefix.
  - eexists _, _. split; [reflexivity|]. simpl. rewrite ?app_nil_r.
    split_and!; try done; auto using message_text_of_other.
    + by intros e' [= <-].
    + intros _. split; [done|]. eexists. split; [reflexivity|]. apply error_line_prefix.
Qed.

End SessionFacts.

(** ** The conversation *)

Section ConversationFacts.

Context {W : Type}.
Variable responses_create : request → W → outcome response * W.
Variable tiktoken : tiktoken_lib.

(** What [Conversation.send_message] does, by the reply of the session. *)
Lemma send_message_unfold (c : Conversation) (w : world W) (prompt : string) :
  send_message responses_create tiktoken prompt (c, w) =
  let '(reply, (s1, w1)) :=
    send_message_to_OpenAI_API responses_create prompt (Some (chat_history c))
      (OpenAI_chat_session c, w) in
  match reply with
  | Returns (Some text) =>
      if PyStr.truthy text
      then
        let h := chat_history c ++ [message "user" prompt; message "model" text] in
        let '(_, (s2, w2)) := update_token_count tiktoken (Some h) (s1, w1) in
        (Returns (Some text),
         ({| name := name c; chat_history := h; OpenAI_chat_session := s2 |}, w2))
      else (Returns None, (set_session s1 c, w1))
  | Returns None => (Returns None, (set_session s1 c, w1))
  | Raises e =>
      (Returns None,
       (set_session s1 c,
        logged w1 [] (remote w1) ["Error sending message in Conversation: " +:+ exn_text e]))
  end.
Proof.
  unfold send_message, try_except, bind, get_self, on_session, zoom, append_history,
    update_self, modify, ret, print, logged.
  cbn zeta.
  destruct (send_message_to_OpenAI_API responses_create prompt (Some (chat_history c))
              (OpenAI_chat_session c, w)) as [[[text|]|e] [s1 w1]]; cbn.
  - destruct (PyStr.truthy text); cbn; [|done].
    rewrite <- app_assoc. cbn.
    destruct (update_token_count tiktoken
                (Some (chat_history c ++ [message "user" prompt; message "model" text]))
                (s1, w1)) as [[[]|e] [s2 w2]]; cbn; done.
  - done.
  - by rewrite app_nil_r.
Qed.

(** C1: [send_message] only appends to chat_history.  The history before is
    a prefix of the history after; when the session returns a non-empty reply
    exactly the user record and the model record are appended, in this order,
    and the reply is returned; when the session returns None the history is
    unchanged and None is returned. *)
Theorem send_message_append_only (c : Conversation) (w : world W) (prompt : string) :
  ∃ (reply : option string) (s1 : OpenAIChatSession) (w1 : world W)
    (result : option string) (c' : Conversation) (w' : world W),
    send_message_to_OpenAI_API responses_create prompt (Some (chat_history c))
      (OpenAI_chat_session c, w) = (Returns reply, (s1, w1))
    ∧ send_message responses_create tiktoken prompt (c, w) = (Returns result, (c', w'))
    ∧ chat_history c `prefix_of` chat_history c'
    ∧ (∀ text, reply = Some text → text ≠ EmptyString →
         chat_history c' =
           chat_history c ++
             [ VDict [("role", VStr "user"); ("message_text", VStr prompt)];
               VDict [("role", VStr "model"); ("message_text", VStr text)] ]
         ∧ result = Some text)
    ∧ (reply = None → chat_history c' = chat_history c ∧ result = None)
    ∧ (reply = Some EmptyString → chat_history c' = chat_history c ∧ result = None).
Proof.
  rewrite send_message_unfold.
  destruct (send_message_to_OpenAI_API_returns responses_create
              (OpenAI_chat_session c) w prompt (Some (chat_history c)))
    as (reply & s1 & w1 & _ & -> & _).
  exists reply, s1, w1. destruct reply as [text|].
  - destruct text as [|ch text]; cbn.
    + eexists _, _, _. split; [done|]. split; [done|]. cbn.
      split_and!; try done. by intros text [= <-] Hne.
    + destruct (update_token_count tiktoken _ (s1, w1)) as [? [s2 w2]].
      eexists _, _, _. split; [done|]. split; [done|]. cbn.
      split_and!; try done.
      * by apply prefix_app_r.
      * by intros text' [= <-] _.
  - eexists _, _, _. split; [done|]. split; [done|]. cbn.
    by split_and!.
Qed.

(** One call: the name and the credentials stay, the history stays or
    grows by one exchange. *)
Lemma send_message_step (c : Conversation) (w : world W) (prompt : string)
  (r : outcome (option string)) (c' : Conversation) (w' : world W) :
  send_message responses_create tiktoken prompt (c, w) = (r, (c', w')) →
  name c' = name c
  ∧ api_key (OpenAI_chat_session c') = api_key (OpenAI_chat_session c)
  ∧ model (OpenAI_chat_session c') = model (OpenAI_chat_session c)
  ∧ (chat_history c' = chat_history c
     ∨ ∃ text, chat_history c' = chat_history c ++ exchanges [(prompt, text)]).
Proof.
  rewrite send_message_unfold.
  destruct (send_message_to_OpenAI_API_returns responses_create
              (OpenAI_chat_session c) w prompt (Some (chat_history c)))
    as (reply & s1 & w1 & _ & -> & _ & _ & Hkey & Hmodel & _).
  destruct reply as [text|]; [destruct (PyStr.truthy text)|].
  - cbn zeta.
    destruct (update_token_count_returns tiktoken s1 w1
                (Some (chat_history c ++ [message "user" prompt; message "model" text])))
      as (s2 & w2 & -> & Hkey2 & Hmodel2 & _).
    intros [= <- <- <-]. cbn. split_and!; try congruence. right. by exists text.
  - intros [= <- <- <-]. cbn. split_and!; auto.
  - intros [= <- <- <-]. cbn. split_and!; auto.
Qed.

Lemma exchanges_app (p1 p2 : list (string * string)) :
  exchanges (p1 ++ p2) = exchanges p1 ++ exchanges p2.
Proof. unfold exchanges. apply flat_map_app. Qed.

(** The history of a reachable conversation is a list of exchanges. *)
Lemma reachable_exchanges (c0 c : Conversation) :
  reachable_from responses_create tiktoken c0 c →
  (∃ pairs, chat_history c0 = exchanges pairs) →
  ∃ pairs, chat_history c = exchanges pairs.
Proof.
  intros Hreach Hstart. induction Hreach as [|c prompt w r c' w' _ IH Hsend|c effort _ IH].
  - done.
  - destruct IH as (pairs & Hpairs).
    destruct (send_message_step _ _ _ _ _ _ Hsend) as (_ & _ & _ & [-> | (text & ->)]).
    + by exists pairs.
    + exists (pairs ++ [(prompt, text)]). by rewrite exchanges_app, Hpairs.
  - done.
Qed.

Lemma exchanges_length (pairs : list (string * string)) :
  length (exchanges pairs) = (2 * length pairs)%nat.
Proof. induction pairs as [|[p r] pairs IH]; simpl in *; lia. Qed.

Lemma exchanges_lookup (pairs : list (string * string)) (i : nat) (record : pyval) :
  exchanges pairs !! i = Some record →
  ∃ text, record = message (if Nat.even i then "user" else "model") text.
Proof.
  revert i. induction pairs as [|[p r] pairs IH]; intros i; [done|].
  destruct i as [|[|i]]; simpl.
  - intros [= <-]. by exists p.
  - intros [= <-]. by exists r.
  - apply IH.
Qed.

(** C6: the history starts empty, and in every state a conversation reaches
    its length is even and the record at position [i] is a dictionary with
    exactly the keys role and message_text, the text a string and the role
    "user" at the even positions and "model" at the odd ones. *)
Theorem history_records (api_key name model : string) (c : Conversation) :
  reachable_from responses_create tiktoken (new_Conversation api_key name model) c →
  chat_history (new_Conversation api_key name model) = []
  ∧ Nat.Even (length (chat_history c))
  ∧ (∀ i record, chat_history c !! i = Some record →
       ∃ text, record =
         VDict [("role", VStr (if Nat.even i then "user" else "model"));
                ("message_text", VStr text)])
  ∧ (∀ record, record ∈ chat_history c →
       ∃ role text, (role = "user" ∨ role = "model")
         ∧ record = VDict [("role", VStr role); ("message_text", VStr text)]).
Proof.
  intros Hreach.
  destruct (reachable_exchanges _ _ Hreach) as (pairs & Hpairs); [by exists []|].
  split; [done|]. rewrite Hpairs. split_and!.
  - exists (length pairs). apply exchanges_length.
  - apply exchanges_lookup.
  - intros record Hin. apply list_elem_of_lookup in Hin as (i & Hi).
    apply exchanges_lookup in Hi as (text & ->).
    exists (if Nat.even i then "user" else "model"), text.
    split; [destruct (Nat.even i); auto | done].
Qed.

(** The credentials of a reachable conversation are those of its start. *)
Lemma reachable_credentials (c0 c : Conversation) :
  reachable_from responses_create tiktoken c0 c →
  get_api_key c = get_api_key c0 ∧ get_model_name c = get_model_name c0.
Proof.
  unfold get_api_key, get_model_name.
  induction 1 as [|c prompt w r c' w' _ IH Hsend|c effort _ IH]; [done| |done].
  destruct (send_message_step _ _ _ _ _ _ Hsend) as (_ & -> & -> & _). done.
Qed.

(** C7: api_key and model are set by the constructor and no operation
    changes them: not a call to the remote service, not a token recount, not
    [send_message]; the two getters of a conversation return the values it
    was created with in every state it reaches. *)
Theorem credentials_fixed (k n m : string) :
  api_key (new_OpenAIChatSession k m) = k
  ∧ model (new_OpenAIChatSession k m) = m
  ∧ (∀ (s : OpenAIChatSession) (w : world W) prompt history r s' w',
       send_message_to_OpenAI_API responses_create prompt history (s, w) = (r, (s', w')) →
       api_key s' = api_key s ∧ model s' = model s)
  ∧ (∀ (s : OpenAIChatSession) (w : world W) history r s' w',
       update_token_count tiktoken history (s, w) = (r, (s', w')) →
       api_key s' = api_key s ∧ model s' = model s)
  ∧ (∀ (c : Conversation) (w : world W) prompt r c' w',
       send_message responses_create tiktoken prompt (c, w) = (r, (c', w')) →
       get_api_key c' = get_api_key c ∧ get_model_name c' = get_model_name c)
  ∧ (∀ c, reachable_from responses_create tiktoken (new_Conversation k n m) c →
       get_api_key c = k ∧ get_model_name c = m).
Proof.
  split_and!; try done.
  - intros s w prompt history r s' w' Hrun.
    destruct (send_message_to_OpenAI_API_returns responses_create s w prompt history)
      as (? & ? & ? & ? & Hrun' & _ & _ & Hkey & Hmodel & _).
    rewrite Hrun in Hrun'. by injection Hrun' as -> <- <-.
  - intros s w history r s' w' Hrun.
    destruct (update_token_count_returns tiktoken s w history)
      as (? & ? & Hrun' & Hkey & Hmodel & _).
    rewrite Hrun in Hrun'. by injection Hrun' as -> <- <-.
  - intros c w prompt r c' w' Hrun.
    by destruct (send_message_step _ _ _ _ _ _ Hrun) as (_ & ? & ? & _).
  - intros c Hreach. by apply reachable_credentials in Hreach.
Qed.

End ConversationFacts.

(** ** The token counter of the window *)

Section TokenCounterFacts.

Variable py_str : pyval → outcome string.

Lemma len_nonneg {A} (l : list A) : 0 ≤ len l.
Proof. unfold len. lia. Qed.

(** The count for a text that was obtained: it is returned, it is not
    negative, it is the length of the encoding when the encoder works and 0
    when the lookup or the encoder raises. *)
Lemma count_tokens_of_text (self : _ModelsWrapper) (model : string) (contents : pyval)
  (text : string) :
  contents_text py_str contents = Returns text →
  ∃ n : Z,
    count_tokens py_str self model contents = Returns {| total_tokens := n |}
    ∧ 0 ≤ n
    ∧ (∀ enc tokens,
         _get_encoding self model = Returns enc →
         encode enc (VStr text) = Returns tokens →
         n = len tokens)
    ∧ ((∃ e, _get_encoding self model = Raises e)
       ∨ (∃ enc e, _get_encoding self model = Returns enc
                   ∧ encode enc (VStr text) = Raises e) →
       n = 0).
Proof.
  intros Htext. unfold count_tokens. rewrite Htext. unfold otry, obind.
  destruct (_get_encoding self model) as [enc|e] eqn:Hget.
  - destruct (encode enc (VStr text)) as [tokens|e] eqn:Henc.
    + exists (len tokens). split; [done|]. split; [apply len_nonneg|]. split.
      * intros enc' tokens' [= <-] Hs. congruence.
      * intros [(e & [=]) | (enc' & e & [= <-] & Hraise)]. congruence.
    + exists 0. split; [done|]. split; [done|]. split; [|done].
      intros enc' tokens' [= <-] Hs. congruence.
  - exists 0. split; [done|]. split; [done|]. split; [|done].
    intros enc' tokens' [=].
Qed.

(** C9, as the code has it: the text of the contents is computed before the
    [try]: a string is taken as it is, a false value (None, False, 0, an empty
    list or dictionary) gives the empty string, and every other value goes
    through [str].  When the text is obtained, [count_tokens] returns a count
    that is not negative: the length of the encoding of the text under the
    encoding the wrapper selects, and 0 when the selection or the encoding
    raises.  When [str] raises, [count_tokens] raises the same exception. *)
Theorem count_tokens_total (self : _ModelsWrapper) (model : string) (contents : pyval) :
  (∀ text, contents_text py_str contents = Returns text →
     ∃ n : Z,
       count_tokens py_str self model contents = Returns {| total_tokens := n |}
       ∧ 0 ≤ n
       ∧ (∀ enc tokens,
            _get_encoding self model = Returns enc →
            encode enc (VStr text) = Returns tokens →
            n = Z.of_nat (length tokens))
       ∧ ((∃ e, _get_encoding self model = Raises e)
          ∨ (∃ enc e, _get_encoding self model = Returns enc
                      ∧ encode enc (VStr text) = Raises e) →
          n = 0))
  ∧ (∀ e, contents_text py_str contents = Raises e →
       count_tokens py_str self model contents = Raises e)
  ∧ (∀ s, contents = VStr s → contents_text py_str contents = Returns s)
  ∧ ((∀ s, contents ≠ VStr s) → truthy contents = false →
       contents_text py_str contents = Returns EmptyString)
  ∧ ((∀ s, contents ≠ VStr s) → truthy contents = true →
       contents_text py_str contents = py_str contents)
  ∧ truthy VNone = false.
Proof.
  split_and!.
  - intros text Htext. by apply count_tokens_of_text.
  - intros e He. unfold count_tokens. by rewrite He.
  - by intros s ->.
  - intros Hs Hfalse. destruct contents as [| | |s0| |]; simpl in *;
      [by rewrite ?Hfalse | by rewrite ?Hfalse | by rewrite ?Hfalse | by destruct (Hs s0) | by rewrite ?Hfalse | by rewrite ?Hfalse].
  - intros Hs Htrue. destruct contents as [| | |s0| |]; simpl in *;
      [by rewrite ?Htrue | by rewrite ?Htrue | by rewrite ?Htrue | by destruct (Hs s0) | by rewrite ?Htrue | by rewrite ?Htrue].
  - done.
Qed.

End TokenCounterFacts.

(** ** The message list *)




Lemma in_sync_empty (n : nat) (content : gmap node_id pyval) :
  in_sync {| children := []; next_iid := n |} content.
Proof. split; constructor. Qed.

(** Inserting a line for a record and storing the record under the new
    node keeps the tree and the mapping in agreement. *)
Lemma in_sync_insert (t : Treeview) (content : gmap node_id pyval)
  (m : pyval) (role text : string) (tags : list string) :
  in_sync t content →
  subscript m "role" = Returns (VStr role) →
  subscript m "message_text" = Returns (VStr text) →
  in_sync (tree_insert (tree_line role text) tags t).2 (<[next_iid t := m]> content).
Proof.
  intros [Hshows Hfresh] Hrole Htext. unfold in_sync, tree_insert. simpl. split.
  - apply Forall_app. split.
    + rewrite Forall_forall in Hshows, Hfresh. apply Forall_forall. intros item Hin.
      destruct (Hshows item Hin) as (m' & role' & text' & Hm' & ? & ? & ?).
      exists m', role', text'. split_and!; try done.
      rewrite lookup_insert_ne; [done|]. specialize (Hfresh item Hin). simpl in *. lia.
    + constructor; [|constructor]. exists m, role, text. simpl.
      by rewrite lookup_insert_eq.
  - apply Forall_app. split.
    + eapply Forall_impl; [exact Hfresh|]. simpl. intros; lia.
    + constructor; [simpl; lia | constructor].
Qed.

Lemma subscript_message (role text : string) :
  subscript (message role text) "role" = Returns (VStr role)
  ∧ subscript (message role text) "message_text" = Returns (VStr text).
Proof. done. Qed.

Section WindowFacts.

Context {W : Type}.
Variable responses_create : request → W → outcome response * W.
Variable tiktoken : tiktoken_lib.
Variable py_str : pyval → outcome string.

(** [_insert_message_to_treeview] returns the fresh node and appends one
    line; nothing else of the window changes. *)
Lemma insert_message_unfold (a : AIChatApp) (w : world W) (role message_content : string) :
  _insert_message_to_treeview role message_content (a, w)
  = (Returns (next_iid (messages_tree a)),
     (set_messages_tree
        (tree_insert (tree_line role message_content)
           (if String.eqb role "model" then ["ai_message"] else [])
           (messages_tree a)).2 a,
      w)).
Proof. reflexivity. Qed.

(** On two strings the insertion of values is the method on strings. *)
Lemma insert_message_values_strings (role text : string) (a : AIChatApp) (w : world W) :
  insert_message_values py_str (VStr role) (VStr text) (a, w)
  = _insert_message_to_treeview role text (a, w).
Proof.
  unfold insert_message_values, _insert_message_to_treeview, tree_line, display_text,
    bind, lift, get_self, update_self, modify, ret. simpl.
  by destruct (20 <? String.length text)%nat.
Qed.

(** One turn of the display loop on a stored record. *)
Lemma display_message_record (conversation_name role text : string)
  (a : AIChatApp) (w : world W) (l : list node_id) :
  conversation_ids a !! conversation_name = Some l →
  display_message py_str conversation_name (message role text) (a, w)
  = (Returns tt,
     (set_message_node_to_content
        (<[next_iid (messages_tree a) := message role text]> (message_node_to_content a))
        (set_conversation_ids
           (<[conversation_name := l ++ [next_iid (messages_tree a)]]> (conversation_ids a))
           (set_messages_tree
              (tree_insert (tree_line role text)
                 (if String.eqb role "model" then ["ai_message"] else [])
                 (messages_tree a)).2 a)),
      w)).
Proof.
  intros Hl. unfold display_message.
  change (subscript (message role text) "role") with (Returns (VStr role)).
  change (subscript (message role text) "message_text") with (Returns (VStr text)).
  unfold bind at 1 2 3. unfold lift at 1 2.
  rewrite insert_message_values_strings, insert_message_unfold.
  unfold ids_append, store_content, bind, get_self, update_self, modify, ret. simpl.
  by rewrite Hl.
Qed.

(** One turn of the display loop on a stored record keeps the agreement,
    and the list of node identifiers of the conversation stays present. *)
Lemma display_message_sync (conversation_name : string) (m : pyval)
  (a : AIChatApp) (w : world W) r a' w' :
  is_record m →
  tree_in_sync a →
  is_Some (conversation_ids a !! conversation_name) →
  display_message py_str conversation_name m (a, w) = (r, (a', w')) →
  r = Returns tt ∧ tree_in_sync a' ∧ is_Some (conversation_ids a' !! conversation_name).
Proof.
  intros (role & text & ->) Hsync [l Hl].
  rewrite (display_message_record _ _ _ _ _ _ Hl).
  intros [= <- <- <-]. split; [done|]. unfold tree_in_sync. simpl. split.
  - by apply in_sync_insert.
  - rewrite lookup_insert_eq. by eexists.
Qed.

Lemma display_messages_sync (conversation_name : string) (history : list pyval)
  (a : AIChatApp) (w : world W) r a' w' :
  Forall is_record history →
  tree_in_sync a →
  is_Some (conversation_ids a !! conversation_name) →
  display_messages py_str conversation_name history (a, w) = (r, (a', w')) →
  tree_in_sync a'.
Proof.
  intros Hrec. revert a w.
  induction Hrec as [|m history Hm _ IH]; intros a w Hsync Hids; simpl.
  - by intros [= <- <- <-].
  - unfold bind.
    destruct (display_message py_str conversation_name m (a, w)) as [r1 [a1 w1]] eqn:Hrun.
    destruct (display_message_sync _ _ _ _ _ _ _ Hm Hsync Hids Hrun) as (-> & Hsync1 & Hids1).
    by apply IH.
Qed.

(** Redrawing a conversation of stored records leaves the tree and the
    mapping in agreement, whatever they were. *)
Lemma display_conversation_sync (conversation : Conversation)
  (a : AIChatApp) (w : world W) r a' w' :
  Forall is_record (get_history conversation) →
  _display_conversation_in_treeview py_str conversation (a, w) = (r, (a', w')) →
  tree_in_sync a'.
Proof.
  intros Hrec.
  unfold _display_conversation_in_treeview, _clear_message_display, bind,
    update_self, modify. simpl.
  apply display_messages_sync; [done| |].
  - apply in_sync_empty.
  - simpl. rewrite lookup_insert_eq. by eexists.
Qed.

(** Showing an exchange keeps the agreement. *)
Lemma show_exchange_sync (prompt_text ai_reply_text : string)
  (a : AIChatApp) (w : world W) r a' w' :
  tree_in_sync a →
  show_exchange prompt_text ai_reply_text (a, w) = (r, (a', w')) →
  tree_in_sync a'.
Proof.
  intros Hsync.
  assert (in_sync
    (tree_insert (tree_line "model" ai_reply_text) ["ai_message"]
       (tree_insert (tree_line "user" prompt_text) [] (messages_tree a)).2).2
    (<[S (next_iid (messages_tree a)) := message "model" ai_reply_text]>
       (<[next_iid (messages_tree a) := message "user" prompt_text]>
          (message_node_to_content a)))) as Hboth.
  { apply (in_sync_insert (tree_insert (tree_line "user" prompt_text) [] (messages_tree a)).2);
      [|done|done].
    by apply in_sync_insert. }
  unfold show_exchange, bind, get_self. simpl.
  destruct (PyStr.truthy (conversation_combobox a)); simpl.
  - unfold ids_append, store_content, _update_token_count_display, bind, get_self,
      update_self, modify, raise, ret. simpl.
    destruct (conversation_ids a !! conversation_combobox a) as [l|] eqn:Hl; simpl.
    + rewrite Hl. simpl. rewrite lookup_insert_eq. simpl.
      destruct (active_conversation a); simpl; by intros [= <- <- <-].
    + rewrite lookup_insert_eq. simpl. rewrite lookup_insert_eq. simpl.
      destruct (active_conversation a); simpl; by intros [= <- <- <-].
  - by intros [= <- <- <-].
Qed.

(** Sending a prompt keeps the agreement: the call to the conversation
    touches neither the tree nor the mapping, and the exchange is shown with
    both records stored. *)
Lemma send_prompt_sync (a : AIChatApp) (w : world W) r a' w' :
  tree_in_sync a →
  send_prompt responses_create tiktoken (a, w) = (r, (a', w')) →
  tree_in_sync a'.
Proof.
  intros Hsync. unfold send_prompt, bind, get_self. simpl.
  destruct (PyStr.truthy (PyStr.strip (prompt_text_editor a +:+ PyStr.newline))); simpl;
    [|by intros [= <- <- <-]].
  destruct (active_conversation a) as [conv|] eqn:Hconv; simpl;
    [|by intros [= <- <- <-]].
  unfold on_active_conversation. simpl. rewrite Hconv.
  destruct (send_message responses_create tiktoken _ (conv, w)) as [[reply|e] [conv' w1]];
    simpl; [|by intros [= <- <- <-]].
  destruct reply as [reply|]; [destruct (PyStr.truthy reply)|]; simpl;
    try by intros [= <- <- <-].
  apply show_exchange_sync. done.
Qed.

End WindowFacts.

(** ** Runs against the scripted service *)

(** A lost thread: the first request names the stored response, the service
    does not know it, and the retry re-sends the history without it. *)
Example lost_thread_run :
  send_message_to_OpenAI_API scripted "again" (Some earlier_history)
    (chained_session,
     start_world [Raises lost_error; Returns (text_response "hello again" "resp_2")])
  = (Returns (Some "hello again"),
     (set_previous_response_id (Some "resp_2") chained_session,
      {| remote := [];
         sent :=
           [ {| req_model := "gpt-5"; req_input := [user_message "again"];
                req_store := true; req_previous_response_id := Some "resp_1";
                req_reasoning := Some "high" |};
             {| req_model := "gpt-5";
                req_input :=
                  [ {| role := VStr "user"; content := VStr "hi" |};
                    {| role := VStr "assistant"; content := VStr "hello" |};
                    {| role := VStr "user"; content := VStr "again" |} ];
                req_store := true; req_previous_response_id := None;
                req_reasoning := Some "high" |} ];
         console := [] |})).
Proof. reflexivity. Qed.

(** Another error is printed and the call gives None. *)
Example other_error_run :
  send_message_to_OpenAI_API scripted "again" (Some earlier_history)
    (chained_session, start_world [])
  = (Returns None,
     (chained_session,
      {| remote := [];
         sent := [first_request chained_session "again" (Some earlier_history)];
         console := ["Error during OpenAI API request: Connection error."] |})).
Proof. reflexivity. Qed.

(** The fallback joins the texts of the message items and strips the result. *)
Example fallback_reply :
  reply_text_of
    {| output_text := Raises (Exception "no attribute output_text");
       output :=
         [ {| item_type := Some "reasoning"; item_content := [] |};
           {| item_type := Some "message";
              item_content :=
                [ {| part_type := Some "output_text"; part_text := " one" |};
                  {| part_type := Some "refusal"; part_text := "no" |};
                  {| part_type := Some "output_text"; part_text := "two " |} ] |} ];
       resp_id := Some "resp_3" |}
  = Some ("one" +:+ PyStr.newline +:+ "two").
Proof. reflexivity. Qed.

(** C2, the claim as written fails: with no thread identifier stored and a
    history of two records, the request carries the two records before the
    prompt, not the prompt alone. *)
Lemma history_is_resent :
  let s := new_OpenAIChatSession "sk-1" "gpt-4o" in
  let run := send_message_to_OpenAI_API scripted "again" (Some earlier_history)
               (s, start_world [Returns (text_response "hello again" "resp_2")]) in
  previous_response_id s = None
  ∧ ∃ r, sent run.2.2 = [r]
       ∧ req_input r =
           [ {| role := VStr "user"; content := VStr "hi" |};
             {| role := VStr "assistant"; content := VStr "hello" |};
             {| role := VStr "user"; content := VStr "again" |} ]
       ∧ req_input r ≠ [user_message "again"].
Proof. split; [done|]. eexists. split; [reflexivity|]. split; [reflexivity|]. done. Qed.

(** The one state C4 leaves out: an identifier that is empty is tested as
    false and is not sent.  A session holds it only after a response whose
    identifier is the empty string. *)
Example empty_identifier_not_sent :
  let s := set_previous_response_id (Some EmptyString) (new_OpenAIChatSession "sk-1" "gpt-4o") in
  let run := send_message_to_OpenAI_API scripted "again" (Some earlier_history)
               (s, start_world [Returns (text_response "hello again" "resp_2")]) in
  previous_response_id s ≠ None
  ∧ ∃ r, sent run.2.2 = [r] ∧ req_previous_response_id r = None.
Proof. split; [done|]. eexists. split; reflexivity. Qed.

(** C4 at a session that holds the identifier of an earlier response. *)
Lemma response_chaining_witness :
  let w := start_world [Returns (text_response "hello again" "resp_2")] in
  previous_response_id chained_session ≠ Some EmptyString
  ∧ ∃ result s' w' rest,
      send_message_to_OpenAI_API scripted "again" (Some earlier_history) (chained_session, w)
        = (Returns result, (s', w'))
      ∧ sent w' = sent w ++ first_request chained_session "again" (Some earlier_history) :: rest
      ∧ previous_response_id s' = Some "resp_2"
      ∧ req_previous_response_id (first_request chained_session "again" (Some earlier_history))
        = Some "resp_1".
Proof.
  assert (previous_response_id chained_session ≠ Some EmptyString) as Hid by done.
  split; [exact Hid|].
  destruct (response_chaining scripted chained_session
              (start_world [Returns (text_response "hello again" "resp_2")])
              "again" (Some earlier_history) Hid)
    as (result & s' & w' & rest & Hrun & Hsent & Hrecv & Hfirst & _).
  exists result, s', w', rest. split; [exact Hrun|]. split; [exact Hsent|].
  split; [exact (Hrecv _ eq_refl) | exact (Hfirst _ eq_refl)].
Defined.

(** C3, the claim as written fails: a text that spells a special token makes
    the encoder raise; token_count then keeps its earlier value 7, which is no
    sum of encoding lengths over the history, whose last record alone encodes
    to 15 tokens. *)
Lemma special_token_keeps_count :
  let history :=
    [message "user" "What does <|endoftext|> mean?"; message "model" "It ends a text."] in
  let run := update_token_count sample_tiktoken (Some history)
               (chained_session, start_world []) in
  run.1 = Returns tt
  ∧ _get_encoding_for_model sample_tiktoken (model chained_session) = Returns sample_encoding
  ∧ token_count run.2.1 = 7
  ∧ console run.2.2
    = ["Error updating token count: " +:+
       "Encountered text corresponding to disallowed special token"]
  ∧ encoded_length sample_encoding (message "model" "It ends a text.") 15
  ∧ ¬ ∃ lens, Forall2 (encoded_length sample_encoding) history lens
              ∧ token_count run.2.1 = sumZ lens.
Proof.
  split_and!; try reflexivity.
  - by eexists.
  - intros (lens & Hall & _).
    inversion Hall as [|m n rest lens' (tokens & Henc & _) _]; subst.
    vm_compute in Henc. done.
Qed.

(** The same history without the special token is counted. *)
Example plain_history_count :
  (update_token_count sample_tiktoken
     (Some [message "user" "What does it mean?"; message "model" "It ends a text."; VNone])
     (chained_session, start_world [])).2.1
  = set_token_count 33 chained_session.
Proof. reflexivity. Qed.

(** C8 at the lost-thread run: both hypotheses hold there. *)
Lemma lost_thread_recovery_witness :
  let s := chained_session in
  let w := start_world [Raises lost_error; Returns (text_response "hello again" "resp_2")] in
  scripted (first_request s "again" (Some earlier_history)) (remote w)
    = (Raises lost_error, [Returns (text_response "hello again" "resp_2")])
  ∧ PyStr.contains "previous_response_not_found" (exn_text lost_error) = true
  ∧ ∃ retry result s' w',
      send_message_to_OpenAI_API scripted "again" (Some earlier_history) (s, w)
        = (Returns result, (s', w'))
      ∧ sent w' = sent w ++ [first_request s "again" (Some earlier_history); retry]
      ∧ req_previous_response_id retry = None.
Proof.
  split; [reflexivity|]. split; [reflexivity|].
  destruct (lost_thread_recovery scripted chained_session
              (start_world [Raises lost_error; Returns (text_response "hello again" "resp_2")])
              "again" (Some earlier_history) lost_error
              [Returns (text_response "hello again" "resp_2")]
              eq_refl (or_introl eq_refl))
    as (retry & result & s' & w' & Hrun & Hsent & _ & Hnone & _).
  exists retry, result, s', w'. split; [exact Hrun|]. split; [exact Hsent | exact Hnone].
Defined.

(** C6 at a conversation that has held one exchange. *)
Lemma history_records_witness :
  let c0 := new_Conversation "sk-1" "Conversation 1" "gpt-5" in
  let run := send_message scripted sample_tiktoken "hi"
               (c0, start_world [Returns (text_response "hello" "resp_1")]) in
  reachable_from scripted sample_tiktoken c0 run.2.1
  ∧ chat_history run.2.1 = [message "user" "hi"; message "model" "hello"]
  ∧ Nat.Even (length (chat_history run.2.1)).
Proof.
  assert (reachable_from scripted sample_tiktoken
            (new_Conversation "sk-1" "Conversation 1" "gpt-5")
            (send_message scripted sample_tiktoken "hi"
               (new_Conversation "sk-1" "Conversation 1" "gpt-5",
                start_world [Returns (text_response "hello" "resp_1")])).2.1) as Hreach.
  { eapply (reach_send _ _ _ _ "hi" (start_world [Returns (text_response "hello" "resp_1")]));
      [apply reach_start | exact demo_run]. }
  split; [exact Hreach|]. split; [reflexivity|].
  exact (proj1 (proj2 (history_records scripted sample_tiktoken _ _ _ _ Hreach))).
Defined.

(** ** The window on the sample conversation *)

Example drawn_lines :
  children (messages_tree drawn_window)
  = [ {| iid := 1%nat; item_text := "User: hi"; item_tags := [] |};
      {| iid := 2%nat; item_text := "Model: The quick brown fox ...";
         item_tags := ["ai_message"] |} ].
Proof. reflexivity. Qed.

Example drawn_full_text :
  stored_message_text drawn_window 2%nat = Returns (VStr long_reply)
  ∧ conversation_ids drawn_window !! "Conversation 1" = Some [1%nat; 2%nat].
Proof. split; reflexivity. Qed.

(** A prompt sent from the drawn window: two more lines, two more records. *)
Example send_prompt_run :
  let a := set_prompt_text_editor "  and a cat?  "
             (set_active_conversation (Some sample_conversation)
                {| active_conversation := None;
                   conversation_combobox := "Conversation 1";
                   prompt_text_editor := EmptyString;
                   messages_tree := messages_tree drawn_window;
                   conversation_ids := conversation_ids drawn_window;
                   message_node_to_content := message_node_to_content drawn_window;
                   message_text := EmptyString;
                   selected_message_token_count_var := EmptyString;
                   total_tokens_used_display := "Tokens: N/A";
                   prompt_token_count_var := "Tokens: 0";
                   waiting_popup := false;
                   error_boxes := [] |}) in
  let run := send_prompt scripted sample_tiktoken
               (a, start_world [Returns (text_response "The cat sleeps." "resp_2")]) in
  run.1 = Returns tt
  ∧ map item_text (children (messages_tree run.2.1))
    = ["User: hi"; "Model: The quick brown fox ..."; "User: and a cat?";
       "Model: The cat sleeps."]
  ∧ stored_message_text run.2.1 3%nat = Returns (VStr "and a cat?")
  ∧ total_tokens_used_display run.2.1 = "Tokens in context: 70"
  ∧ prompt_text_editor run.2.1 = EmptyString.
Proof. vm_compute. by split_and!. Qed.

(** ** The token counter on examples *)

Example count_tokens_text :
  count_tokens cpython_str (session_models sample_tiktoken) "gpt-4o" (VStr "hello")
  = Returns {| total_tokens := 5 |}.
Proof. reflexivity. Qed.

Example count_tokens_none :
  count_tokens cpython_str (session_models sample_tiktoken) "gpt-4o" VNone
  = Returns {| total_tokens := 0 |}.
Proof. reflexivity. Qed.

Example count_tokens_number :
  count_tokens cpython_str (session_models sample_tiktoken) "gpt-4o" (VInt 1234)
  = Returns {| total_tokens := 4 |}.
Proof. reflexivity. Qed.

Example count_tokens_list :
  contents_text cpython_str (VList [VStr "it's"; VInt (-3); VNone]) =
    Returns ("[" +:+ PyStr.dquote +:+ "it's" +:+ PyStr.dquote +:+ ", -3, None]")
  ∧ count_tokens cpython_str (session_models sample_tiktoken) "gpt-4o"
      (VList [VStr "it's"; VInt (-3); VNone])
    = Returns {| total_tokens := 18 |}.
Proof. split; reflexivity. Qed.

(** [str] of a nested value, with the quoting and the escapes of [repr]. *)
Example cpython_str_nested :
  cpython_str
    (VList [VStr "it's"; VStr ("a" +:+ PyStr.dquote +:+ "b"); VStr ("x" +:+ PyStr.backslash);
            VStr (String (ascii_of_nat 10) (String (ascii_of_nat 0) EmptyString));
            VNone; VBool true; VInt (-3); VDict [("k", VList [VInt 1])]; VDict []])
  = Returns ("[" +:+ PyStr.dquote +:+ "it's" +:+ PyStr.dquote +:+ ", 'a" +:+ PyStr.dquote
             +:+ "b', 'x\\', '\n\x00', None, True, -3, {'k': [1]}, {}]").
Proof. reflexivity. Qed.

Example count_tokens_special :
  count_tokens cpython_str (session_models sample_tiktoken) "gpt-4o" (VStr "<|endoftext|>")
  = Returns {| total_tokens := 0 |}.
Proof. reflexivity. Qed.

Example count_tokens_no_encoding :
  count_tokens cpython_str (session_models broken_tiktoken) "gpt-4o" (VStr "hello")
  = Returns {| total_tokens := 0 |}.
Proof. reflexivity. Qed.

Lemma int_str_limit_pos : 0 < int_str_limit.
Proof. unfold int_str_limit, int_max_str_digits. apply Z.pow_pos_nonneg; lia. Qed.

(** The conversion raises from the limit on, whatever the sign. *)
Lemma int_str_big (n : Z) : int_str_limit ≤ Z.abs n → int_str n = Raises digits_error.
Proof.
  intros H. unfold int_str.
  destruct (Z.leb_spec int_str_limit (Z.abs n)); [done | lia].
Qed.

(** C9, the claim as written fails: the integer 10^4300 has 4301 digits, its
    conversion by [str] raises, and the exception leaves [count_tokens], since
    the conversion is made before the [try]. *)
Lemma big_integer_raises :
  count_tokens cpython_str (session_models sample_tiktoken) "gpt-4o" (VInt (10 ^ 4300))
  = Raises digits_error.
Proof.
  change (10 ^ 4300) with int_str_limit.
  pose proof int_str_limit_pos as Hpos.
  unfold count_tokens, contents_text, truthy.
  destruct (Z.eqb_spec int_str_limit 0) as [Hz|_]; [lia|].
  unfold negb, cpython_str, py_repr.
  rewrite int_str_big by lia. reflexivity.
Qed.

(** * Further properties of the code *)

(** ** Choice of the encoding *)

(** The encoding for a model: the library's own answer for the model wins;
    when the library does not know the model, an "o" family name gets
    o200k_base if that loads, every other case gets cl100k_base; the lookup
    raises only when cl100k_base itself cannot be obtained. *)
Theorem encoding_fallback_order (tiktoken : tiktoken_lib) (model_name : string) :
  let o_family :=
    PyStr.truthy model_name
    && (PyStr.contains "gpt-4o" model_name || PyStr.startswith model_name "o"
        || PyStr.contains "omni" model_name) in
  (∀ enc, encoding_for_model tiktoken model_name = Returns enc →
          _get_encoding_for_model tiktoken model_name = Returns enc)
  ∧ (∀ x enc, encoding_for_model tiktoken model_name = Raises x →
              o_family = true →
              get_encoding tiktoken "o200k_base" = Returns enc →
              _get_encoding_for_model tiktoken model_name = Returns enc)
  ∧ (∀ x, encoding_for_model tiktoken model_name = Raises x →
          o_family = false ∨ (∃ x1, get_encoding tiktoken "o200k_base" = Raises x1) →
          _get_encoding_for_model tiktoken model_name = get_encoding tiktoken "cl100k_base")
  ∧ (∀ enc, get_encoding tiktoken "cl100k_base" = Returns enc →
            returned (_get_encoding_for_model tiktoken model_name))
  ∧ (∀ x, _get_encoding_for_model tiktoken model_name = Raises x →
          (∃ x0, encoding_for_model tiktoken model_name = Raises x0)
          ∧ get_encoding tiktoken "cl100k_base" = Raises x).
Proof.
  intros o_family. unfold _get_encoding_for_model, otry, obind. fold o_family.
  destruct (encoding_for_model tiktoken model_name) as [enc0|x0];
    [|destruct o_family; [destruct (get_encoding tiktoken "o200k_base") as [enc1|x1]|]];
    split_and!; intros;
    repeat match goal with
           | H : _ ∨ _ |- _ => destruct H
           | H : ∃ _, _ |- _ => destruct H
           end;
    simplify_eq/=; unfold returned; eauto.
Qed.

Example encoding_fallback_witness :
  returned (_get_encoding_for_model
              {| encoding_for_model := λ _, Raises (Exception "unknown model");
                 get_encoding := λ n,
                   if String.eqb n "cl100k_base" then Returns sample_encoding
                   else Raises (Exception "unknown encoding") |}
              "o3-mini").
Proof.
  refine (proj1 (proj2 (proj2 (proj2 (encoding_fallback_order _ "o3-mini")))) sample_encoding _).
  reflexivity.
Defined.

(** ** Shape of the requests *)

Section SessionExtras.

Context {W : Type}.
Variable responses_create : request → W → outcome response * W.
Variable tiktoken : tiktoken_lib.

Lemma history_message_role (m : pyval) : role (history_message m) ≠ VStr "model".
Proof.
  unfold history_message. simpl.
  destruct m as [| | | | |d]; simpl; try done.
  destruct (dict_get d "role" (VStr "user")) as [| | |s| |]; simpl; try done.
  destruct (String.eqb_spec s "model") as [->|Hne]; [done | congruence].
Qed.

Lemma request_inputs (s : OpenAIChatSession) (prompt : string) (history : option (list pyval)) :
  ∀ r, r = first_request s prompt history ∨ r = retry_request s prompt history →
       req_model r = model s ∧ req_store r = true
       ∧ last (req_input r) = Some (user_message prompt)
       ∧ Forall (λ msg, role msg ≠ VStr "model") (req_input r).
Proof.
  assert (∀ h, Forall (λ msg, role msg ≠ VStr "model") (history_payload h prompt)) as Hpay.
  { intros h. unfold history_payload. apply Forall_app. split.
    - apply Forall_forall. intros msg Hin. apply list_elem_of_fmap in Hin as (m & -> & _).
      apply history_message_role.
    - by repeat constructor. }
  assert (∀ h, last (history_payload h prompt) = Some (user_message prompt)) as Hlast.
  { intros h. unfold history_payload. apply last_snoc. }
  intros r [-> | ->]; unfold first_request, retry_request; simpl;
    (split; [done|]); (split; [done|]).
  - destruct (negb _ && _); [by split|]. split; [done | by repeat constructor].
  - destruct (history_truthy history); [by split|]. split; [done | by repeat constructor].
Qed.

(** Every request a call sends names the session's model, asks the service
    to store the response, ends with the new prompt as a user message, and
    carries no message with the role "model": the internal role is always
    renamed before it leaves the program. *)
Theorem requests_well_formed (s : OpenAIChatSession) (w : world W) (prompt : string)
  (history : option (list pyval)) :
  ∃ (result : option string) (s' : OpenAIChatSession) (w' : world W) (new : list request),
    send_message_to_OpenAI_API responses_create prompt history (s, w)
      = (Returns result, (s', w'))
    ∧ sent w' = sent w ++ new
    ∧ (1 ≤ length new ≤ 2)%nat
    ∧ Forall (λ r, req_model r = model s
                   ∧ req_store r = true
                   ∧ last (req_input r) = Some (user_message prompt)
                   ∧ Forall (λ msg, role msg ≠ VStr "model") (req_input r)) new.
Proof.
  destruct (send_message_to_OpenAI_API_returns responses_create s w prompt history)
    as (result & s' & w' & rest & Hrun & Hsent & Hrest & _).
  exists result, s', w', (first_request s prompt history :: rest).
  split; [done|]. split; [done|]. split.
  - destruct Hrest as [-> | ->]; simpl; lia.
  - constructor; [apply (request_inputs s prompt history); by left|].
    destruct Hrest as [-> | ->]; [constructor|].
    constructor; [apply (request_inputs s prompt history); by right | constructor].
Qed.

(** An error that does not speak of a lost thread ends the call at once: no
    second request, the session as it was (the thread identifier is kept),
    the error on the console, and None for the caller. *)
Theorem other_error_no_retry (s : OpenAIChatSession) (w : world W) (prompt : string)
  (history : option (list pyval)) (e : exn) (rm1 : W) :
  responses_create (first_request s prompt history) (remote w) = (Raises e, rm1) →
  PyStr.contains "previous_response_not_found" (exn_text e) = false →
  PyStr.contains "Previous response" (exn_text e) = false →
  send_message_to_OpenAI_API responses_create prompt history (s, w)
  = (Returns None,
     (s, {| remote := rm1;
            sent := sent w ++ [first_request s prompt history];
            console := console w ++ ["Error during OpenAI API request: " +:+ exn_text e] |})).
Proof.
  intros Hfirst H1 H2. rewrite send_message_to_OpenAI_API_unfold. cbn zeta.
  rewrite Hfirst. unfold lost_thread. by rewrite H1, H2.
Qed.

(** When the retry after a lost thread fails too, the session has no thread
    identifier left, so the first request of the next call carries the whole
    history it is given, before the prompt, and no previous_response_id. *)
Theorem failed_retry_then_full_history (s : OpenAIChatSession) (w : world W)
  (prompt : string) (history : option (list pyval)) (e e2 : exn) (rm1 rm2 : W)
  (next_prompt : string) (next_history : option (list pyval)) :
  responses_create (first_request s prompt history) (remote w) = (Raises e, rm1) →
  lost_thread (exn_text e) = true →
  responses_create (retry_request s prompt history) rm1 = (Raises e2, rm2) →
  ∃ s' w',
    send_message_to_OpenAI_API responses_create prompt history (s, w)
      = (Returns None, (s', w'))
    ∧ previous_response_id s' = None
    ∧ remote w' = rm2
    ∧ req_input (first_request s' next_prompt next_history)
      = map history_message (history_or_empty next_history) ++ [user_message next_prompt]
    ∧ req_previous_response_id (first_request s' next_prompt next_history) = None.
Proof.
  intros Hfirst Hlost Hretry. rewrite send_message_to_OpenAI_API_unfold. cbn zeta.
  rewrite Hfirst, Hlost, Hretry. eexists _, _. split; [reflexivity|]. simpl.
  split_and!; try done.
  unfold first_request, history_payload; simpl. by destruct next_history as [[|m l]|].
Qed.

End SessionExtras.

(** ** Exchanges seen from the conversation *)

Section ConversationExtras.

Context {W : Type}.
Variable responses_create : request → W → outcome response * W.
Variable tiktoken : tiktoken_lib.

(** One call of [send_message], with the session call inside it. *)
Lemma send_message_outcome (c : Conversation) (w : world W) (prompt : string) :
  ∃ (reply : option string) (s1 : OpenAIChatSession) (w1 : world W)
    (result : option string) (c' : Conversation) (w' : world W),
    send_message_to_OpenAI_API responses_create prompt (Some (chat_history c))
      (OpenAI_chat_session c, w) = (Returns reply, (s1, w1))
    ∧ send_message responses_create tiktoken prompt (c, w) = (Returns result, (c', w'))
    ∧ name c' = name c
    ∧ previous_response_id (OpenAI_chat_session c') = previous_response_id s1
    ∧ reasoning_effort (OpenAI_chat_session c') = reasoning_effort (OpenAI_chat_session c)
    ∧ model (OpenAI_chat_session c') = model (OpenAI_chat_session c)
    ∧ sent w' = sent w1 ∧ remote w' = remote w1
    ∧ ((∃ text, reply = Some text ∧ text ≠ EmptyString ∧ result = Some text
          ∧ chat_history c' = chat_history c ++ [message "user" prompt; message "model" text]
          ∧ update_token_count tiktoken (Some (chat_history c')) (s1, w1)
            = (Returns tt, (OpenAI_chat_session c', w')))
       ∨ ((reply = None ∨ reply = Some EmptyString) ∧ result = None
          ∧ chat_history c' = chat_history c
          ∧ OpenAI_chat_session c' = s1 ∧ w' = w1)).
Proof.
  rewrite send_message_unfold.
  destruct (send_message_to_OpenAI_API_returns responses_create
              (OpenAI_chat_session c) w prompt (Some (chat_history c)))
    as (reply & s1 & w1 & _ & -> & _ & _ & _ & Hmodel & Heffort & _).
  exists reply, s1, w1. destruct reply as [[|ch text]|]; cbn.
  - eexists _, _, _. split; [done|]. split; [done|]. cbn.
    split_and!; try done. right. split_and!; auto.
  - destruct (update_token_count_returns tiktoken s1 w1
                (Some (chat_history c ++
                         [message "user" prompt; message "model" (String ch text)])))
      as (s2 & w2 & Hupd & _ & Hmodel2 & Heffort2 & Hprev2 & Hsent2 & Hremote2).
    rewrite Hupd. eexists _, _, _. split; [done|]. split; [done|]. cbn.
    split_and!; try congruence. left. exists (String ch text). by split_and!.
  - eexists _, _, _. split; [done|]. split; [done|]. cbn.
    split_and!; try done. right. split_and!; auto.
Qed.

(** Every session the program builds holds None or a non-empty identifier,
    as long as the responses of the service carry no empty identifier. *)
Lemma identifier_never_empty (k n m : string) (c : Conversation) :
  (∀ req rm resp rm', responses_create req rm = (Returns resp, rm') →
                      resp_id resp ≠ Some EmptyString) →
  reachable_from responses_create tiktoken (new_Conversation k n m) c →
  previous_response_id (OpenAI_chat_session c) ≠ Some EmptyString.
Proof.
  intros Hservice Hreach.
  induction Hreach as [|c prompt w r c' w' _ IH Hrun|c effort _ IH]; [done| |done].
  destruct (send_message_outcome c w prompt)
    as (reply & s1 & w1 & result & c'' & w'' & Hapi & Hrun' & _ & Hprev & _).
  rewrite Hrun in Hrun'. injection Hrun' as _ <- _. rewrite Hprev.
  by eapply identifier_stays_nonempty.
Qed.

(** [send_message] never raises and never returns an empty reply: a reply
    means the history grew by the prompt and that reply, None means the
    history and the token count are untouched. *)
Theorem send_message_result (c : Conversation) (w : world W) (prompt : string) :
  ∃ (result : option string) (c' : Conversation) (w' : world W),
    send_message responses_create tiktoken prompt (c, w) = (Returns result, (c', w'))
    ∧ (result = None →
         chat_history c' = chat_history c
         ∧ token_count (OpenAI_chat_session c') = token_count (OpenAI_chat_session c))
    ∧ (∀ text, result = Some text →
         text ≠ EmptyString
         ∧ chat_history c' =
             chat_history c ++ [message "user" prompt; message "model" text]).
Proof.
  destruct (send_message_outcome c w prompt)
    as (reply & s1 & w1 & result & c' & w' & Hapi & Hrun & _ & _ & _ & _ & _ & _ & Hcases).
  destruct (send_message_to_OpenAI_API_returns responses_create
              (OpenAI_chat_session c) w prompt (Some (chat_history c)))
    as (? & ? & ? & _ & Hapi' & _ & _ & _ & _ & _ & Htok & _).
  rewrite Hapi in Hapi'. injection Hapi' as <- <- <-.
  exists result, c', w'. split; [done|].
  destruct Hcases as [(text & -> & Hne & -> & Hh & _) | (_ & -> & Hh & -> & ->)].
  - split; [done|]. by intros text' [= <-].
  - split; [done|]. done.
Qed.

(** After an exchange the token count is the count of the whole history,
    new records included, whenever the encoder accepts every text. *)
Theorem token_count_after_exchange (c : Conversation) (w : world W) (prompt text : string)
  (c' : Conversation) (w' : world W) (enc : encoding) (lens : list Z) :
  send_message responses_create tiktoken prompt (c, w) = (Returns (Some text), (c', w')) →
  _get_encoding_for_model tiktoken (get_model_name c) = Returns enc →
  Forall2 (encoded_length enc) (chat_history c') lens →
  token_count (OpenAI_chat_session c') = sumZ lens.
Proof.
  intros Hrun Henc Hlens.
  destruct (send_message_outcome c w prompt)
    as (reply & s1 & w1 & result & c'' & w'' & Hapi & Hrun' & _ & _ & _ & _ & _ & _ & Hcases).
  rewrite Hrun in Hrun'. injection Hrun' as <- <- <-.
  destruct Hcases as [(text' & _ & _ & _ & _ & Hupd) | (_ & [=] & _)].
  destruct (send_message_to_OpenAI_API_returns responses_create
              (OpenAI_chat_session c) w prompt (Some (chat_history c)))
    as (? & ? & ? & _ & Hapi' & _ & _ & _ & Hmodel & _).
  rewrite Hapi in Hapi'. injection Hapi' as <- <- <-.
  rewrite update_token_count_unfold in Hupd. unfold get_model_name in Henc.
  rewrite Hmodel, Henc in Hupd. simpl in Hupd.
  rewrite (count_history_sum _ _ _ Hlens) in Hupd.
  by injection Hupd as <- _.
Qed.

(** Two calls in a row: when the first call received a response with a
    non-empty identifier, the first request of the second call holds only the
    second prompt and names that response as previous_response_id. *)
Theorem second_call_is_chained (c : Conversation) (w : world W) (prompt next_prompt : string)
  (r1 : response) (id : string) (result : outcome (option string))
  (c1 : Conversation) (w1 : world W) :
  response_received responses_create (OpenAI_chat_session c) w prompt
    (Some (chat_history c)) = Some r1 →
  resp_id r1 = Some id →
  id ≠ EmptyString →
  send_message responses_create tiktoken prompt (c, w) = (result, (c1, w1)) →
  ∃ (result2 : option string) (c2 : Conversation) (w2 : world W)
    (req : request) (rest : list request),
    send_message responses_create tiktoken next_prompt (c1, w1)
      = (Returns result2, (c2, w2))
    ∧ sent w2 = sent w1 ++ req :: rest
    ∧ req_input req = [user_message next_prompt]
    ∧ req_previous_response_id req = Some id
    ∧ req_model req = get_model_name c.
Proof.
  intros Hrecv Hid Hne Hrun.
  destruct (send_message_outcome c w prompt)
    as (reply & s1 & w1' & result' & c1' & w1'' & Hapi & Hrun' & _ & Hprev & _ & Hmodel & _).
  rewrite Hrun in Hrun'. injection Hrun' as -> <- <-.
  destruct (send_message_to_OpenAI_API_returns responses_create
              (OpenAI_chat_session c) w prompt (Some (chat_history c)))
    as (? & ? & ? & _ & Hapi' & _ & _ & _ & _ & _ & _ & Hr & _).
  rewrite Hapi in Hapi'. injection Hapi' as <- <- <-.
  destruct (Hr r1 Hrecv) as [_ Hprev1].
  destruct (send_message_outcome c1 w1 next_prompt)
    as (reply2 & s2 & w2' & result2 & c2 & w2 & Hapi2 & Hrun2 & _ & _ & _ & _ & Hsent2 & _).
  destruct (send_message_to_OpenAI_API_returns responses_create
              (OpenAI_chat_session c1) w1 next_prompt (Some (chat_history c1)))
    as (? & ? & ? & rest & Hapi2' & Hsent & _).
  rewrite Hapi2 in Hapi2'. injection Hapi2' as <- <- <-.
  exists result2, c2, w2,
    (first_request (OpenAI_chat_session c1) next_prompt (Some (chat_history c1))), rest.
  split; [done|]. split; [congruence|].
  unfold first_request, get_model_name; simpl.
  rewrite Hprev, Hprev1, Hid. destruct id; [done|]. simpl. by rewrite Hmodel.
Qed.

End ConversationExtras.

(** ** The message list and the history *)

Lemma exchanges_records (pairs : list (string * string)) :
  Forall is_record (exchanges pairs).
Proof.
  induction pairs as [|[p r] pairs IH]; simpl; [constructor|].
  constructor; [by exists "user", p|]. constructor; [by exists "model", r | done].
Qed.

Lemma line_of_shows (content : gmap node_id pyval) (item : tree_item) (m : pyval) :
  line_of content item m → shows content item.
Proof. intros (Hm & role & text & -> & Hline & _). by exists (message role text), role, text. Qed.

(** *** The capitalised role *)









Section WindowExtras.

Context {W : Type}.
Variable responses_create : request → W → outcome response * W.
Variable tiktoken : tiktoken_lib.
Variable py_str : pyval → outcome string.

(** The display loop on stored records: it returns, appends one line per
    record under fresh nodes, extends the node list of the conversation, and
    leaves the older nodes of the mapping alone. *)
Lemma display_messages_records (conversation_name : string) (history : list pyval) :
  Forall is_record history →
  ∀ (a : AIChatApp) (w : world W) (l : list node_id),
    conversation_ids a !! conversation_name = Some l →
    ∃ (a' : AIChatApp) (items : list tree_item),
      display_messages py_str conversation_name history (a, w) = (Returns tt, (a', w))
      ∧ children (messages_tree a') = children (messages_tree a) ++ items
      ∧ next_iid (messages_tree a') = (next_iid (messages_tree a) + length history)%nat
      ∧ Forall2 (line_of (message_node_to_content a')) items history
      ∧ Forall (λ item, (next_iid (messages_tree a) ≤ iid item)%nat) items
      ∧ (∀ n, (n < next_iid (messages_tree a))%nat →
              message_node_to_content a' !! n = message_node_to_content a !! n)
      ∧ (∀ n, is_Some (message_node_to_content a' !! n) →
              is_Some (message_node_to_content a !! n) ∨ n ∈ map iid items)
      ∧ conversation_ids a' = <[conversation_name := l ++ map iid items]> (conversation_ids a)
      ∧ active_conversation a' = active_conversation a
      ∧ conversation_combobox a' = conversation_combobox a
      ∧ prompt_text_editor a' = prompt_text_editor a
      ∧ message_text a' = message_text a
      ∧ selected_message_token_count_var a' = selected_message_token_count_var a
      ∧ error_boxes a' = error_boxes a.
Proof.
  induction 1 as [|m history (role & text & ->) _ IH]; intros a w l Hl.
  - exists a, []. simpl. rewrite !app_nil_r, Nat.add_0_r.
    split_and!; try done; try constructor; auto.
    by rewrite insert_id.
  - simpl. unfold bind at 1. rewrite (display_message_record py_str _ _ _ _ _ _ Hl).
    match goal with
    | |- ∃ _ _, display_messages _ _ _ (?a1, _) = _ ∧ _ =>
        destruct (IH a1 w (l ++ [next_iid (messages_tree a)]))
          as (a' & items & Hrun & Hch & Hnext & Hlines & Hfresh & Hold & Hdom & Hids & Hrest)
    end.
    { simpl. by rewrite lookup_insert_eq. }
    simpl in *.
    exists a', ({| iid := next_iid (messages_tree a);
                   item_text := tree_line role text;
                   item_tags := if String.eqb role "model" then ["ai_message"] else [] |}
                :: items).
    split; [exact Hrun|].
    split_and!; try (by destruct_and!).
    + by rewrite Hch, <- app_assoc.
    + lia.
    + constructor; [|done]. split.
      * simpl. rewrite Hold by lia. by rewrite lookup_insert_eq.
      * by exists role, text.
    + constructor; [simpl; lia|]. eapply Forall_impl; [exact Hfresh|]. simpl. intros; lia.
    + intros n Hn. rewrite Hold by lia. rewrite lookup_insert_ne; [done | lia].
    + intros n Hn. destruct (Hdom n Hn) as [Hsome | Hin].
      * destruct (decide (n = next_iid (messages_tree a))) as [->|Hne].
        -- right. simpl. left.
        -- left. by rewrite lookup_insert_ne in Hsome.
      * right. simpl. by right.
    + rewrite Hids, insert_insert_eq. simpl. by rewrite <- app_assoc.
Qed.

(** Redrawing a conversation whose history holds stored records returns,
    and afterwards the message list mirrors the history: one line per record
    in order, each node mapped to its record, no other node in the mapping,
    and the node list of the conversation is the list of the nodes shown.  The
    message area is cleared; the node lists of other conversations stay. *)
Theorem display_mirrors_history (conversation : Conversation) (a : AIChatApp) (w : world W) :
  Forall is_record (get_history conversation) →
  ∃ a' : AIChatApp,
    _display_conversation_in_treeview py_str conversation (a, w) = (Returns tt, (a', w))
    ∧ mirrors a' (get_history conversation)
    ∧ length (children (messages_tree a')) = length (get_history conversation)
    ∧ (∀ n, is_Some (message_node_to_content a' !! n) ↔
            n ∈ map iid (children (messages_tree a')))
    ∧ conversation_ids a' !! name conversation
      = Some (map iid (children (messages_tree a')))
    ∧ (∀ other, other ≠ name conversation →
                conversation_ids a' !! other = conversation_ids a !! other)
    ∧ message_text a' = EmptyString
    ∧ selected_message_token_count_var a' = EmptyString
    ∧ active_conversation a' = active_conversation a.
Proof.
  intros Hrec.
  unfold _display_conversation_in_treeview, _clear_message_display, bind,
    update_self, modify. simpl.
  match goal with
  | |- ∃ _, display_messages _ _ _ (?a1, _) = _ ∧ _ =>
      destruct (display_messages_records (name conversation) _ Hrec a1 w [])
        as (a' & items & Hrun & Hch & Hnext & Hlines & Hfresh & Hold & Hdom & Hids & Hrest)
  end.
  { simpl. by rewrite lookup_insert_eq. }
  simpl in *. exists a'. split; [exact Hrun|]. unfold mirrors. rewrite Hch.
  split_and!; try (by destruct_and!).
  - by rewrite (Forall2_length _ _ _ Hlines).
  - intros n. split.
    + intros Hn. destruct (Hdom n Hn) as [[? Hempty] | Hin]; [|done].
      by rewrite lookup_empty in Hempty.
    + intros Hin. apply list_elem_of_fmap in Hin as (item & -> & Hin).
      apply list_elem_of_lookup in Hin as (i & Hi).
      destruct (Forall2_lookup_l _ _ _ _ _ Hlines Hi) as (m & _ & Hm & _). by eexists.
  - rewrite Hids. by rewrite lookup_insert_eq.
  - intros other Hne. rewrite Hids. by rewrite !lookup_insert_ne.
Qed.

(** *** Sending a prompt *)

(** A blank prompt, or no active conversation: [send_prompt] shows one error
    box and does nothing else; no request leaves the program. *)
Theorem send_prompt_refuses (a : AIChatApp) (w : world W) :
  PyStr.strip (prompt_text_editor a +:+ PyStr.newline) = EmptyString
  ∨ active_conversation a = None →
  ∃ title text,
    send_prompt responses_create tiktoken (a, w) = (Returns tt, (showerror title text a, w))
    ∧ (PyStr.strip (prompt_text_editor a +:+ PyStr.newline) = EmptyString →
       title = "Prompt Required")
    ∧ (PyStr.strip (prompt_text_editor a +:+ PyStr.newline) ≠ EmptyString →
       title = "Conversation Required").
Proof.
  intros Hcase. unfold send_prompt, bind, get_self, update_self, modify. simpl.
  destruct (PyStr.strip (prompt_text_editor a +:+ PyStr.newline)) as [|ch rest] eqn:Hp; simpl.
  - by eexists _, _.
  - destruct Hcase as [? | ->]; [done|]. simpl. by eexists _, _.
Qed.

(** What showing an exchange does when the combobox names a conversation
    and a conversation is active. *)
Lemma show_exchange_effects (prompt_text ai_reply_text : string)
  (a : AIChatApp) (w : world W) (conv : Conversation) :
  PyStr.truthy (conversation_combobox a) = true →
  active_conversation a = Some conv →
  ∃ a' : AIChatApp,
    show_exchange prompt_text ai_reply_text (a, w) = (Returns tt, (a', w))
    ∧ children (messages_tree a') =
        children (messages_tree a) ++
          [ {| iid := next_iid (messages_tree a);
               item_text := tree_line "user" prompt_text; item_tags := [] |};
            {| iid := S (next_iid (messages_tree a));
               item_text := tree_line "model" ai_reply_text;
               item_tags := ["ai_message"] |} ]
    ∧ message_node_to_content a' =
        <[S (next_iid (messages_tree a)) := message "model" ai_reply_text]>
          (<[next_iid (messages_tree a) := message "user" prompt_text]>
             (message_node_to_content a))
    ∧ conversation_ids a' !! conversation_combobox a =
        Some (default [] (conversation_ids a !! conversation_combobox a)
              ++ [next_iid (messages_tree a); S (next_iid (messages_tree a))])
    ∧ active_conversation a' = Some conv
    ∧ conversation_combobox a' = conversation_combobox a
    ∧ prompt_text_editor a' = EmptyString
    ∧ prompt_token_count_var a' = "Tokens: 0"
    ∧ total_tokens_used_display a' =
        "Tokens in context: " +:+ PyStr.of_int (token_count (OpenAI_chat_session conv))
    ∧ waiting_popup a' = waiting_popup a
    ∧ error_boxes a' = error_boxes a.
Proof.
  intros Hname Hconv.
  unfold show_exchange, bind, get_self. simpl. rewrite Hname. simpl.
  unfold ids_append, store_content, _update_token_count_display, bind, get_self,
    update_self, modify, raise, ret. simpl.
  destruct (conversation_ids a !! conversation_combobox a) as [l|] eqn:Hl; simpl.
  - rewrite Hl. simpl. rewrite lookup_insert_eq. simpl. rewrite Hconv. simpl.
    eexists. split; [reflexivity|]. simpl. rewrite lookup_insert_eq.
    split_and!; try done; by rewrite <- app_assoc.
  - rewrite lookup_insert_eq. simpl. rewrite lookup_insert_eq. simpl. rewrite Hconv. simpl.
    eexists. split; [reflexivity|]. simpl. rewrite lookup_insert_eq.
    split_and!; try done; by rewrite <- app_assoc.
Qed.

(** Two more records under two fresh nodes keep the list a mirror. *)
Lemma mirror_two_more (content : gmap node_id pyval) (items : list tree_item)
  (history : list pyval) (n : nat) (prompt reply : string) :
  Forall2 (line_of content) items history →
  Forall (λ item, (iid item < n)%nat) items →
  Forall2 (line_of (<[S n := message "model" reply]> (<[n := message "user" prompt]> content)))
    (items ++ [ {| iid := n; item_text := tree_line "user" prompt; item_tags := [] |};
                {| iid := S n; item_text := tree_line "model" reply;
                   item_tags := ["ai_message"] |} ])
    (history ++ [message "user" prompt; message "model" reply]).
Proof.
  intros Hlines Hfresh. apply Forall2_app.
  - clear -Hlines Hfresh. induction Hlines as [|item m items history Hline _ IH];
      [constructor|].
    apply Forall_cons in Hfresh as [Hlt Hfresh]. constructor; [|by apply IH].
    destruct Hline as (Hm & Hrest). split; [|done].
    rewrite !lookup_insert_ne by lia. done.
  - constructor; [|constructor; [|constructor]].
    + split; [simpl; rewrite lookup_insert_ne by lia; by rewrite lookup_insert_eq|].
      by exists "user", prompt.
    + split; [simpl; by rewrite lookup_insert_eq|]. by exists "model", reply.
Qed.

(** [send_prompt] with a prompt and an active conversation whose history
    the list mirrors: both outcomes, with what stays. *)
Lemma send_prompt_mirror_cases (a : AIChatApp) (w : world W) (c : Conversation)
  (r : outcome unit) (a' : AIChatApp) (w' : world W) :
  active_conversation a = Some c →
  mirrors a (chat_history c) →
  tree_in_sync a →
  conversation_combobox a ≠ EmptyString →
  PyStr.strip (prompt_text_editor a +:+ PyStr.newline) ≠ EmptyString →
  send_prompt responses_create tiktoken (a, w) = (r, (a', w')) →
  r = Returns tt
  ∧ waiting_popup a' = false
  ∧ conversation_combobox a' = conversation_combobox a
  ∧ ∃ c', active_conversation a' = Some c'
    ∧ mirrors a' (chat_history c')
    ∧ name c' = name c
    ∧ reasoning_effort (OpenAI_chat_session c') = reasoning_effort (OpenAI_chat_session c)
    ∧ model (OpenAI_chat_session c') = model (OpenAI_chat_session c)
    ∧ ((chat_history c' = chat_history c
        ∧ messages_tree a' = messages_tree a
        ∧ prompt_text_editor a' = prompt_text_editor a
        ∧ total_tokens_used_display a' = "Tokens: Error"
        ∧ error_boxes a' = error_boxes a ++ [("OpenAI Error", openai_error_text)])
       ∨ (∃ reply,
            chat_history c' =
              chat_history c ++
                [message "user" (PyStr.strip (prompt_text_editor a +:+ PyStr.newline));
                 message "model" reply]
            ∧ prompt_text_editor a' = EmptyString
            ∧ total_tokens_used_display a' =
                "Tokens in context: " +:+ PyStr.of_int (token_count (OpenAI_chat_session c'))
            ∧ error_boxes a' = error_boxes a)).
Proof.
  intros Hconv Hmirror [_ Hfresh] Hname Hprompt.
  unfold send_prompt, bind, get_self. simpl.
  destruct (PyStr.strip (prompt_text_editor a +:+ PyStr.newline)) as [|ch rest] eqn:Hp;
    [done|]. simpl. rewrite Hconv. simpl.
  unfold on_active_conversation. simpl. rewrite Hconv.
  destruct (send_message_outcome responses_create tiktoken c w (String ch rest))
    as (reply & s1 & w1 & result & c' & w1' & _ & -> & Hnm & _ & Heff & Hmod & _ & _ & Hcases).
  simpl.
  destruct Hcases as [(text & _ & Hne & -> & Hh & _) | (_ & -> & Hh & _ & _)].
  - destruct text as [|ch' text']; [done|]. simpl.
    match goal with
    | |- show_exchange _ _ (?a2, _) = _ → _ =>
        destruct (show_exchange_effects (String ch rest) (String ch' text') a2 w1' c')
          as (a3 & Hrun & Hch & Hmap & _ & Hact & Hcb & Hed & _ & Htot & Hpop & Hbox)
    end.
    { simpl. by destruct (conversation_combobox a). }
    { done. }
    rewrite Hrun. intros [= <- <- <-]. split; [done|]. split; [done|]. split; [done|].
    exists c'. split; [done|]. split; [|split_and!; try done].
    + unfold mirrors. rewrite Hch, Hmap, Hh. simpl. by apply mirror_two_more.
    + right. exists (String ch' text'). by split_and!.
  - simpl. intros [= <- <- <-]. split; [done|]. split; [done|]. split; [done|].
    exists c'. split; [done|]. split; [|split_and!; try done].
    + unfold mirrors. simpl. by rewrite Hh.
    + left. by split_and!.
Qed.




End WindowExtras.

(** ** Selecting a message and counting the prompt *)

Section WindowTokenFacts.

Context {W : Type}.
Variable tiktoken : tiktoken_lib.
Variable py_str : pyval → outcome string.

(** The count of the wrapper for a string, whatever the tokenizer does. *)
Lemma count_tokens_value (self : _ModelsWrapper) (model : string) (text : string) :
  ∃ n : Z,
    count_tokens py_str self model (VStr text) = Returns {| total_tokens := n |}
    ∧ 0 ≤ n
    ∧ (∀ enc tokens,
         _get_encoding self model = Returns enc →
         encode enc (VStr text) = Returns tokens →
         n = len tokens).
Proof.
  destruct (count_tokens_of_text py_str self model (VStr text) text eq_refl)
    as (n & Hrun & Hpos & Hlen & _).
  by exists n.
Qed.

(** Selecting a line of a window whose list agrees with its mapping shows
    the full text of the message, not the shortened one of the line, and the
    number of its tokens; with no conversation active the label is
    "Tokens: N/A"; an empty selection clears both.  The call returns, prints
    nothing and changes neither the list nor the mapping. *)
Theorem select_shows_full_text (a : AIChatApp) (w : world W) (selection : list node_id) :
  tree_in_sync a →
  Forall (λ n, n ∈ map iid (children (messages_tree a))) selection →
  ∃ a' : AIChatApp,
    _on_treeview_message_select tiktoken py_str selection (a, w) = (Returns tt, (a', w))
    ∧ messages_tree a' = messages_tree a
    ∧ message_node_to_content a' = message_node_to_content a
    ∧ active_conversation a' = active_conversation a
    ∧ match selection with
      | [] =>
          message_text a' = EmptyString
          ∧ selected_message_token_count_var a' = EmptyString
      | n :: _ =>
          ∃ item role text,
            item ∈ children (messages_tree a) ∧ iid item = n
            ∧ item_text item = PyStr.capitalize role +:+ ": " +:+ display_text text
            ∧ stored_message_text a n = Returns (VStr text)
            ∧ message_text a' = text
            ∧ match active_conversation a with
              | None => selected_message_token_count_var a' = "Tokens: N/A"
              | Some conv =>
                  ∃ count : Z,
                    selected_message_token_count_var a' = "Tokens: " +:+ PyStr.of_int count
                    ∧ 0 ≤ count
                    ∧ (∀ enc tokens,
                         _get_encoding_for_model tiktoken (get_model_name conv) = Returns enc →
                         encode enc (VStr text) = Returns tokens →
                         count = len tokens)
              end
      end.
Proof.
  intros [Hshows _] Hsel. destruct selection as [|n rest].
  - eexists. split; [reflexivity|]. by split_and!.
  - apply Forall_cons in Hsel as [Hn _].
    apply list_elem_of_fmap in Hn as (item & -> & Hin).
    rewrite Forall_forall in Hshows.
    destruct (Hshows item Hin) as (m & role & text & Hm & _ & Htext & Hline).
    unfold _on_treeview_message_select, bind, get_self, lift. simpl.
    rewrite Hm. rewrite Htext. simpl.
    unfold _display_message, update_self, modify, bind. simpl.
    destruct (active_conversation a) as [conv|] eqn:Hconv; simpl.
    + unfold try_except, bind, lift. simpl.
      destruct (count_tokens_value (session_models tiktoken) (get_model_name conv)
                  text) as (count & -> & Hpos & Hcount).
      simpl. eexists. split; [reflexivity|]. simpl. rewrite Hconv.
      split_and!; try done.
      exists item, role, text. unfold stored_message_text. rewrite Hm.
      split_and!; try done. exists count. by split_and!.
    + eexists. split; [reflexivity|]. simpl. rewrite Hconv. split_and!; try done.
      exists item, role, text. unfold stored_message_text. rewrite Hm. by split_and!.
Qed.

Lemma prompt_token_count_cases (a : AIChatApp) (w : world W) :
  ∃ label : string,
    _update_prompt_token_count tiktoken py_str (a, w)
      = (Returns tt, (set_prompt_token_count_var label a, w))
    ∧ let prompt_text := PyStr.strip (prompt_text_editor a +:+ PyStr.newline) in
      (prompt_text = EmptyString → label = "Tokens: 0")
      ∧ (prompt_text ≠ EmptyString → active_conversation a = None → label = "Tokens: N/A")
      ∧ (∀ conv, prompt_text ≠ EmptyString → active_conversation a = Some conv →
           ∃ count : Z,
             label = "Tokens: " +:+ PyStr.of_int count
             ∧ 0 ≤ count
             ∧ (∀ enc tokens,
                  _get_encoding_for_model tiktoken (get_model_name conv) = Returns enc →
                  encode enc (VStr prompt_text) = Returns tokens →
                  count = len tokens)).
Proof.
  unfold _update_prompt_token_count, try_except, bind, get_self, update_self, modify, lift.
  simpl.
  destruct (PyStr.strip (prompt_text_editor a +:+ PyStr.newline)) as [|ch rest] eqn:Hp; simpl.
  - eexists. split; [reflexivity|]. by split_and!.
  - destruct (active_conversation a) as [conv|] eqn:Hconv; simpl.
    + destruct (count_tokens_value (session_models tiktoken) (get_model_name conv)
                  (String ch rest)) as (count & -> & Hpos & Hcount).
      simpl. eexists. split; [reflexivity|]. split_and!; try done.
      intros conv' _ [= <-]. exists count. by split_and!.
    + eexists. split; [reflexivity|]. by split_and!.
Qed.

(** The label of the prompt counter: "Tokens: 0" for a blank prompt,
    "Tokens: N/A" with no conversation active, else the number of tokens of the
    stripped prompt (0 when the tokenizer fails).  The call returns, prints
    nothing and changes only that label. *)
Theorem prompt_token_count_label (a : AIChatApp) (w : world W) :
  ∃ label : string,
    _update_prompt_token_count tiktoken py_str (a, w)
      = (Returns tt, (set_prompt_token_count_var label a, w))
    ∧ let prompt_text := PyStr.strip (prompt_text_editor a +:+ PyStr.newline) in
      (prompt_text = EmptyString → label = "Tokens: 0")
      ∧ (prompt_text ≠ EmptyString → active_conversation a = None → label = "Tokens: N/A")
      ∧ (∀ conv, prompt_text ≠ EmptyString → active_conversation a = Some conv →
           ∃ count : Z,
             label = "Tokens: " +:+ PyStr.of_int count
             ∧ 0 ≤ count
             ∧ (∀ enc tokens,
                  _get_encoding_for_model tiktoken (get_model_name conv) = Returns enc →
                  encode enc (VStr prompt_text) = Returns tokens →
                  count = len tokens)).
Proof.
  destruct (prompt_token_count_cases a w) as (label & Hrun & Hblank & Hnone & Hcount).
  exists label. split; [exact Hrun|]. cbn zeta. by split_and!.
Qed.

End WindowTokenFacts.


(** ** The key file *)

Lemma line_break_isspace (c : ascii) : is_line_break c = true → PyStr.isspace c = true.
Proof.
  unfold is_line_break, PyStr.isspace. intros H.
  apply orb_true_iff in H as [H|H]; apply Nat.eqb_eq in H; by rewrite H.
Qed.

Lemma readline_line_like (text : string) : line_like (readline text).
Proof.
  induction text as [|c rest IH]; simpl; [done|].
  destruct (is_line_break c) eqn:Hc; simpl; [done|]. split; [congruence | done].
Qed.

Lemma lstrip_line_like (s : string) : line_like s → line_like (PyStr.lstrip s).
Proof.
  induction s as [|c rest IH]; simpl; [done|]. intros [Hc Hrest].
  destruct (PyStr.isspace c); [by apply IH | by split].
Qed.

Lemma lstrip_first (s : string) (c : ascii) :
  first_char (PyStr.lstrip s) = Some c → PyStr.isspace c = false.
Proof.
  induction s as [|c' rest IH]; simpl; [done|].
  destruct (PyStr.isspace c') eqn:Hc'; [done|]. simpl. by intros [= <-].
Qed.

Lemma rstrip_first (s : string) (c : ascii) :
  first_char (PyStr.rstrip s) = Some c → first_char s = Some c.
Proof.
  destruct s as [|c' rest]; simpl; [done|].
  destruct (PyStr.rstrip rest); [destruct (PyStr.isspace c')|]; simpl; done.
Qed.

Lemma rstrip_last (s : string) (c : ascii) :
  last_char (PyStr.rstrip s) = Some c → PyStr.isspace c = false.
Proof.
  induction s as [|c' rest IH]; simpl; [done|].
  destruct (PyStr.rstrip rest) as [|k kept] eqn:Hkept.
  - destruct (PyStr.isspace c') eqn:Hc'; simpl; [done|]. by intros [= <-].
  - intros H. apply IH. exact H.
Qed.

Lemma rstrip_no_line_break (s : string) : line_like s → no_line_break (PyStr.rstrip s).
Proof.
  unfold no_line_break. induction s as [|c rest IH]; simpl; [constructor|].
  intros [Hc Hrest]. specialize (IH Hrest).
  destruct (PyStr.rstrip rest) as [|k kept] eqn:Hkept.
  - destruct (PyStr.isspace c) eqn:Hsp; simpl; [constructor|].
    constructor; [|constructor].
    destruct (is_line_break c) eqn:Hb; [|done].
    apply line_break_isspace in Hb. congruence.
  - simpl. constructor; [|exact IH].
    destruct (is_line_break c) eqn:Hb; [|done].
    rewrite (Hc eq_refl) in Hkept. done.
Qed.

(** Reading the key file never raises and never touches the remote side.  A
    key comes back only from a file with text; it is the stripped first line:
    not empty, without a line break, without white space at either end, and
    nothing is printed.  In every other case (no file, unreadable file, blank
    first line) the result is None and one line is printed. *)
Theorem read_api_key_safe {W X : Type} (file : key_file) (x : X) (w : world W) :
  ∃ (res : option string) (w' : world W),
    _read_api_key_from_file file (x, w) = (Returns res, (x, w'))
    ∧ remote w' = remote w ∧ sent w' = sent w
    ∧ (∀ key, res = Some key →
         (∃ text, file = FileContent text ∧ key = PyStr.strip (readline text))
         ∧ key ≠ EmptyString
         ∧ no_line_break key
         ∧ (∀ c, first_char key = Some c → PyStr.isspace c = false)
         ∧ (∀ c, last_char key = Some c → PyStr.isspace c = false)
         ∧ console w' = console w)
    ∧ (res = None → ∃ line, console w' = console w ++ [line]).
Proof.
  unfold _read_api_key_from_file, bind, print, modify, ret.
  destruct file as [|e|text]; simpl.
  - eexists _, _. split; [reflexivity|]. simpl. split_and!; try done. by eexists.
  - eexists _, _. split; [reflexivity|]. simpl. split_and!; try done. by eexists.
  - destruct (PyStr.strip (readline text)) as [|ch rest] eqn:Hkey; simpl.
    + eexists _, _. split; [reflexivity|]. simpl. split_and!; try done. by eexists.
    + eexists _, _. split; [reflexivity|]. simpl. split_and!; try done.
      intros key [= <-]. rewrite <- Hkey. split_and!; try done.
      * by exists text.
      * by rewrite Hkey.
      * apply rstrip_no_line_break, lstrip_line_like, readline_line_like.
      * intros c Hc. apply rstrip_first in Hc. by apply lstrip_first in Hc.
      * intros c Hc. by apply rstrip_last in Hc.
Qed.

Example read_api_key_example :
  _read_api_key_from_file
    (FileContent ("  sk-abc123 " +:+ String (ascii_of_nat 13) PyStr.newline +:+ "second line"))
    (tt, start_world [])
  = (Returns (Some "sk-abc123"), (tt, start_world [])).
Proof. reflexivity. Qed.

(** ** The dialog for a new conversation *)

Lemma is_known_effort_spec (effort : string) :
  is_known_effort effort = true ↔ known_effort effort.
Proof.
  unfold is_known_effort, known_effort. rewrite !orb_true_iff, !String.eqb_eq. tauto.
Qed.

Lemma insert_sorted_perm (x : string) (l : list string) : insert_sorted x l ≡ₚ x :: l.
Proof.
  induction l as [|y l IH]; simpl; [done|].
  destruct (String.leb x y); [done|]. rewrite IH. apply Permutation_swap.
Qed.

Lemma sorted_perm (l : list string) : sorted l ≡ₚ l.
Proof.
  induction l as [|x l IH]; simpl; [done|].
  unfold sorted in *. simpl. rewrite insert_sorted_perm. by constructor.
Qed.

Lemma insert_sorted_Sorted (x : string) (l : list string) :
  Sorted str_le l → Sorted str_le (insert_sorted x l).
Proof.
  induction 1 as [|y l Hl IH Hhd]; simpl.
  - by repeat constructor.
  - destruct (String.leb x y) eqn:Hxy.
    + constructor; [by constructor | by constructor].
    + constructor; [exact IH|].
      assert (str_le y x) as Hyx.
      { destruct (String.leb_total x y) as [H|H]; [congruence | exact H]. }
      destruct Hhd as [|z l' Hyz]; simpl; [by constructor|].
      destruct (String.leb x z); by constructor.
Qed.

Lemma sorted_Sorted (l : list string) : Sorted str_le (sorted l).
Proof.
  induction l as [|x l IH]; [constructor|]. unfold sorted in *. simpl.
  by apply insert_sorted_Sorted.
Qed.

Example sorted_models :
  sorted ["gpt-5"; "gpt-4o"; "o3-mini"; "gpt-4.1"; "GPT"]
  = ["GPT"; "gpt-4.1"; "gpt-4o"; "gpt-5"; "o3-mini"].
Proof. reflexivity. Qed.

(** After a change of model the effort selector offers an effort exactly for
    a model of the gpt-5 family. *)
Lemma on_model_change_effort (d : NewConversationDialog.t) :
  let d' := NewConversationDialog._on_model_change d in
  NewConversationDialog.model_var d' = NewConversationDialog.model_var d
  ∧ NewConversationDialog.api_key_var d' = NewConversationDialog.api_key_var d
  ∧ NewConversationDialog.name_var d' = NewConversationDialog.name_var d
  ∧ NewConversationDialog.result d' = NewConversationDialog.result d
  ∧ NewConversationDialog.destroyed d' = NewConversationDialog.destroyed d
  ∧ NewConversationDialog.error_boxes d' = NewConversationDialog.error_boxes d
  ∧ NewConversationDialog.ok_button_enabled d' = NewConversationDialog.ok_button_enabled d
  ∧ NewConversationDialog.load_models_button_enabled d'
    = NewConversationDialog.load_models_button_enabled d
  ∧ NewConversationDialog.model_combobox_values d'
    = NewConversationDialog.model_combobox_values d
  ∧ NewConversationDialog.status_var d' = NewConversationDialog.status_var d
  ∧ (PyStr.startswith (NewConversationDialog.model_var d) "gpt-5" = true →
       known_effort (NewConversationDialog.reasoning_effort_var d')
       ∧ NewConversationDialog.reasoning_combobox_state d' = "readonly"
       ∧ (known_effort (NewConversationDialog.reasoning_effort_var d) →
          NewConversationDialog.reasoning_effort_var d'
          = NewConversationDialog.reasoning_effort_var d))
  ∧ (PyStr.startswith (NewConversationDialog.model_var d) "gpt-5" = false →
       NewConversationDialog.reasoning_effort_var d' = "(unavailable)"
       ∧ NewConversationDialog.reasoning_combobox_state d' = "disabled").
Proof.
  unfold NewConversationDialog._on_model_change. cbn zeta.
  rewrite reasoning_compatible_spec.
  destruct (PyStr.startswith (NewConversationDialog.model_var d) "gpt-5").
  - destruct (is_known_effort (NewConversationDialog.reasoning_effort_var d)) eqn:Hk; simpl.
    + apply is_known_effort_spec in Hk. by split_and!.
    + split_and!; try done. intros _. split_and!; try done.
      * right. by left.
      * intros Hk'. apply is_known_effort_spec in Hk'. congruence.
  - simpl. by split_and!.
Qed.

(** The result of the dialog.  Pressing OK after the model was chosen stores
    a result only when the stripped key, the model and the stripped name are
    all non-empty; the result holds exactly these, and an effort only for a
    model of the gpt-5 family, then one of "low", "medium", "high".  With a
    blank field one error box is shown, the dialog stays open and no result is
    stored. *)
Theorem dialog_result_valid (d : NewConversationDialog.t) :
  let d' := NewConversationDialog._on_ok (NewConversationDialog._on_model_change d) in
  let key := PyStr.strip (NewConversationDialog.api_key_var d) in
  let conversation_name := PyStr.strip (NewConversationDialog.name_var d) in
  let model_name := NewConversationDialog.model_var d in
  (key = EmptyString ∨ model_name = EmptyString ∨ conversation_name = EmptyString →
     NewConversationDialog.result d' = NewConversationDialog.result d
     ∧ NewConversationDialog.destroyed d' = NewConversationDialog.destroyed d
     ∧ ∃ text, NewConversationDialog.error_boxes d'
               = NewConversationDialog.error_boxes d ++ [("Input Error", text)])
  ∧ (key ≠ EmptyString → model_name ≠ EmptyString → conversation_name ≠ EmptyString →
     NewConversationDialog.destroyed d' = true
     ∧ NewConversationDialog.error_boxes d' = NewConversationDialog.error_boxes d
     ∧ ∃ effort,
         NewConversationDialog.result d' = Some (key, model_name, conversation_name, effort)
         ∧ match effort with
           | Some e => PyStr.startswith model_name "gpt-5" = true ∧ known_effort e
           | None => PyStr.startswith model_name "gpt-5" = false
           end).
Proof.
  destruct (on_model_change_effort d)
    as (Hm & Hk & Hn & Hr & Hd & Hb & _ & _ & _ & _ & Hyes & Hno).
  cbn zeta in *. unfold NewConversationDialog._on_ok. cbn zeta.
  rewrite Hk, Hn, Hm, reasoning_compatible_spec.
  revert Hyes Hno.
  destruct (PyStr.startswith (NewConversationDialog.model_var d) "gpt-5") eqn:Hs;
    intros Hyes Hno.
  all: destruct (PyStr.strip (NewConversationDialog.api_key_var d)) as [|c1 k] eqn:Hkey;
    [split; [|done]; intros _; simpl; rewrite Hr, Hd, Hb; split_and!; try done; by eexists|].
  all: destruct (NewConversationDialog.model_var d) as [|c2 m] eqn:Hmodel;
    [split; [|done]; intros _; simpl; rewrite Hr, Hd, Hb; split_and!; try done; by eexists|].
  all: destruct (PyStr.strip (NewConversationDialog.name_var d)) as [|c3 n] eqn:Hname;
    [split; [|done]; intros _; simpl; rewrite Hr, Hd, Hb; split_and!; try done; by eexists|].
  all: split; [by intros [|[|]]|]; intros _ _ _; simpl; split_and!; try done.
  - eexists. split; [reflexivity|]. split; [done|]. by apply Hyes.
  - eexists. split; [reflexivity|]. done.
Qed.

Section LoadModelsFacts.

Context {W : Type}.
Variable models_list : string → outcome (list (option string)).

(** Loading the models.  With a blank key only a status and an error box
    appear.  Otherwise the call returns with the load button enabled again, and
    the OK button is enabled exactly when the service listed at least one
    model: then the choices are the listed identifiers in sorted order, the
    first of them is selected, and the effort selector fits that model; when
    the lookup failed or listed nothing, there are no choices, no model is
    selected, and the error is printed and shown. *)
Theorem load_models_outcome (d : NewConversationDialog.t) (w : world W) :
  let key := PyStr.strip (NewConversationDialog.api_key_var d) in
  ∃ (d' : NewConversationDialog.t) (w' : world W),
    NewConversationDialog._load_models models_list (d, w) = (Returns tt, (d', w'))
    ∧ NewConversationDialog.result d' = NewConversationDialog.result d
    ∧ NewConversationDialog.api_key_var d' = NewConversationDialog.api_key_var d
    ∧ NewConversationDialog.name_var d' = NewConversationDialog.name_var d
    ∧ (key = EmptyString →
         w' = w
         ∧ NewConversationDialog.status_var d' = "Please enter an API Key."
         ∧ NewConversationDialog.ok_button_enabled d'
           = NewConversationDialog.ok_button_enabled d
         ∧ NewConversationDialog.model_var d' = NewConversationDialog.model_var d
         ∧ NewConversationDialog.error_boxes d'
           = NewConversationDialog.error_boxes d
             ++ [("API Key Missing", "Please enter your OpenAI API key.")])
    ∧ (key ≠ EmptyString →
         NewConversationDialog.load_models_button_enabled d' = true
         ∧ (NewConversationDialog.ok_button_enabled d' = true ↔
            ∃ ids, models_list key = Returns ids ∧ omap id ids ≠ [])
         ∧ (NewConversationDialog.ok_button_enabled d' = true →
            ∃ ids, models_list key = Returns ids
              ∧ NewConversationDialog.model_combobox_values d' ≡ₚ omap id ids
              ∧ Sorted str_le (NewConversationDialog.model_combobox_values d')
              ∧ head (NewConversationDialog.model_combobox_values d')
                = Some (NewConversationDialog.model_var d')
              ∧ NewConversationDialog.status_var d' = "Models loaded successfully."
              ∧ (known_effort (NewConversationDialog.reasoning_effort_var d') ↔
                 PyStr.startswith (NewConversationDialog.model_var d') "gpt-5" = true)
              ∧ w' = w
              ∧ NewConversationDialog.error_boxes d' = NewConversationDialog.error_boxes d)
         ∧ (NewConversationDialog.ok_button_enabled d' = false →
            NewConversationDialog.model_combobox_values d' = []
            ∧ NewConversationDialog.model_var d' = EmptyString
            ∧ ∃ error_msg,
                console w' = console w ++ [error_msg]
                ∧ NewConversationDialog.error_boxes d'
                  = NewConversationDialog.error_boxes d
                    ++ [("Model Loading Error", error_msg)])).
Proof.
  cbn zeta.
  unfold NewConversationDialog._load_models, bind, get_self, update_self, modify. simpl.
  destruct (PyStr.strip (NewConversationDialog.api_key_var d)) as [|c1 k] eqn:Hkey; simpl.
  { eexists _, _. split; [reflexivity|]. simpl. by split_and!. }
  unfold try_except, NewConversationDialog.load_models_body, bind, lift, raise,
    update_self, modify, print. simpl.
  destruct (models_list (String c1 k)) as [ids|e] eqn:Hlist; simpl.
  - destruct (sorted (omap id ids)) as [|first others] eqn:Hsorted; simpl.
    + assert (omap id ids = []) as Hnil.
      { apply Permutation_nil_r. rewrite <- Hsorted. symmetry. apply sorted_perm. }
      eexists _, _. split; [reflexivity|]. simpl. split_and!; try done.
      intros _. split_and!; try done.
      * split; [done|]. intros (ids' & [= <-] & Hne). done.
      * intros _. split_and!; try done. by eexists.
    + pose proof (on_model_change_effort
                    (NewConversationDialog.set_models first (first :: others) "readonly"
                       (NewConversationDialog.set_models EmptyString [] "disabled"
                          (NewConversationDialog.set_buttons false false
                             (NewConversationDialog.set_status "Loading models..." d)))))
        as (Hm & Hk & Hn & Hr & Hd & Hb & _ & _ & Hv & _ & Hyes & Hno).
      cbn zeta in *. simpl in Hm, Hk, Hn, Hr, Hd, Hb, Hv, Hyes, Hno.
      eexists _, _. split; [reflexivity|]. simpl.
      rewrite Hm, Hk, Hn, Hr, Hb, Hv.
      split_and!; try done. intros _. split_and!; try done.
      * split; [|done]. intros _. exists ids. split; [done|].
        intros Hnil. rewrite Hnil in Hsorted. done.
      * intros _. exists ids. split; [done|].
        split_and!; try done.
        -- rewrite <- Hsorted. apply sorted_perm.
        -- rewrite <- Hsorted. apply sorted_Sorted.
        -- split.
           ++ intros Hknown. destruct (PyStr.startswith first "gpt-5") eqn:Hs; [done|].
              destruct (Hno eq_refl) as [Hun _].
              assert (known_effort "(unavailable)") as Hbad
                by (rewrite <- Hun; exact Hknown).
              by destruct Hbad as [|[|]].
           ++ intros Hs. destruct (Hyes Hs) as [Hknown _]. exact Hknown.
  - eexists _, _. split; [reflexivity|]. simpl. split_and!; try done.
    intros _. split_and!; try done.
    + split; [done|]. intros (ids' & [=] & _).
    + intros _. split_and!; try done. by eexists.
Qed.

End LoadModelsFacts.

(** ** The window and its conversations *)

Lemma new_MainWindow_ok : window_ok new_MainWindow.
Proof.
  unfold window_ok, new_MainWindow. simpl.
  split_and!; try done; try constructor; try apply in_sync_empty.
Qed.

Lemma write_back_same (m : MainWindow) (a' : AIChatApp) (i : nat) (c : Conversation) :
  active_slot m = Some i →
  conversations m !! i = Some c →
  active_conversation a' = Some c →
  write_back m a' = set_app a' m.
Proof.
  intros Hslot Hi Hc. unfold write_back. rewrite Hc.
  destruct m; simpl in *. subst. by rewrite list_insert_id.
Qed.

Lemma write_back_none (m : MainWindow) (a' : AIChatApp) :
  active_conversation a' = None →
  write_back m a' = set_app a' m.
Proof.
  intros Hc. unfold write_back. rewrite Hc.
  destruct m as [? ? [i|] ? ? ? ? ? ?]; done.
Qed.

(** Reading the key file returns and leaves the program state alone. *)
Lemma read_api_key_frame {W X : Type} (file : key_file) (x : X) (w : world W) :
  ∃ (key : option string) (w1 : world W),
    _read_api_key_from_file file (x, w) = (Returns key, (x, w1)).
Proof.
  unfold _read_api_key_from_file, bind, print, modify, ret.
  destruct file as [|e|text]; simpl; try by eexists _, _.
  destruct (PyStr.truthy (PyStr.strip (readline text))); by eexists _, _.
Qed.

Section MainWindowFacts.

Context {W : Type}.
Variable responses_create : request → W → outcome response * W.
Variable tiktoken : tiktoken_lib.
Variable py_str : pyval → outcome string.
Variable open_dialog :
  option string → string → world W →
  option (string * string * string * option string) * world W.
Variable new_client : string → outcome unit.

Lemma on_app_run {A} (m : M (AIChatApp * world W) A) (mw : MainWindow) (w : world W)
  (r : outcome A) (a' : AIChatApp) (w' : world W) :
  m (app mw, w) = (r, (a', w')) →
  on_app m (mw, w) = (r, (write_back mw a', w')).
Proof. intros H. unfold on_app. by rewrite H. Qed.

(** Redrawing a conversation of stored records, with what it leaves alone. *)
Lemma display_conversation_effects (conversation : Conversation) (a : AIChatApp)
  (w : world W) :
  Forall is_record (chat_history conversation) →
  ∃ a' : AIChatApp,
    _display_conversation_in_treeview py_str conversation (a, w) = (Returns tt, (a', w))
    ∧ mirrors a' (chat_history conversation)
    ∧ tree_in_sync a'
    ∧ active_conversation a' = active_conversation a
    ∧ conversation_combobox a' = conversation_combobox a
    ∧ prompt_text_editor a' = prompt_text_editor a
    ∧ error_boxes a' = error_boxes a.
Proof.
  intros Hrec.
  destruct (_display_conversation_in_treeview py_str conversation (a, w))
    as [r [a' w']] eqn:Hrun.
  pose proof (display_conversation_sync _ _ _ _ _ _ _ Hrec Hrun) as Hsync.
  revert Hrun.
  unfold _display_conversation_in_treeview, _clear_message_display, bind,
    update_self, modify, get_history. simpl.
  match goal with
  | |- display_messages _ _ _ (?a1, _) = _ → _ =>
      destruct (display_messages_records py_str (name conversation) _ Hrec a1 w [])
        as (a2 & items & Hrun & Hch & _ & Hlines & _ & _ & _ & _ & Hact & Hbox & Hed & _ & _ & Herr)
  end.
  { simpl. by rewrite lookup_insert_eq. }
  rewrite Hrun. intros [= <- <- <-]. exists a2. split; [done|].
  simpl in *. unfold mirrors. rewrite Hch. by split_and!.
Qed.

(** The effort the reasoning selector shows for a conversation. *)
Lemma update_reasoning_controls_run (mw : MainWindow) (w : world W) (conv : Conversation) :
  active_conversation (app mw) = Some conv →
  ∃ effort state,
    _update_reasoning_controls (mw, w)
      = (Returns tt, (set_reasoning_controls effort state mw, w))
    ∧ (PyStr.startswith (get_model_name conv) "gpt-5" = true →
         state = "readonly" ∧ known_effort effort
         ∧ (∀ e, reasoning_effort (OpenAI_chat_session conv) = Some e → known_effort e →
                 effort = e))
    ∧ (PyStr.startswith (get_model_name conv) "gpt-5" = false →
         state = "disabled" ∧ effort = "(unavailable)").
Proof.
  intros Hact. unfold _update_reasoning_controls, bind, get_self, update_self, modify.
  simpl. rewrite Hact. rewrite reasoning_compatible_spec.
  destruct (PyStr.startswith (get_model_name conv) "gpt-5"); [|by eexists _, _].
  destruct (reasoning_effort (OpenAI_chat_session conv)) as [e|] eqn:He; simpl.
  - destruct (PyStr.truthy e) eqn:Ht; simpl.
    + destruct (is_known_effort e) eqn:Hk; simpl.
      * eexists _, _. split; [reflexivity|]. split; [|done]. intros _.
        apply is_known_effort_spec in Hk. split_and!; try done. by intros e' [= <-].
      * eexists _, _. split; [reflexivity|]. split; [|done]. intros _.
        split_and!; try done; [right; by left|].
        intros e' [= <-] Hk'. apply is_known_effort_spec in Hk'. congruence.
    + eexists _, _. split; [reflexivity|]. split; [|done]. intros _.
      split_and!; try done; [right; by left|].
      intros e' [= <-] Hk'. destruct e; [|done]. by destruct Hk' as [|[|]].
  - eexists _, _. split; [reflexivity|]. split; [|done]. intros _.
    split_and!; try done. right; by left.
Qed.

(** What [_on_active_conversation_change] does for an active conversation
    of stored records: the list is redrawn from its history and the labels
    are set from it; the conversations themselves are not touched. *)
Lemma active_change_effects (mw : MainWindow) (w : world W) (i : nat) (conv : Conversation) :
  active_slot mw = Some i →
  conversations mw !! i = Some conv →
  active_conversation (app mw) = Some conv →
  Forall is_record (chat_history conv) →
  ∃ mw' : MainWindow,
    _on_active_conversation_change tiktoken py_str (mw, w) = (Returns tt, (mw', w))
    ∧ conversations mw' = conversations mw
    ∧ active_slot mw' = active_slot mw
    ∧ conversation_name_list mw' = conversation_name_list mw
    ∧ conversation_counter mw' = conversation_counter mw
    ∧ active_conversation (app mw') = Some conv
    ∧ mirrors (app mw') (chat_history conv)
    ∧ tree_in_sync (app mw')
    ∧ conversation_combobox (app mw') = conversation_combobox (app mw)
    ∧ error_boxes (app mw') = error_boxes (app mw)
    ∧ prompt_text_editor (app mw') = prompt_text_editor (app mw)
    ∧ current_conversation_api_key_display mw'
      = (if PyStr.truthy (get_api_key conv)
         then "API Key: " +:+ get_api_key conv else "API Key: N/A")
    ∧ model_name_display mw' = "Model: " +:+ get_model_name conv
    ∧ total_tokens_used_display (app mw')
      = "Tokens in context: " +:+ PyStr.of_int (token_count (OpenAI_chat_session conv))
    ∧ (PyStr.startswith (get_model_name conv) "gpt-5" = true →
         reasoning_effort_combobox_state mw' = "readonly"
         ∧ known_effort (reasoning_effort_ui_var mw')
         ∧ (∀ e, reasoning_effort (OpenAI_chat_session conv) = Some e → known_effort e →
                 reasoning_effort_ui_var mw' = e))
    ∧ (PyStr.startswith (get_model_name conv) "gpt-5" = false →
         reasoning_effort_combobox_state mw' = "disabled"
         ∧ reasoning_effort_ui_var mw' = "(unavailable)").
Proof.
  intros Hslot Hi Hact Hrec.
  unfold _on_active_conversation_change. unfold bind at 1. unfold get_self at 1.
  cbn beta iota. rewrite Hact.
  (* the redraw *)
  destruct (display_conversation_effects conv (app mw) w Hrec)
    as (a1 & Hdisp & Hmir & Hsync & Hact1 & Hcb1 & Hed1 & Hbox1).
  rewrite Hact in Hact1.
  unfold bind at 1. rewrite (on_app_run _ mw w _ _ _ Hdisp).
  rewrite (write_back_same mw a1 i conv) by done.
  (* the key label *)
  unfold bind at 1. unfold _update_api_key_display, update_self, modify. cbn beta iota.
  (* the token label *)
  unfold bind at 1.
  assert (_update_token_count_display (W:=W) (a1, w)
          = (Returns tt,
             (set_total_tokens_used_display
                ("Tokens in context: " +:+ PyStr.of_int (token_count (OpenAI_chat_session conv)))
                a1, w))) as Htok.
  { unfold _update_token_count_display, bind, get_self, update_self, modify. simpl.
    by rewrite Hact1. }
  match goal with
  | |- context [on_app _update_token_count_display (?m, w)] =>
      rewrite (on_app_run _ m w _ _ _ Htok);
      rewrite (write_back_same m _ i conv) by done
  end.
  (* the model label *)
  unfold bind at 1. cbn beta iota.
  (* the reasoning selector *)
  unfold bind at 1.
  match goal with
  | |- context [_update_reasoning_controls (?m, w)] =>
      destruct (update_reasoning_controls_run m w conv Hact1)
        as (effort & state & -> & Hyes & Hno)
  end.
  (* the prompt counter *)
  match goal with
  | |- context [on_app _ (?m, w)] =>
      destruct (prompt_token_count_cases tiktoken py_str (app m) w) as (label & Hcount & _);
      rewrite (on_app_run _ m _ _ _ _ Hcount);
      rewrite (write_back_same m _ i conv) by done
  end.
  eexists. split; [reflexivity|]. simpl. by split_and!.
Qed.

Lemma write_back_coherent (mw : MainWindow) (a' : AIChatApp) :
  active_conversation (app mw) = (active_slot mw ≫= λ i, conversations mw !! i) →
  active_conversation a' = active_conversation (app mw) →
  write_back mw a' = set_app a' mw.
Proof.
  intros Hco Hsame. destruct (active_conversation (app mw)) as [c|] eqn:Hact.
  - destruct (active_slot mw) as [i|] eqn:Hslot; [|done]. simpl in Hco.
    by apply (write_back_same mw a' i c).
  - by apply write_back_none.
Qed.

Lemma conversation_of_result_ok (k m n : string) (e : option string) :
  n ≠ EmptyString →
  conversation_ok (conversation_of_result k m n e)
  ∧ name (conversation_of_result k m n e) = n
  ∧ chat_history (conversation_of_result k m n e) = []
  ∧ get_api_key (conversation_of_result k m n e) = k
  ∧ get_model_name (conversation_of_result k m n e) = m
  ∧ (reasoning_effort (OpenAI_chat_session (conversation_of_result k m n e)) = e
     ∨ reasoning_effort (OpenAI_chat_session (conversation_of_result k m n e)) = None).
Proof.
  intros Hn. unfold conversation_of_result, apply_effort, conversation_ok, effort_fits.
  destruct (effort_allowed e) eqn:Ha; simpl.
  - rewrite reasoning_compatible_spec.
    destruct (PyStr.startswith m "gpt-5") eqn:Hs; simpl.
    + apply effort_allowed_spec in Ha as (e' & -> & Hk).
      split_and!; try done; try (by constructor); by left.
    + split_and!; try done; try (by constructor); by right.
  - split_and!; try done; try (by constructor); by right.
Qed.


(** [_add_new_conversation] by the result of the dialog and the outcome of
    the constructor. *)
Lemma add_new_conversation_cases (mw : MainWindow) (w : world W) (file : key_file) :
  window_ok mw →
  (∀ key proposed w0 k m n e w1,
     open_dialog key proposed w0 = (Some (k, m, n, e), w1) → n ≠ EmptyString) →
  ∃ (key : option string) (w1 : world W)
    (res : option (string * string * string * option string))
    (mw' : MainWindow) (w' : world W),
    _read_api_key_from_file file (mw, w) = (Returns key, (mw, w1))
    ∧ open_dialog key ("Conversation " +:+ PyStr.of_int (conversation_counter mw)) w1
      = (res, w')
    ∧ _add_new_conversation tiktoken py_str open_dialog new_client file (mw, w)
      = (Returns tt, (mw', w'))
    ∧ window_ok mw'
    ∧ NoDup (map name (conversations mw'))
    ∧ match res with
      | None => mw' = mw
      | Some (k, m, n, e) =>
          if bool_decide (n ∈ map name (conversations mw))
          then
            mw' = set_app (showerror "Duplicate Name" (duplicate_name_text n) (app mw)) mw
          else
            match new_client k with
            | Raises x =>
                mw' = set_app (showerror "Conversation Error" (conversation_error_text x)
                                 (app mw)) mw
            | Returns _ =>
                conversations mw' = conversations mw ++ [conversation_of_result k m n e]
                ∧ active_conversation (app mw') = Some (conversation_of_result k m n e)
                ∧ active_slot mw' = Some (length (conversations mw))
                ∧ conversation_counter mw' = conversation_counter mw + 1
                ∧ conversation_name_list mw' = map name (conversations mw) ++ [n]
                ∧ conversation_combobox (app mw') = n
                ∧ children (messages_tree (app mw')) = []
                ∧ model_name_display mw' = "Model: " +:+ m
            end
      end.
Proof.
  intros Hok Hdialog.
  pose proof Hok as (Hnodup & Hall & Hnames & Hco & Hsync & Hmir).
  destruct (read_api_key_frame file mw w) as (key & w1 & Hread).
  exists key, w1.
  destruct (open_dialog key ("Conversation " +:+ PyStr.of_int (conversation_counter mw)) w1)
    as [res w2] eqn:Hdlg.
  exists res.
  unfold _add_new_conversation. unfold bind at 1. rewrite Hread.
  unfold bind at 1. unfold get_self at 1. cbn beta iota.
  unfold bind at 1. rewrite Hdlg. cbn beta iota.
  destruct res as [[[[k m] n] e]|]; [|by exists mw, w2].
  pose proof (Hdialog _ _ _ _ _ _ _ _ Hdlg) as Hn.
  destruct (bool_decide (n ∈ map name (conversations mw))) eqn:Hdup.
  - (* the name is taken *)
    eexists _, _. split; [done|]. split; [done|]. split.
    + unfold on_app, update_self, modify. cbn beta iota.
      rewrite (write_back_coherent mw _ Hco) by done. reflexivity.
    + split; [|split; [done|done]]. unfold window_ok. simpl. by split_and!.
  - (* the constructor is called *)
    apply bool_decide_eq_false in Hdup.
    unfold bind at 1. unfold try_except at 1. unfold bind at 1. unfold lift at 1.
    unfold create_conversation.
    destruct (new_client k) as [[]|x]; cbn beta iota; unfold obind at 1; cbn beta iota.
    2: { (* it raised: an error box and nothing else *)
      unfold bind at 1. unfold on_app, update_self, modify. cbn beta iota.
      rewrite (write_back_coherent mw _ Hco) by done.
      eexists _, _. split; [done|]. split; [done|]. split; [reflexivity|].
      split; [|split; [done|done]]. unfold window_ok. simpl. by split_and!. }
    (* a new conversation *)
    unfold ret at 1. cbn beta iota zeta.
    change (apply_effort e m (new_Conversation k n m)) with (conversation_of_result k m n e).
    destruct (conversation_of_result_ok k m n e Hn)
      as ((Hne & Hrec & Hfit) & Hname & Hhist & Hkey & Hmodel & Heff).
    unfold bind at 1. unfold update_self at 1. unfold modify at 1. cbn beta iota.
    unfold bind at 1. unfold _update_conversation_combobox.
    unfold bind at 1. unfold update_self at 1. unfold modify at 1. cbn beta iota.
    unfold bind at 1. unfold get_self at 1. cbn beta iota.
    cbn [app set_store set_names set_app].
    assert (∀ (ms : MainWindow) (ws : world W),
      match active_conversation (app mw) with
      | Some conv =>
          update_self (λ m0, set_app (set_conversation_combobox (name conv) (app m0)) m0)
      | None => ret tt
      end (ms, ws)
      = (Returns tt,
         (set_app (set_conversation_combobox
                     (match active_conversation (app mw) with
                      | Some conv => name conv
                      | None => conversation_combobox (app ms)
                      end) (app ms)) ms, ws))) as Hcombo.
    { intros ms ws. destruct (active_conversation (app mw)); [done|].
      unfold ret. by destruct ms as [[] ? ? ? ? ? ? ? ?]. }
    rewrite Hcombo. cbn beta iota.
    unfold bind at 1. unfold update_self at 1. unfold modify at 1. cbn beta iota.
    unfold bind at 1. unfold update_self at 1. unfold modify at 1. cbn beta iota.
    match goal with
    | |- context [_on_active_conversation_change _ _ (?ms, w2)] =>
        destruct (active_change_effects ms w2 (length (conversations mw))
                    (conversation_of_result k m n e))
          as (mw' & Hrun & Hconvs & Hslot & Hnl & Hcnt & Hact & Hmir' & Hsync' & Hcb & _ & _
              & _ & Hmd & _)
    end.
    { done. }
    { simpl. by rewrite lookup_app_r, Nat.sub_diag. }
    { done. }
    { by rewrite Hhist. }
    simpl in Hconvs, Hslot, Hnl, Hcnt, Hcb.
    exists mw', w2. split; [done|]. split; [done|]. split; [exact Hrun|].
    assert (NoDup (map name (conversations mw'))) as Hnodup'.
    { rewrite Hconvs, map_app. simpl. rewrite Hname.
      apply NoDup_app. split; [done|]. split; [|by apply NoDup_singleton].
      intros x Hx Hx'. apply list_elem_of_singleton in Hx'. by subst. }
    split; [|split; [exact Hnodup'|]].
    + unfold window_ok. rewrite Hact, Hslot, Hnl, Hconvs. split_and!; try done.
      * by rewrite <- Hconvs.
      * apply Forall_app. split; [done|]. by repeat constructor.
      * simpl. by rewrite lookup_app_r, Nat.sub_diag.
      * intros c [= <-]. split; [done|]. by rewrite Hcb.
    + rewrite Hhist in Hmir'. inversion Hmir'.
      rewrite Hname in Hcb. rewrite Hmodel in Hmd. rewrite Hnl, map_app. simpl.
      rewrite Hname. by split_and!.
Qed.

(** Adding a conversation.  In a consistent window, with a dialog that
    never returns an empty name: a cancelled dialog changes nothing; a name
    that is taken is refused with an error box and the conversations stay as
    they were; when the constructor of the conversation raises, the error is
    shown in a box and nothing else changes; otherwise the new conversation,
    built from the dialog's result, is appended and becomes the active one, the
    counter grows by one, the combobox shows its name and the message list is
    empty.  The names stay distinct and the window stays consistent in every
    case. *)
Theorem add_new_conversation_outcome (mw : MainWindow) (w : world W) (file : key_file) :
  window_ok mw →
  (∀ key proposed w0 k m n e w1,
     open_dialog key proposed w0 = (Some (k, m, n, e), w1) → n ≠ EmptyString) →
  ∃ (key : option string) (w1 : world W)
    (res : option (string * string * string * option string))
    (mw' : MainWindow) (w' : world W),
    _read_api_key_from_file file (mw, w) = (Returns key, (mw, w1))
    ∧ open_dialog key ("Conversation " +:+ PyStr.of_int (conversation_counter mw)) w1
      = (res, w')
    ∧ _add_new_conversation tiktoken py_str open_dialog new_client file (mw, w)
      = (Returns tt, (mw', w'))
    ∧ window_ok mw'
    ∧ NoDup (map name (conversations mw'))
    ∧ match res with
      | None => mw' = mw
      | Some (k, m, n, e) =>
          if bool_decide (n ∈ map name (conversations mw))
          then
            mw' = set_app (showerror "Duplicate Name" (duplicate_name_text n) (app mw)) mw
          else
            match new_client k with
            | Raises x =>
                mw' = set_app (showerror "Conversation Error" (conversation_error_text x)
                                 (app mw)) mw
            | Returns _ =>
                conversations mw' = conversations mw ++ [conversation_of_result k m n e]
                ∧ active_conversation (app mw') = Some (conversation_of_result k m n e)
                ∧ active_slot mw' = Some (length (conversations mw))
                ∧ conversation_counter mw' = conversation_counter mw + 1
                ∧ conversation_name_list mw' = map name (conversations mw) ++ [n]
                ∧ conversation_combobox (app mw') = n
                ∧ children (messages_tree (app mw')) = []
                ∧ model_name_display mw' = "Model: " +:+ m
            end
      end.
Proof.
  intros Hok Hdialog.
  destruct (add_new_conversation_cases mw w file Hok Hdialog)
    as (key & w1 & res & mw' & w' & Hread & Hdlg & Hrun & Hok' & Hnodup & Hres).
  exists key, w1, res, mw', w'. by split_and!.
Qed.

Lemma insert_keeps_names (convs : list Conversation) (i : nat) (c c' : Conversation) :
  convs !! i = Some c → name c' = name c →
  map name (<[i := c']> convs) = map name convs.
Proof.
  intros Hi Hname. rewrite list_fmap_insert, Hname.
  apply list_insert_id. by rewrite list_lookup_fmap, Hi.
Qed.

(** Sending a prompt in a consistent window: the call returns and the
    window is consistent afterwards (the list still mirrors the active
    conversation); the conversations keep their names and their order, and
    every conversation but the active one is left as it was. *)
Theorem window_send_prompt_consistent (mw : MainWindow) (w : world W)
  (r : outcome unit) (mw' : MainWindow) (w' : world W) :
  window_ok mw →
  window_send_prompt responses_create tiktoken (mw, w) = (r, (mw', w')) →
  r = Returns tt
  ∧ window_ok mw'
  ∧ map name (conversations mw') = map name (conversations mw)
  ∧ active_slot mw' = active_slot mw
  ∧ (∀ j, active_slot mw ≠ Some j → conversations mw' !! j = conversations mw !! j).
Proof.
  intros Hok. pose proof Hok as (Hnodup & Hall & Hnames & Hco & Hsync & Hmir).
  unfold window_send_prompt, on_app.
  destruct (send_prompt responses_create tiktoken (app mw, w)) as [r0 [a' w0]] eqn:Hrun.
  intros [= <- <- <-].
  pose proof (send_prompt_sync _ _ _ _ _ _ _ Hsync Hrun) as Hsync'.
  destruct (decide (PyStr.strip (prompt_text_editor (app mw) +:+ PyStr.newline) = EmptyString
                    ∨ active_conversation (app mw) = None)) as [Hrefuse | Hgo].
  - (* nothing is sent *)
    assert (r0 = Returns tt ∧ ∃ title text, a' = showerror title text (app mw)) as (-> & Ha').
    { revert Hrun. unfold send_prompt, bind, get_self, update_self, modify. simpl.
      destruct (PyStr.strip (prompt_text_editor (app mw) +:+ PyStr.newline)); simpl.
      - intros [= <- <- <-]. split; [done|]. by eexists _, _.
      - destruct Hrefuse as [? | ->]; [done|]. simpl.
        intros [= <- <- <-]. split; [done|]. by eexists _, _. }
    destruct Ha' as (title & text & ->).
    rewrite (write_back_coherent mw _ Hco) by done.
    split; [done|]. unfold window_ok. simpl. by split_and!.
  - (* the prompt goes to the active conversation *)
    destruct (active_conversation (app mw)) as [c|] eqn:Hact; [|by destruct Hgo; right].
    destruct (active_slot mw) as [i|] eqn:Hslot; [|done]. simpl in Hco.
    symmetry in Hco.
    assert (conversation_ok c) as (Hne & Hrec & Hfit).
    { rewrite Forall_forall in Hall. apply Hall. by eapply list_elem_of_lookup_2. }
    destruct (Hmir c eq_refl) as [Hmirror Hcb].
    assert (PyStr.strip (prompt_text_editor (app mw) +:+ PyStr.newline) ≠ EmptyString)
      as Hprompt by (intros He; apply Hgo; by left).
    assert (conversation_combobox (app mw) ≠ EmptyString) as Hcombo by congruence.
    destruct (send_prompt_mirror_cases responses_create tiktoken _ _ c _ _ _
                Hact Hmirror Hsync Hcombo Hprompt Hrun)
      as (-> & _ & Hcb' & c' & Hact' & Hmirror' & Hname' & Heff' & Hmodel' & Hcases).
    unfold write_back. rewrite Hslot, Hact'. simpl.
    split; [done|]. split; [|split; [|split]].
    + unfold window_ok. simpl. rewrite (insert_keeps_names _ _ _ _ Hco Hname').
      split_and!; try done.
      * apply Forall_insert; [done|]. split_and!.
        -- congruence.
        -- destruct Hcases as [(-> & _) | (reply & -> & _)]; [done|].
           apply Forall_app. split; [done|].
           constructor; [by eexists _, _|]. constructor; [by eexists _, _ | constructor].
        -- unfold effort_fits in *. by rewrite Heff', Hmodel'.
      * rewrite Hact'. symmetry. apply list_lookup_insert_eq. by eapply lookup_lt_Some.
      * intros c0. rewrite Hact'. intros [= <-]. split; [done|]. congruence.
    + by apply (insert_keeps_names _ _ c).
    + done.
    + intros j Hj. apply list_lookup_insert_ne. congruence.
Qed.

(** Changing the effort in the main window.  The effort of the active
    session is replaced only when its model is of the gpt-5 family and the
    selector holds one of the three efforts; otherwise nothing changes.  In
    both cases the window stays consistent, so a session never holds an effort
    its model does not take. *)
Theorem reasoning_effort_change_guarded (mw : MainWindow) (w : world W) :
  window_ok mw →
  ∃ mw' : MainWindow,
    _on_reasoning_effort_change (mw, w) = (Returns tt, (mw', w))
    ∧ window_ok mw'
    ∧ map name (conversations mw') = map name (conversations mw)
    ∧ match active_conversation (app mw) with
      | None => mw' = mw
      | Some conv =>
          if PyStr.startswith (get_model_name conv) "gpt-5"
             && is_known_effort (reasoning_effort_ui_var mw)
          then
            active_conversation (app mw')
            = Some (set_session
                      (set_reasoning_effort (Some (reasoning_effort_ui_var mw))
                         (OpenAI_chat_session conv)) conv)
          else mw' = mw
      end.
Proof.
  intros Hok. pose proof Hok as (Hnodup & Hall & Hnames & Hco & Hsync & Hmir).
  unfold _on_reasoning_effort_change, bind, get_self. cbn beta iota.
  destruct (active_conversation (app mw)) as [conv|] eqn:Hact; [|by exists mw].
  rewrite reasoning_compatible_spec.
  destruct (PyStr.startswith (get_model_name conv) "gpt-5") eqn:Hs; [|by exists mw].
  destruct (is_known_effort (reasoning_effort_ui_var mw)) eqn:Hk; [|by exists mw].
  destruct (active_slot mw) as [i|] eqn:Hslot; [|done]. simpl in Hco. symmetry in Hco.
  assert (conversation_ok conv) as (Hne & Hrec & Hfit).
  { rewrite Forall_forall in Hall. apply Hall. by eapply list_elem_of_lookup_2. }
  destruct (Hmir conv eq_refl) as [Hmirror Hcb].
  unfold on_app, update_self, modify. cbn beta iota.
  unfold write_back. rewrite Hslot. simpl.
  eexists. split; [reflexivity|]. simpl.
  rewrite (insert_keeps_names _ _ conv) by done.
  split; [|by split]. unfold window_ok. simpl.
  rewrite (insert_keeps_names _ _ conv) by done.
  split_and!; try done.
  - apply Forall_insert; [done|]. split_and!; try done.
    unfold effort_fits. simpl. split; [by apply is_known_effort_spec | done].
  - symmetry. apply list_lookup_insert_eq. by eapply lookup_lt_Some.
  - by intros c [= <-].
Qed.

End MainWindowFacts.

(** A session whose effort fits its model sends that effort with every
    request, and sends none when it has none. *)
Theorem effort_is_sent {W : Type} (responses_create : request → W → outcome response * W)
  (s : OpenAIChatSession) (w : world W) (prompt : string) (history : option (list pyval)) :
  effort_fits s →
  ∃ (result : option string) (s' : OpenAIChatSession) (w' : world W) (new : list request),
    send_message_to_OpenAI_API responses_create prompt history (s, w)
      = (Returns result, (s', w'))
    ∧ sent w' = sent w ++ new
    ∧ new ≠ []
    ∧ Forall (λ r, req_reasoning r = reasoning_effort s) new
    ∧ effort_fits s'.
Proof.
  intros Hfit.
  destruct (send_message_to_OpenAI_API_returns responses_create s w prompt history)
    as (result & s' & w' & rest & Hrun & Hsent & Hrest & _ & Hmodel & Heff & _).
  exists result, s', w', (first_request s prompt history :: rest).
  split; [done|]. split; [done|]. split; [done|].
  assert ((if _is_reasoning_compatible_model (model s) && effort_allowed (reasoning_effort s)
           then reasoning_effort s else None) = reasoning_effort s) as Hgate.
  { unfold effort_fits in Hfit. rewrite reasoning_compatible_spec.
    destruct (reasoning_effort s) as [e|]; [|by destruct (_ && _)].
    destruct Hfit as [Hk ->].
    assert (effort_allowed (Some e) = true) as -> by (apply effort_allowed_spec; eauto).
    done. }
  split.
  - constructor; [exact Hgate|].
    destruct Hrest as [-> | ->]; [constructor|]. constructor; [exact Hgate | constructor].
  - unfold effort_fits. by rewrite Heff, Hmodel.
Qed.

(** ** The further properties on examples *)

Example window_one_state :
  map name (conversations window_one) = ["Conversation 1"]
  ∧ map get_api_key (conversations window_one) = ["sk-file"]
  ∧ conversation_counter window_one = 2
  ∧ conversation_combobox (app window_one) = "Conversation 1"
  ∧ current_conversation_api_key_display window_one = "API Key: sk-file"
  ∧ model_name_display window_one = "Model: gpt-5"
  ∧ reasoning_effort_ui_var window_one = "high"
  ∧ reasoning_effort_combobox_state window_one = "readonly"
  ∧ total_tokens_used_display (app window_one) = "Tokens in context: 0".
Proof. vm_compute. by split_and!. Qed.

Lemma sample_dialog_names {W : Type} (key : option string) (proposed : string)
  (w0 : world W) (k m n : string) (e : option string) (w1 : world W) :
  sample_dialog key proposed w0 = (Some (k, m, n, e), w1) → n ≠ EmptyString.
Proof. by intros [= _ _ <- _ _]. Qed.

Lemma sample_add_ok (r : outcome unit) (mw' : MainWindow)
  (w' : world (list (outcome response))) :
  _add_new_conversation sample_tiktoken cpython_str sample_dialog sample_client
    (FileContent "sk-file") (new_MainWindow, start_world []) = (r, (mw', w')) →
  window_ok mw'.
Proof.
  intros Hrun.
  destruct (add_new_conversation_cases sample_tiktoken cpython_str sample_dialog sample_client
              new_MainWindow (start_world []) (FileContent "sk-file") new_MainWindow_ok
              sample_dialog_names)
    as (key & w1 & res & mw'' & w'' & _ & _ & Hrun' & Hok & _).
  rewrite Hrun in Hrun'. by injection Hrun' as _ <- _.
Qed.

Lemma window_one_run :
  _add_new_conversation sample_tiktoken cpython_str sample_dialog sample_client
    (FileContent "sk-file") (new_MainWindow, start_world [])
  = (Returns tt, (window_one, start_world [])).
Proof. vm_compute. reflexivity. Qed.

Lemma window_one_ok : window_ok window_one.
Proof. exact (sample_add_ok _ _ _ window_one_run). Qed.

Lemma window_ok_typing (text : string) (mw : MainWindow) :
  window_ok mw → window_ok (set_app (set_prompt_text_editor text (app mw)) mw).
Proof. intros (H1 & H2 & H3 & H4 & H5 & H6). unfold window_ok. simpl. by split_and!. Qed.

Lemma window_typed_ok : window_ok window_typed.
Proof. exact (window_ok_typing "hi" window_one window_one_ok). Qed.

Example load_models_example :
  let run := NewConversationDialog._load_models sample_models
               (NewConversationDialog.new (Some " sk-1 ") "Conversation 1", start_world []) in
  run.1 = Returns tt
  ∧ NewConversationDialog.model_combobox_values run.2.1 = ["gpt-4o"; "gpt-5"]
  ∧ NewConversationDialog.model_var run.2.1 = "gpt-4o"
  ∧ NewConversationDialog.reasoning_effort_var run.2.1 = "(unavailable)"
  ∧ NewConversationDialog.ok_button_enabled run.2.1 = true
  ∧ NewConversationDialog.status_var run.2.1 = "Models loaded successfully."
  ∧ run.2.2 = start_world [].
Proof. vm_compute. by split_and!. Qed.

Example load_models_rejected :
  let run := NewConversationDialog._load_models sample_models
               (NewConversationDialog.new (Some "sk-2") "Conversation 1", start_world []) in
  run.1 = Returns tt
  ∧ NewConversationDialog.model_combobox_values run.2.1 = []
  ∧ NewConversationDialog.ok_button_enabled run.2.1 = false
  ∧ NewConversationDialog.load_models_button_enabled run.2.1 = true
  ∧ length (NewConversationDialog.error_boxes run.2.1) = 1%nat
  ∧ length (console run.2.2) = 1%nat.
Proof. vm_compute. by split_and!. Qed.

Lemma other_error_no_retry_witness :
  scripted (first_request chained_session "again" (Some earlier_history))
    (remote (start_world [])) = (Raises (Exception "Connection error."), [])
  ∧ PyStr.contains "previous_response_not_found" "Connection error." = false
  ∧ PyStr.contains "Previous response" "Connection error." = false
  ∧ (send_message_to_OpenAI_API scripted "again" (Some earlier_history)
       (chained_session, start_world [])).2.1 = chained_session.
Proof.
  split; [reflexivity|]. split; [reflexivity|]. split; [reflexivity|].
  rewrite (other_error_no_retry scripted chained_session (start_world []) "again"
             (Some earlier_history) (Exception "Connection error.") []
             eq_refl eq_refl eq_refl).
  reflexivity.
Defined.

Lemma failed_retry_witness :
  let w := start_world [Raises lost_error] in
  scripted (first_request chained_session "again" (Some earlier_history)) (remote w)
    = (Raises lost_error, [])
  ∧ lost_thread (exn_text lost_error) = true
  ∧ scripted (retry_request chained_session "again" (Some earlier_history)) []
    = (Raises (Exception "Connection error."), [])
  ∧ ∃ s' w',
      send_message_to_OpenAI_API scripted "again" (Some earlier_history) (chained_session, w)
        = (Returns None, (s', w'))
      ∧ previous_response_id s' = None
      ∧ req_input (first_request s' "once more" (Some earlier_history))
        = map history_message earlier_history ++ [user_message "once more"].
Proof.
  split; [reflexivity|]. split; [reflexivity|]. split; [reflexivity|].
  destruct (failed_retry_then_full_history scripted chained_session
              (start_world [Raises lost_error]) "again" (Some earlier_history)
              lost_error (Exception "Connection error.") [] []
              "once more" (Some earlier_history) eq_refl eq_refl eq_refl)
    as (s' & w' & Hrun & Hprev & _ & Hinput & _).
  exists s', w'. split; [exact Hrun|]. split; [exact Hprev | exact Hinput].
Defined.

Lemma token_count_after_exchange_witness :
  let c := new_Conversation "sk-1" "Conversation 1" "gpt-5" in
  let run := send_message scripted sample_tiktoken "hi"
               (c, start_world [Returns (text_response "hello" "resp_1")]) in
  run.1 = Returns (Some "hello")
  ∧ _get_encoding_for_model sample_tiktoken (get_model_name c) = Returns sample_encoding
  ∧ Forall2 (encoded_length sample_encoding) (chat_history run.2.1) [2; 5]
  ∧ token_count (OpenAI_chat_session run.2.1) = sumZ [2; 5].
Proof.
  assert (Forall2 (encoded_length sample_encoding)
            [message "user" "hi"; message "model" "hello"] [2; 5]) as Hlens.
  { constructor; [by eexists|]. constructor; [by eexists | constructor]. }
  split; [reflexivity|]. split; [reflexivity|]. split; [exact Hlens|].
  exact (token_count_after_exchange scripted sample_tiktoken _ _ "hi" "hello" _ _
           sample_encoding [2; 5] demo_run eq_refl Hlens).
Defined.

Lemma second_call_is_chained_witness :
  let c := new_Conversation "sk-1" "Conversation 1" "gpt-5" in
  let w := start_world [Returns (text_response "hello" "resp_1")] in
  response_received scripted (OpenAI_chat_session c) w "hi" (Some (chat_history c))
    = Some (text_response "hello" "resp_1")
  ∧ resp_id (text_response "hello" "resp_1") = Some "resp_1"
  ∧ "resp_1" ≠ EmptyString
  ∧ ∃ c1 w1 result2 c2 w2 req rest,
      send_message scripted sample_tiktoken "hi" (c, w) = (Returns (Some "hello"), (c1, w1))
      ∧ send_message scripted sample_tiktoken "and then?" (c1, w1)
        = (Returns result2, (c2, w2))
      ∧ sent w2 = sent w1 ++ req :: rest
      ∧ req_input req = [user_message "and then?"]
      ∧ req_previous_response_id req = Some "resp_1".
Proof.
  split; [reflexivity|]. split; [reflexivity|]. split; [done|].
  eexists _, _.
  destruct (second_call_is_chained scripted sample_tiktoken
              (new_Conversation "sk-1" "Conversation 1" "gpt-5")
              (start_world [Returns (text_response "hello" "resp_1")])
              "hi" "and then?"
              (text_response "hello" "resp_1") "resp_1" _ _ _
              eq_refl eq_refl ltac:(done) demo_run)
    as (result2 & c2 & w2 & req & rest & Hrun2 & Hsent & Hinput & Hprev & _).
  exists result2, c2, w2, req, rest.
  split; [exact demo_run|]. split; [exact Hrun2|]. split; [exact Hsent|].
  split; [exact Hinput | exact Hprev].
Defined.

Lemma display_mirrors_history_witness :
  Forall is_record (get_history sample_conversation)
  ∧ ∃ a', _display_conversation_in_treeview cpython_str sample_conversation
            (new_AIChatApp, start_world []) = (Returns tt, (a', start_world []))
          ∧ mirrors a' (get_history sample_conversation)
          ∧ length (children (messages_tree a')) = 2%nat.
Proof.
  assert (Forall is_record (get_history sample_conversation)) as Hrec.
  { constructor; [by eexists _, _|]. constructor; [by eexists _, _ | constructor]. }
  split; [exact Hrec|].
  destruct (display_mirrors_history cpython_str sample_conversation new_AIChatApp
              (start_world []) Hrec)
    as (a' & Hrun & Hmir & Hlen & _).
  exists a'. split; [exact Hrun|]. split; [exact Hmir | exact Hlen].
Defined.

Lemma send_prompt_refuses_witness :
  let a := set_prompt_text_editor "   " new_AIChatApp in
  PyStr.strip (prompt_text_editor a +:+ PyStr.newline) = EmptyString
  ∧ ∃ title text,
      send_prompt scripted sample_tiktoken (a, start_world [])
      = (Returns tt, (showerror title text a, start_world []))
      ∧ title = "Prompt Required".
Proof.
  split; [reflexivity|].
  destruct (send_prompt_refuses scripted sample_tiktoken
              (set_prompt_text_editor "   " new_AIChatApp) (start_world [])
              (or_introl eq_refl))
    as (title & text & Hrun & Hblank & _).
  exists title, text. split; [exact Hrun | exact (Hblank eq_refl)].
Defined.

Lemma effort_is_sent_witness :
  effort_fits chained_session
  ∧ ∃ result s' w' new,
      send_message_to_OpenAI_API scripted "again" (Some earlier_history)
        (chained_session, start_world [Returns (text_response "hello again" "resp_2")])
        = (Returns result, (s', w'))
      ∧ sent w' = new
      ∧ Forall (λ r, req_reasoning r = Some "high") new.
Proof.
  assert (effort_fits chained_session) as Hfit.
  { split; [right; by right | reflexivity]. }
  split; [exact Hfit|].
  destruct (effort_is_sent scripted chained_session
              (start_world [Returns (text_response "hello again" "resp_2")])
              "again" (Some earlier_history) Hfit)
    as (result & s' & w' & new & Hrun & Hsent & _ & Hall & _).
  exists result, s', w', new. split; [exact Hrun|]. split; [exact Hsent | exact Hall].
Defined.

Lemma triple_eta {A B C : Type} (x : A * (B * C)) : x = (x.1, (x.2.1, x.2.2)).
Proof. by destruct x as [? [? ?]]. Qed.

Lemma add_new_conversation_witness :
  window_ok new_MainWindow
  ∧ ∃ mw' w',
      _add_new_conversation sample_tiktoken cpython_str sample_dialog sample_client
        (FileContent "sk-file")
        (new_MainWindow, start_world []) = (Returns tt, (mw', w'))
      ∧ window_ok mw'
      ∧ NoDup (map name (conversations mw')).
Proof.
  split; [exact new_MainWindow_ok|].
  destruct (add_new_conversation_outcome sample_tiktoken cpython_str sample_dialog sample_client
              new_MainWindow (start_world []) (FileContent "sk-file") new_MainWindow_ok
              sample_dialog_names)
    as (key & w1 & res & mw' & w' & _ & _ & Hrun & Hok & Hnodup & _).
  exists mw', w'. split; [exact Hrun|]. split; [exact Hok | exact Hnodup].
Defined.

Lemma window_send_prompt_witness :
  let run := window_send_prompt scripted sample_tiktoken
               (window_typed, start_world [Returns (text_response "hello" "resp_1")]) in
  window_ok window_typed
  ∧ run.1 = Returns tt
  ∧ window_ok run.2.1
  ∧ map name (conversations run.2.1) = map name (conversations window_typed).
Proof.
  cbn zeta.
  split; [exact window_typed_ok|].
  pose proof (window_send_prompt_consistent scripted sample_tiktoken window_typed
              (start_world [Returns (text_response "hello" "resp_1")])
              _ _ _
              window_typed_ok
              (triple_eta (window_send_prompt scripted sample_tiktoken
               (window_typed, start_world [Returns (text_response "hello" "resp_1")]))))
    as (Hr & Hok & Hnames & _).
  split; [exact Hr|]. split; [exact Hok | exact Hnames].
Defined.

Example typed_run_state :
  map chat_history (conversations typed_run.2.1)
  = [[message "user" "hi"; message "model" "hello"]]
  ∧ map item_text (children (messages_tree (app typed_run.2.1)))
    = ["User: hi"; "Model: hello"]
  ∧ total_tokens_used_display (app typed_run.2.1) = "Tokens in context: 7"
  ∧ prompt_text_editor (app typed_run.2.1) = EmptyString
  ∧ map req_reasoning (sent typed_run.2.2) = [Some "high"].
Proof. vm_compute. by split_and!. Qed.

Lemma reasoning_effort_change_witness :
  window_ok window_one
  ∧ ∃ mw', _on_reasoning_effort_change (window_one, start_world [])
           = (Returns tt, (mw', start_world []))
           ∧ window_ok mw'.
Proof.
  split; [exact window_one_ok|].
  destruct (reasoning_effort_change_guarded window_one
              (start_world []) window_one_ok)
    as (mw' & Hrun & Hok & _).
  exists mw'. split; [exact Hrun | exact Hok].
Defined.


Lemma sample_conversation_records : Forall is_record (get_history sample_conversation).
Proof. constructor; [by eexists _, _|]. constructor; [by eexists _, _ | constructor]. Qed.

Lemma drawn_window_sync : tree_in_sync drawn_window.
Proof.
  exact (display_conversation_sync cpython_str sample_conversation new_AIChatApp
           (start_world []) _ _ _ sample_conversation_records
           (triple_eta (_display_conversation_in_treeview cpython_str sample_conversation
                          (new_AIChatApp, start_world [])))).
Qed.

Lemma select_shows_full_text_witness :
  tree_in_sync drawn_window
  ∧ Forall (λ n, n ∈ map iid (children (messages_tree drawn_window))) [2%nat]
  ∧ ∃ a', _on_treeview_message_select sample_tiktoken cpython_str [2%nat]
            (drawn_window, start_world []) = (Returns tt, (a', start_world []))
          ∧ ∃ text, stored_message_text drawn_window 2%nat = Returns (VStr text)
                    ∧ message_text a' = text.
Proof.
  assert (Forall (λ n, n ∈ map iid (children (messages_tree drawn_window))) [2%nat])
    as Hsel.
  { rewrite drawn_lines. simpl. constructor; [set_solver | constructor]. }
  split; [exact drawn_window_sync|]. split; [exact Hsel|].
  destruct (select_shows_full_text sample_tiktoken cpython_str drawn_window
              (start_world []) [2%nat]
              drawn_window_sync Hsel)
    as (a' & Hrun & _ & _ & _ & item & role & text & _ & _ & _ & Hstored & Hshown & _).
  exists a'. split; [exact Hrun|]. exists text. split; [exact Hstored | exact Hshown].
Defined.




(** The redraw of the sample conversation: both lines, and the whole reply
    behind the shortened line. *)
Example redraw_gives_full_text :
  map item_text (children (messages_tree drawn_window))
  = ["User: hi"; "Model: The quick brown fox ..."]
  ∧ stored_message_text drawn_window 2%nat
    = Returns (VStr "The quick brown fox jumps over the lazy dog").
Proof. vm_compute. by split. Qed.

(** A history record whose text is a short list is drawn by the [str] of the
    list; a text without length and a role that is not a string stop the
    redraw with the error of the interpreter. *)
Example list_text_is_drawn :
  let record := VDict [("role", VStr "user"); ("message_text", VList [VStr "a"; VStr "b"])] in
  let run := _display_conversation_in_treeview cpython_str
               (set_chat_history [record] sample_conversation)
               (new_AIChatApp, start_world []) in
  run.1 = Returns tt
  ∧ map item_text (children (messages_tree run.2.1)) = ["User: ['a', 'b']"]
  ∧ message_node_to_content run.2.1 !! 1%nat = Some record.
Proof. vm_compute. by split_and!. Qed.

Example number_text_raises :
  (_display_conversation_in_treeview cpython_str
     (set_chat_history [VDict [("role", VStr "user"); ("message_text", VInt 5)]]
        sample_conversation)
     (new_AIChatApp, start_world [])).1
  = Raises (Exception "object of type 'int' has no len()").
Proof. vm_compute. reflexivity. Qed.

Example number_role_raises :
  (_display_conversation_in_treeview cpython_str
     (set_chat_history [VDict [("role", VInt 5); ("message_text", VStr "hi")]]
        sample_conversation)
     (new_AIChatApp, start_world [])).1
  = Raises (Exception "'int' object has no attribute 'capitalize'").
Proof. vm_compute. reflexivity. Qed.

(** A constructor that raises: the error is shown and no conversation is
    added. *)
Example conversation_error_run :
  let run := _add_new_conversation sample_tiktoken cpython_str sample_dialog failing_client
               (FileContent "sk-file") (new_MainWindow, start_world []) in
  run.1 = Returns tt
  ∧ conversations run.2.1 = []
  ∧ active_conversation (app run.2.1) = None
  ∧ error_boxes (app run.2.1)
    = [("Conversation Error",
        "Could not create conversation:" +:+ PyStr.newline +:+ "Connection setup failed")].
Proof. vm_compute. by split_and!. Qed.
